(** * Transaction submission of the Quorum ledger connector

    A shallow embedding of the signing-credential dispatch and of the
    receipt poller of [PluginLedgerConnectorQuorum]
    (plugin-ledger-connector-quorum.ts): [transact], [transactSigned],
    [transactGethKeychain], [transactPrivateKey],
    [transactCactusKeychainRef] and [pollForTxReceipt].

    The connector talks to three things it does not own: the web3 client
    (and through it the ledger node), the wall clock, and the keychain
    plugins of the plugin registry.  They are the parameters of the
    development: an arbitrary type [Node] of outside states and an
    arbitrary record [web3] of operations on it.  Asynchronous methods are
    state-passing functions that return a settled promise. *)

From Stdlib Require Import String ZArith List Bool Lia.
Import ListNotations.

Local Open Scope string_scope.
Local Open Scope Z_scope.

(** ** Data model *)

(** Modelled from the spec: the generated enum [Web3SigningCredentialType]
    (generated/openapi/typescript-axios) is not among the sources.  The four
    members are the four credential variants; [UNRECOGNIZED raw] stands for
    any other run-time value [raw] of the [type] field, which the [default]
    branch of the [switch] in [transact] receives. *)
Inductive Web3SigningCredentialType : Type :=
| CACTUSKEYCHAINREF
| GETHKEYCHAINPASSWORD
| NONE
| PRIVATEKEYHEX
| UNRECOGNIZED (raw : string).

(** The credential as the JavaScript object it is at run time: the tag and
    the fields of every variant, each possibly [undefined].  The casts
    [web3SigningCredential as Web3SigningCredential...] of the source do
    not check anything, the strategies just read the fields. *)
Record Web3SigningCredential : Type := {
  type : Web3SigningCredentialType;
  ethAccount : option string;
  secret : option string;
  keychainEntryKey : option string;
  keychainId : option string
}.

Record TransactionConfig : Type := {
  from : option string;
  to : option string;
  data : option string;
  gas : option string;
  gasPrice : option string;
  value : option string;
  nonce : option string;
  rawTransaction : option string
}.

Record RunTransactionRequest : Type := {
  transactionConfig : TransactionConfig;
  web3SigningCredential : Web3SigningCredential;
  timeoutMs : option Z
}.

Record TransactionReceipt : Type := {
  status : bool;
  transactionHash : string;
  contractAddress : option string
}.

Record RunTransactionResponse : Type := {
  transactionReceipt : TransactionReceipt
}.

(** The object [web3.eth.accounts.signTransaction] resolves to; the field is
    [rawTransaction] in the source. *)
Record SignedTransaction : Type := {
  signedRawTransaction : option string;
  signedTransactionHash : option string
}.

(** The [Error] objects that can reach a caller.  The source builds every one
    of its own with [new Error(message)]; a constructor per [throw] site
    keeps the parts of the message that vary. *)
Inductive Error : Type :=
| ExternalError (message : string)
    (* made outside the connector: by web3, the node or a keychain plugin *)
| ChecksFalsy (subject : string)
    (* Checks.truthy(value, subject) on a falsy value *)
| UnrecognizedWeb3SigningCredentialType (raw : string)
    (* transact(): "Unrecognized Web3SigningCredentialType: ..." *)
| ExpectedPreSignedRawTransaction
    (* transact(): "Expected pre-signed raw transaction ..." *)
| FailedToSignEthTransaction
    (* transactPrivateKey(): "Failed to sign eth transaction. ..." *)
| FailedToInvokePersonalSendTransaction (innerException : Error)
    (* transactGethKeychain(): "Failed to invoke
       web3.eth.personal.sendTransaction(). InnerException: ..." *)
| PollTimedOut (timeoutMs : Z) (polls : nat).
    (* pollForTxReceipt(): "Timed out ${timeoutMs}ms, polls=${tries}" *)

(** A promise once awaited: fulfilled, rejected, or never settled (in the
    model: not settled within the fuel of the poll loop, or left pending by
    the outside). *)
Inductive Promise (A : Type) : Type :=
| Fulfilled (a : A)
| Rejected (e : Error)
| Pending.

Arguments Fulfilled {A} a.
Arguments Rejected {A} e.
Arguments Pending {A}.

(** What a collaborator answers.  Its rejections are errors of its own
    making, never one of the connector's. *)
Inductive Settled (A : Type) : Type :=
| Resolves (a : A)
| Rejects (message : string)
| NeverSettles.

Arguments Resolves {A} a.
Arguments Rejects {A} message.
Arguments NeverSettles {A}.

Definition await {A} (s : Settled A) : Promise A :=
  match s with
  | Resolves a => Fulfilled a
  | Rejects message => Rejected (ExternalError message)
  | NeverSettles => Pending
  end.

Inductive PluginAspect : Type :=
| KEYCHAIN
| LEDGER_CONNECTOR
| ATOMIC_SWAP.

Definition PluginAspect_eqb (a b : PluginAspect) : bool :=
  match a, b with
  | KEYCHAIN, KEYCHAIN => true
  | LEDGER_CONNECTOR, LEDGER_CONNECTOR => true
  | ATOMIC_SWAP, ATOMIC_SWAP => true
  | _, _ => false
  end.

(** JavaScript truthiness of a [string | undefined]. *)
Definition truthy (s : option string) : bool :=
  match s with
  | Some s => negb (s =? "")%string
  | None => false
  end.

(** The calls the connector makes to its collaborators, recorded newest
    first in the connector state.  The record is ghost state: the source has
    no such log, the theorems use it to say what was attempted. *)
Inductive Call : Type :=
| CallSignTransaction (cfg : TransactionConfig) (secret : option string)
| CallSendSignedTransaction (raw : string)
| CallPersonalSendTransaction (cfg : TransactionConfig) (secret : option string)
| CallGetTransactionReceipt (txHash : string)
| CallFindManyByAspect (aspect : PluginAspect)
| CallKeychainGet (keychainId : string) (key : option string).

Definition isSignOrBroadcast (c : Call) : bool :=
  match c with
  | CallSignTransaction _ _
  | CallSendSignedTransaction _
  | CallPersonalSendTransaction _ _ => true
  | _ => false
  end.

Definition isBroadcast (c : Call) : bool :=
  match c with
  | CallSendSignedTransaction _
  | CallPersonalSendTransaction _ _ => true
  | _ => false
  end.

Definition isGetTransactionReceipt (c : Call) : bool :=
  match c with
  | CallGetTransactionReceipt _ => true
  | _ => false
  end.

(** ** The connector over an arbitrary outside world *)

Section Connector.

(** The state of everything outside the connector: the ledger node, the
    network, the clock, the keychain backends. *)
Variable Node : Type.

(** The part of the web3 client the connector uses, and the clock. *)
Record Web3 : Type := {
  eth_accounts_signTransaction :
    TransactionConfig -> option string -> Node -> Settled SignedTransaction * Node;
  (* resolves with a receipt, or with an Error object (the source tests
     [receipt instanceof Error]), given here by its message *)
  eth_sendSignedTransaction :
    string -> Node -> Settled (string + TransactionReceipt) * Node;
  eth_personal_sendTransaction :
    TransactionConfig -> option string -> Node -> Settled string * Node;
  (* resolves with a receipt or with null *)
  eth_getTransactionReceipt :
    string -> Node -> Settled (option TransactionReceipt) * Node;
  Date_now : Node -> Z * Node
}.

(** A registered plugin.  Only plugins of aspect [KEYCHAIN] are asked for
    [getKeychainId] and [get]. *)
Record ICactusPlugin : Type := {
  getAspect : PluginAspect;
  getKeychainId : string;
  get : option string -> Node -> Settled (option string) * Node
}.

(** The connector instance together with the outside state. *)
Record Connector : Type := {
  node : Node;
  transactionCounter : nat;   (* prometheusExporter's transaction count *)
  pluginRegistry : list ICactusPlugin;
  calls : list Call
}.

Variable web3 : Web3.

(** *** A state and promise monad *)

Definition M (A : Type) : Type := Connector -> Promise A * Connector.

Definition ret {A} (a : A) : M A := fun c => (Fulfilled a, c).

Definition throw {A} (e : Error) : M A := fun c => (Rejected e, c).

Definition bind {A B} (m : M A) (k : A -> M B) : M B :=
  fun c =>
    match m c with
    | (Fulfilled a, c') => k a c'
    | (Rejected e, c') => (Rejected e, c')
    | (Pending, c') => (Pending, c')
    end.

(** [try { m } catch (ex) { handler ex }]. *)
Definition tryCatch {A} (m : M A) (handler : Error -> M A) : M A :=
  fun c =>
    match m c with
    | (Rejected e, c') => handler e c'
    | r => r
    end.

(** A call to a collaborator: recorded, then run on the outside state. *)
Definition call {A} (what : Call) (op : Node -> Settled A * Node) : M A :=
  fun c =>
    let (r, n') := op (node c) in
    (await r, {| node := n';
           transactionCounter := transactionCounter c;
           pluginRegistry := pluginRegistry c;
           calls := what :: calls c |}).

Definition now : M Z :=
  fun c =>
    let (t, n') := Date_now web3 (node c) in
    (Fulfilled t, {| node := n';
                     transactionCounter := transactionCounter c;
                     pluginRegistry := pluginRegistry c;
                     calls := calls c |}).

Notation "x <- m ;; k" := (bind m (fun x => k))
  (at level 100, m at next level, right associativity).

(** Modelled from the spec: [PrometheusExporter.addCurrentTransaction]
    (prometheus-exporter.ts) is not among the sources; the spec describes
    it as incrementing a process-wide transaction counter. *)
Definition addCurrentTransaction : M unit :=
  fun c =>
    (Fulfilled tt, {| node := node c;
                      transactionCounter := S (transactionCounter c);
                      pluginRegistry := pluginRegistry c;
                      calls := calls c |}).

(** Modelled from the spec: [PluginRegistry.findManyByAspect]
    (cactus-core) is not among the sources; the spec describes the
    registry as a read-only lookup of plugins by aspect. *)
Definition findManyByAspect (aspect : PluginAspect) : M (list ICactusPlugin) :=
  fun c =>
    (Fulfilled (filter (fun p => PluginAspect_eqb (getAspect p) aspect)
                       (pluginRegistry c)),
     {| node := node c;
        transactionCounter := transactionCounter c;
        pluginRegistry := pluginRegistry c;
        calls := CallFindManyByAspect aspect :: calls c |}).

(** Modelled from the spec: [Checks.truthy] (cactus-common) is not among
    the sources; it throws when its first argument is falsy. *)
Definition Checks_truthy {A} (v : option A) (subject : string) : M unit :=
  match v with
  | Some _ => ret tt
  | None => throw (ChecksFalsy subject)
  end.

(** *** pollForTxReceipt *)

(** Truthiness of [TransactionReceipt | null]: an object is truthy. *)
Definition isReceipt (txReceipt : option TransactionReceipt) : bool :=
  match txReceipt with
  | Some _ => true
  | None => false
  end.

(** The [do ... while (!timedOut && !txReceipt)] loop.  One unit of fuel
    is one iteration; the result is the last [txReceipt] and [tries]. *)
Fixpoint pollLoop (fuel : nat) (txHash : string) (timeoutMs : Z)
         (startedAt : Z) (tries : nat)
  : M (option TransactionReceipt * nat) :=
  match fuel with
  | O => fun c => (Pending, c)
  | S fuel' =>
      txReceipt <- call (CallGetTransactionReceipt txHash)
                        (eth_getTransactionReceipt web3 txHash) ;;
      let tries := S tries in
      t <- now ;;
      let timedOut := startedAt + timeoutMs <=? t in
      if negb timedOut && negb (isReceipt txReceipt)
      then pollLoop fuel' txHash timeoutMs startedAt tries
      else ret (txReceipt, tries)
  end.

(** [timeoutMs = 60000] is the default value of the parameter. *)
Definition pollForTxReceipt (fuel : nat) (txHash : string)
           (timeoutMs : option Z) : M TransactionReceipt :=
  let timeoutMs := match timeoutMs with Some t => t | None => 60000 end in
  startedAt <- now ;;
  r <- pollLoop fuel txHash timeoutMs startedAt 0 ;;
  match fst r with
  | None => throw (PollTimedOut timeoutMs (snd r))
  | Some txReceipt => ret txReceipt
  end.

(** *** The signing strategies *)

Definition transactSigned (rawTransaction : string) : M RunTransactionResponse :=
  receipt <- call (CallSendSignedTransaction rawTransaction)
                  (eth_sendSignedTransaction web3 rawTransaction) ;;
  match receipt with
  | inl message => throw (ExternalError message)
  | inr receipt =>
      _ <- addCurrentTransaction ;;
      ret {| transactionReceipt := receipt |}
  end.

Definition transactGethKeychain (fuel : nat) (txIn : RunTransactionRequest)
  : M RunTransactionResponse :=
  let transactionConfig := transactionConfig txIn in
  let secret := secret (web3SigningCredential txIn) in
  tryCatch
    (txHash <- call (CallPersonalSendTransaction transactionConfig secret)
                    (eth_personal_sendTransaction web3 transactionConfig secret) ;;
     transactionReceipt <- pollForTxReceipt fuel txHash None ;;
     ret {| transactionReceipt := transactionReceipt |})
    (fun ex => throw (FailedToInvokePersonalSendTransaction ex)).

Definition transactPrivateKey (req : RunTransactionRequest)
  : M RunTransactionResponse :=
  let transactionConfig := transactionConfig req in
  let secret := secret (web3SigningCredential req) in
  signedTx <- call (CallSignTransaction transactionConfig secret)
                   (eth_accounts_signTransaction web3 transactionConfig secret) ;;
  match signedRawTransaction signedTx with
  | Some raw =>
      if negb (raw =? "")%string
      then transactSigned raw
      else throw FailedToSignEthTransaction
  | None => throw FailedToSignEthTransaction
  end.

(** [.find((k) => k.getKeychainId() === keychainId)]: an [undefined]
    [keychainId] is strictly equal to no string. *)
Definition hasKeychainId (keychainId : option string) (k : ICactusPlugin) : bool :=
  match keychainId with
  | Some id => (getKeychainId k =? id)%string
  | None => false
  end.

(** The subject of the [Checks.truthy] message,
    [keychain for ID:"${keychainId}"]. *)
Definition keychainForID (keychainId : option string) : string :=
  "keychain for ID:" ++
  match keychainId with
  | Some id => id
  | None => "undefined"
  end.

Definition transactCactusKeychainRef (req : RunTransactionRequest)
  : M RunTransactionResponse :=
  let transactionConfig := transactionConfig req in
  let cred := web3SigningCredential req in
  plugins <- findManyByAspect KEYCHAIN ;;
  let keychainPlugin := find (hasKeychainId (keychainId cred)) plugins in
  _ <- Checks_truthy keychainPlugin (keychainForID (keychainId cred)) ;;
  privateKeyHex <-
    match keychainPlugin with
    | Some plugin =>
        call (CallKeychainGet (getKeychainId plugin) (keychainEntryKey cred))
             (get plugin (keychainEntryKey cred))
    | None => ret None   (* [keychainPlugin?.get]; not reached *)
    end ;;
  transactPrivateKey
    {| transactionConfig := transactionConfig;
       web3SigningCredential :=
         {| type := PRIVATEKEYHEX;
            ethAccount := ethAccount cred;
            secret := privateKeyHex;
            keychainEntryKey := None;
            keychainId := None |};
       timeoutMs := None |}.

(** *** The dispatcher *)

Definition transact (fuel : nat) (req : RunTransactionRequest)
  : M RunTransactionResponse :=
  match type (web3SigningCredential req) with
  | CACTUSKEYCHAINREF => transactCactusKeychainRef req
  | GETHKEYCHAINPASSWORD => transactGethKeychain fuel req
  | PRIVATEKEYHEX => transactPrivateKey req
  | NONE =>
      match rawTransaction (transactionConfig req) with
      | Some raw =>
          if negb (raw =? "")%string
          then transactSigned raw
          else throw ExpectedPreSignedRawTransaction
      | None => throw ExpectedPreSignedRawTransaction
      end
  | UNRECOGNIZED raw => throw (UnrecognizedWeb3SigningCredentialType raw)
  end.

End Connector.

Arguments Build_Web3 {Node}.
Arguments eth_accounts_signTransaction {Node}.
Arguments eth_sendSignedTransaction {Node}.
Arguments eth_personal_sendTransaction {Node}.
Arguments eth_getTransactionReceipt {Node}.
Arguments Date_now {Node}.
Arguments Build_ICactusPlugin {Node}.
Arguments getAspect {Node}.
Arguments getKeychainId {Node}.
Arguments get {Node}.
Arguments Build_Connector {Node}.
Arguments node {Node}.
Arguments transactionCounter {Node}.
Arguments pluginRegistry {Node}.
Arguments calls {Node}.
Arguments ret {Node A}.
Arguments throw {Node A}.
Arguments bind {Node A B}.
Arguments tryCatch {Node A}.
Arguments call {Node A}.
Arguments now {Node}.
Arguments addCurrentTransaction {Node}.
Arguments findManyByAspect {Node}.
Arguments Checks_truthy {Node A}.
Arguments pollLoop {Node}.
Arguments pollForTxReceipt {Node}.
Arguments transactSigned {Node}.
Arguments transactGethKeychain {Node}.
Arguments transactPrivateKey {Node}.
Arguments hasKeychainId {Node}.
Arguments transactCactusKeychainRef {Node}.
Arguments transact {Node}.

(** ** A scripted ledger node

    A concrete outside world for the executions the receipt poller is
    specified on: a clock, and a node that has the receipt from the instant
    [availableAt] on (never, when there is none).  Attempt [i] of [getTransactionReceipt] reaches the
    node [fst (delays i)] ms after it is issued and its answer is read
    [snd (delays i)] ms later.  Signing and sending answer at once with a
    fixed result. *)

Record Clocked : Type := {
  clock : Z;        (* what Date.now() reads, in ms *)
  attempts : nat    (* receipt fetches answered so far *)
}.

Record Scenario : Type := {
  signs : Settled SignedTransaction;
  sendsSigned : Settled (string + TransactionReceipt);
  personalSends : Settled string;
  receipt : TransactionReceipt;
  availableAt : option Z;
  delays : nat -> Z * Z
}.

(** Whether the node has the receipt at instant [t]. *)
Definition hasReceiptAt (s : Scenario) (t : Z) : bool :=
  match availableAt s with
  | Some a => a <=? t
  | None => false
  end.

(** The node state after one more receipt fetch. *)
Definition fetched (s : Scenario) (n : Clocked) : Clocked :=
  {| clock := clock n + fst (delays s (attempts n)) + snd (delays s (attempts n));
     attempts := S (attempts n) |}.

(** The instant at which the node looks up the receipt for the next fetch. *)
Definition sampledAt (s : Scenario) (n : Clocked) : Z :=
  clock n + fst (delays s (attempts n)).

Definition scriptedWeb3 (s : Scenario) : Web3 Clocked :=
  {| eth_accounts_signTransaction := fun _ _ n => (signs s, n);
     eth_sendSignedTransaction := fun _ n => (sendsSigned s, n);
     eth_personal_sendTransaction := fun _ _ n => (personalSends s, n);
     eth_getTransactionReceipt := fun _ n =>
       (Resolves (if hasReceiptAt s (sampledAt s n)
                  then Some (receipt s) else None),
        fetched s n);
     Date_now := fun n => (clock n, n) |}.

(** The node state after [i] receipt fetches. *)
Fixpoint afterFetches (s : Scenario) (n : Clocked) (i : nat) : Clocked :=
  match i with
  | O => n
  | S i' => afterFetches s (fetched s n) i'
  end.

(** A keychain plugin over an in-memory table of entries; an absent entry
    makes [get] reject, as the keychain interface of the spec says. *)
Fixpoint lookupEntry (entries : list (string * string)) (key : string)
  : option string :=
  match entries with
  | [] => None
  | (k, v) :: rest => if (k =? key)%string then Some v else lookupEntry rest key
  end.

Definition memoryKeychain {Node : Type} (id : string)
           (entries : list (string * string)) : ICactusPlugin Node :=
  {| getAspect := KEYCHAIN;
     getKeychainId := id;
     get := fun key n =>
       match key with
       | Some k =>
           match lookupEntry entries k with
           | Some v => (Resolves (Some v), n)
           | None => (Rejects ("Keychain entry not found: " ++ k), n)
           end
       | None => (Rejects "Keychain entry not found: undefined", n)
       end |}.

(** The strategy [transact] hands a request to, as a function of the
    credential tag alone.  The pre-signed path is the body of the [NONE]
    case of the [switch]. *)
Definition transactPreSigned {Node} (web3 : Web3 Node)
           (req : RunTransactionRequest) : M Node RunTransactionResponse :=
  match rawTransaction (transactionConfig req) with
  | Some raw =>
      if negb (raw =? "")%string
      then transactSigned web3 raw
      else throw ExpectedPreSignedRawTransaction
  | None => throw ExpectedPreSignedRawTransaction
  end.

Definition strategyFor {Node} (web3 : Web3 Node) (fuel : nat)
           (tag : Web3SigningCredentialType)
  : RunTransactionRequest -> M Node RunTransactionResponse :=
  match tag with
  | CACTUSKEYCHAINREF => transactCactusKeychainRef web3
  | GETHKEYCHAINPASSWORD => transactGethKeychain web3 fuel
  | PRIVATEKEYHEX => transactPrivateKey web3
  | NONE => transactPreSigned web3
  | UNRECOGNIZED raw => fun _ => throw (UnrecognizedWeb3SigningCredentialType raw)
  end.

(** The connector after the calls [what] (newest first) left the outside
    in state [n]; the counter and the registry are as in [c]. *)
Definition afterCalls {Node} (what : list Call) (n : Node) (c : Connector Node)
  : Connector Node :=
  {| node := n;
     transactionCounter := transactionCounter c;
     pluginRegistry := pluginRegistry c;
     calls := what ++ calls c |}.

(** Two connector states that differ at most in the record of calls. *)
Definition sameWorld {Node} (c1 c2 : Connector Node) : Prop :=
  node c1 = node c2
  /\ transactionCounter c1 = transactionCounter c2
  /\ pluginRegistry c1 = pluginRegistry c2.

(** The keychain plugin [transactCactusKeychainRef] finds for [keychainId]. *)
Definition keychainPluginFor {Node} (keychainId : option string)
           (c : Connector Node) : option (ICactusPlugin Node) :=
  find (hasKeychainId keychainId)
       (filter (fun p => PluginAspect_eqb (getAspect p) KEYCHAIN)
               (pluginRegistry c)).

(** ** Sample data *)

Definition sampleReceipt : TransactionReceipt :=
  {| status := true; transactionHash := "0xfeed"; contractAddress := None |}.

Definition sampleConfig : TransactionConfig :=
  {| from := Some "0x123"; to := Some "0xAbc"; data := Some "0x00";
     gas := None; gasPrice := None; value := None; nonce := None;
     rawTransaction := None |}.

Definition credential (tag : Web3SigningCredentialType) : Web3SigningCredential :=
  {| type := tag; ethAccount := Some "0x123"; secret := Some "0xdeadbeef";
     keychainEntryKey := Some "alice"; keychainId := Some "kc1" |}.

Definition sampleRequest (tag : Web3SigningCredentialType) (t : option Z)
  : RunTransactionRequest :=
  {| transactionConfig := sampleConfig;
     web3SigningCredential := credential tag;
     timeoutMs := t |}.

Definition freshConnector (registry : list (ICactusPlugin Clocked))
  : Connector Clocked :=
  {| node := {| clock := 0; attempts := O |};
     transactionCounter := O;
     pluginRegistry := registry;
     calls := [] |}.

(** A registry with a connector plugin and two keychains; [kc1] holds the
    private key of [alice]. *)
Definition sampleRegistry : list (ICactusPlugin Clocked) :=
  [ {| getAspect := LEDGER_CONNECTOR; getKeychainId := "kc1";
       get := fun _ n => (NeverSettles, n) |};
    memoryKeychain "kc0" [("alice", "0x00")];
    memoryKeychain "kc1" [("bob", "0x0b0b"); ("alice", "0xdeadbeef")] ].

(** The same registry, but [kc1] has no entry for [alice]. *)
Definition registryWithoutAlice : list (ICactusPlugin Clocked) :=
  [ memoryKeychain "kc0" [("alice", "0x00")];
    memoryKeychain "kc1" [("bob", "0x0b0b")] ].

(** A node that signs, mines at once and has the receipt from the start;
    every receipt fetch takes 10 ms each way. *)
Definition promptNode : Scenario :=
  {| signs := Resolves {| signedRawTransaction := Some "0xf86b";
                          signedTransactionHash := Some "0xfeed" |};
     sendsSigned := Resolves (inr sampleReceipt);
     personalSends := Resolves "0xfeed";
     receipt := sampleReceipt;
     availableAt := Some 0;
     delays := fun _ => (10, 10) |}.

(** A node that accepts what it is sent but never has a receipt: web3's own
    wait for the receipt of a signed transaction gives up, and every receipt
    fetch comes back empty after 30 s. *)
Definition silentNode : Scenario :=
  {| signs := Resolves {| signedRawTransaction := Some "0xf86b";
                          signedTransactionHash := Some "0xfeed" |};
     sendsSigned := Rejects "Transaction was not mined within 750 seconds";
     personalSends := Resolves "0xfeed";
     receipt := sampleReceipt;
     availableAt := None;
     delays := fun _ => (10, 29990) |}.

(** A node that has the receipt 1500 ms after polling starts; the first
    fetch is answered at 900 ms, the second reaches the node at 1600 ms and
    is answered at 1700 ms. *)
Definition lateNode : Scenario :=
  {| signs := NeverSettles;
     sendsSigned := NeverSettles;
     personalSends := Resolves "0xfeed";
     receipt := sampleReceipt;
     availableAt := Some 1500;
     delays := fun i => match i with O => (0, 900) | _ => (700, 100) end |}.

(** A node that has the receipt after 50 ms, behind a slow link: a fetch
    reaches it at once and is answered 150 ms later. *)
Definition slowNode : Scenario :=
  {| signs := NeverSettles;
     sendsSigned := NeverSettles;
     personalSends := Resolves "0xfeed";
     receipt := sampleReceipt;
     availableAt := Some 50;
     delays := fun _ => (0, 150) |}.

(** A node that refuses everything: the key does not sign, the signed
    transaction is not accepted, the account is not unlocked. *)
Definition refusingNode : Scenario :=
  {| signs := Rejects "Private key must be 32 bytes long";
     sendsSigned := Rejects "nonce too low";
     personalSends := Rejects "could not decrypt key with given password";
     receipt := sampleReceipt;
     availableAt := None;
     delays := fun _ => (10, 10) |}.

(** A node whose signing answers with no raw transaction. *)
Definition blankSigner : Scenario :=
  {| signs := Resolves {| signedRawTransaction := None;
                          signedTransactionHash := None |};
     sendsSigned := Rejects "nonce too low";
     personalSends := Resolves "0xfeed";
     receipt := sampleReceipt;
     availableAt := None;
     delays := fun _ => (10, 10) |}.

(** A pre-signed request. *)
Definition preSignedRequest : RunTransactionRequest :=
  {| transactionConfig :=
       {| from := None; to := None; data := None; gas := None;
          gasPrice := None; value := None; nonce := None;
          rawTransaction := Some "0xf86b" |};
     web3SigningCredential :=
       {| type := NONE; ethAccount := None; secret := None;
          keychainEntryKey := None; keychainId := None |};
     timeoutMs := Some 5000 |}.


(** A keychain whose backend answers [undefined] for every key. *)
Definition hollowKeychain {Node : Type} (id : string) : ICactusPlugin Node :=
  {| getAspect := KEYCHAIN;
     getKeychainId := id;
     get := fun _ n => (Resolves None, n) |}.

(** A request with the NONE credential and an empty raw transaction. *)
Definition blankPreSignedRequest : RunTransactionRequest :=
  {| transactionConfig :=
       {| from := None; to := None; data := None; gas := None;
          gasPrice := None; value := None; nonce := None;
          rawTransaction := Some "" |};
     web3SigningCredential :=
       {| type := NONE; ethAccount := None; secret := None;
          keychainEntryKey := None; keychainId := None |};
     timeoutMs := None |}.

(** ** Contract invocation and deployment

    [invokeContract], [invokeContractV2] and [deployContract] of the same
    class build a transaction and hand it to [transact].  What they use of
    web3 and of Node.js besides [transact] is a second record of operations
    on the outside state; the values web3 and JSON hand around (an ABI, a
    method parameter, a contract object, a method object, a call output) are
    opaque types. *)

(** The generated enum [EthContractInvocationType] is not among the sources;
    [SEND] and [CALL] are the two members the source compares with, and
    [UNSUPPORTED raw] is any other run-time value, which falls to the last
    [else]. *)
Inductive EthContractInvocationType : Type :=
| SEND
| CALL
| UNSUPPORTED (raw : string).

Module InvokeContractV1Request.
Record t (Abi Param : Type) : Type := {
  contractAbi : string + Abi;   (* [typeof contractAbi === "string"] or not *)
  contractAddress : option string;
  invocationType : EthContractInvocationType;
  methodName : string;
  params : list Param;
  web3SigningCredential : Web3SigningCredential;
  gas : option string;
  gasPrice : option string;
  value : option string;
  nonce : option string;
  timeoutMs : option Z
}.
Arguments contractAbi {Abi Param}.
Arguments contractAddress {Abi Param}.
Arguments invocationType {Abi Param}.
Arguments methodName {Abi Param}.
Arguments params {Abi Param}.
Arguments web3SigningCredential {Abi Param}.
Arguments gas {Abi Param}.
Arguments gasPrice {Abi Param}.
Arguments value {Abi Param}.
Arguments nonce {Abi Param}.
Arguments timeoutMs {Abi Param}.
End InvokeContractV1Request.

Module InvokeContractV2Request.
Record t (Param : Type) : Type := {
  contractName : string;
  invocationType : EthContractInvocationType;
  methodName : string;
  params : list Param;
  signingCredential : Web3SigningCredential;
  gas : option string;
  gasPrice : option string;
  value : option string;
  timeoutMs : option Z
}.
Arguments contractName {Param}.
Arguments invocationType {Param}.
Arguments methodName {Param}.
Arguments params {Param}.
Arguments signingCredential {Param}.
Arguments gas {Param}.
Arguments gasPrice {Param}.
Arguments value {Param}.
Arguments timeoutMs {Param}.
End InvokeContractV2Request.

Module DeployContractSolidityBytecodeV1Request.
Record t : Type := {
  bytecode : string;
  web3SigningCredential : Web3SigningCredential;
  gas : option string;
  gasPrice : option string
}.
End DeployContractSolidityBytecodeV1Request.

Inductive InvokeContractV1Response (Output : Type) : Type :=
| V1CallOutput (callOutput : Output)          (* { callOutput } *)
| V1Transaction (out : RunTransactionResponse).

Arguments V1CallOutput {Output} callOutput.
Arguments V1Transaction {Output} out.

Inductive InvokeContractV2Response (Output : Type) : Type :=
| V2CallOutput (success : bool) (callOutput : Output)   (* { success, callOutput } *)
| V2Transaction (success : bool) (out : RunTransactionResponse).   (* { success, out } *)

Arguments V2CallOutput {Output} success callOutput.
Arguments V2Transaction {Output} success out.

(** What the code reads of the contract JSON file at [contractsPath]; a
    property the file lacks is [undefined]. *)
Record ContractJson (Abi : Type) : Type := {
  contractName : option string;
  abi : Abi;
  networks : option (list (Z * option string))   (* networks[id].address *)
}.

Arguments Build_ContractJson {Abi}.
Arguments contractName {Abi}.
Arguments abi {Abi}.
Arguments networks {Abi}.

(** The errors of these three methods: those of the submission layer and of
    the collaborators, the methods' own, and the [TypeError] of the
    JavaScript runtime on a property of [undefined]. *)
Inductive ContractError : Type :=
| Inner (e : Error)
| CannotDeployPreSignedTx
    (* "Cannot deploy contract with pre-signed TX" *)
| UnsupportedInvocationType (raw : string)
    (* "Unsupported invocation type ${invocationType}" *)
| ContractNameMismatch
    (* invokeContractV2(): "... the contractName and the contractName of the
       JSON doesn't match" *)
| NoContractInstance
    (* invokeContractV2(): "Cannot invoke a contract without contract
       instance" *)
| TypeError (what : string).

Inductive Outcome (A : Type) : Type :=
| Returned (a : A)
| Thrown (e : ContractError)
| Unsettled.

Arguments Returned {A} a.
Arguments Thrown {A} e.
Arguments Unsettled {A}.

(** What the three methods do outside besides the calls of [transact],
    newest first (ghost state, like [calls]). *)
Inductive Doing : Type :=
| DoMethodCall
| DoEstimateGas (cfg : TransactionConfig)
| DoNetGetId
| DoReadFile (path : string)
| DoWriteFile (path : string) (content : string).

Definition isWriteFile (d : Doing) : bool :=
  match d with
  | DoWriteFile _ _ => true
  | _ => false
  end.

(** [this.contracts], an object used as a map from contract name to
    contract. *)
Fixpoint lookupContract {Contract : Type} (name : string)
         (cache : list (string * Contract)) : option Contract :=
  match cache with
  | [] => None
  | (k, v) :: rest => if (k =? name)%string then Some v else lookupContract name rest
  end.

Definition storeContract {Contract : Type} (name : string) (contract : Contract)
           (cache : list (string * Contract)) : list (string * Contract) :=
  (name, contract) :: filter (fun e => negb (fst e =? name)%string) cache.

(** A property key: [undefined] becomes the string "undefined". *)
Definition propertyKey (name : option string) : string :=
  match name with
  | Some s => s
  | None => "undefined"
  end.

Fixpoint lookupNetwork (id : Z) (l : list (Z * option string))
  : option (option string) :=
  match l with
  | [] => None
  | (k, v) :: rest => if k =? id then Some v else lookupNetwork id rest
  end.

Definition storeNetwork (id : Z) (address : option string)
           (l : list (Z * option string)) : list (Z * option string) :=
  (id, address) :: filter (fun e => negb (fst e =? id)) l.

(** [contractJson.contractName != contractName], the latter a string. *)
Definition nameDiffers (jsonName : option string) (name : string) : bool :=
  match jsonName with
  | Some s => negb (s =? name)%string
  | None => true
  end.

(** [req.timeoutMs || 60000]. *)
Definition timeoutMsOrDefault (t : option Z) : Z :=
  match t with
  | Some t => if t =? 0 then 60000 else t
  | None => 60000
  end.

Section Contracts.

Variables Node Abi Param Contract Method Output : Type.

(** A synchronous operation is [inl message] when it throws. *)
Record Web3Contracts : Type := {
  JSON_parse_abi : string -> string + Abi;
  eth_Contract : Abi -> option string -> string + Contract;
  (* [aContract.methods[name]], a function of the parameters or undefined *)
  methods : Contract -> string -> option (list Param -> string + Method);
  method_call : Method -> Node -> Settled Output * Node;
  (* the first of [method.send.request().params] *)
  method_send_request : Method -> string + TransactionConfig;
  eth_estimateGas : TransactionConfig -> Node -> Settled string * Node;
  eth_net_getId : Node -> Settled Z * Node;
  fs_readFileSync : string -> Node -> (string + string) * Node;
  JSON_parse_contract : string -> string + ContractJson Abi;
  JSON_stringify : ContractJson Abi -> string;
  fs_writeFileSync : string -> string -> Node -> option string * Node
}.

(** The plugin instance: the connector state of the submission layer, the
    [contractsPath] option and the [contracts] cache. *)
Record Plugin : Type := {
  connector : Connector Node;
  contractsPath : option string;
  contracts : list (string * Contract);
  doings : list Doing
}.

Variable web3 : Web3 Node.
Variable eth : Web3Contracts.

(** The type guard of model-type-guards.ts, which is not among the
    sources. *)
Variable isWeb3SigningCredentialNone : Web3SigningCredential -> bool.

Definition MP (A : Type) : Type := Plugin -> Outcome A * Plugin.

Definition retP {A} (a : A) : MP A := fun p => (Returned a, p).

Definition throwP {A} (e : ContractError) : MP A := fun p => (Thrown e, p).

Definition bindP {A B} (m : MP A) (k : A -> MP B) : MP B :=
  fun p =>
    match m p with
    | (Returned a, p') => k a p'
    | (Thrown e, p') => (Thrown e, p')
    | (Unsettled, p') => (Unsettled, p')
    end.

Notation "x <~ m ;; k" := (bindP m (fun x => k))
  (at level 100, m at next level, right associativity).

(** A method of the submission layer, run on the connector state. *)
Definition inConnector {A} (m : M Node A) : MP A :=
  fun p =>
    let (r, c') := m (connector p) in
    (match r with
     | Fulfilled a => Returned a
     | Rejected e => Thrown (Inner e)
     | Pending => Unsettled
     end,
     {| connector := c';
        contractsPath := contractsPath p;
        contracts := contracts p;
        doings := doings p |}).

Definition withNode (n : Node) (what : Doing) (p : Plugin) : Plugin :=
  {| connector := {| node := n;
                     transactionCounter := transactionCounter (connector p);
                     pluginRegistry := pluginRegistry (connector p);
                     calls := calls (connector p) |};
     contractsPath := contractsPath p;
     contracts := contracts p;
     doings := what :: doings p |}.

(** An awaited operation on the outside. *)
Definition doing {A} (what : Doing) (op : Node -> Settled A * Node) : MP A :=
  fun p =>
    let (r, n') := op (node (connector p)) in
    (match r with
     | Resolves a => Returned a
     | Rejects message => Thrown (Inner (ExternalError message))
     | NeverSettles => Unsettled
     end,
     withNode n' what p).

(** A synchronous operation that does not touch the outside. *)
Definition attempt {A} (r : string + A) : MP A :=
  match r with
  | inl message => throwP (Inner (ExternalError message))
  | inr a => retP a
  end.

Definition readFileSync (path : string) : MP string :=
  fun p =>
    let (r, n') := fs_readFileSync eth path (node (connector p)) in
    (match r with
     | inl message => Thrown (Inner (ExternalError message))
     | inr text => Returned text
     end,
     withNode n' (DoReadFile path) p).

Definition writeFileSync (path content : string) : MP unit :=
  fun p =>
    let (r, n') := fs_writeFileSync eth path content (node (connector p)) in
    (match r with
     | Some message => Thrown (Inner (ExternalError message))
     | None => Returned tt
     end,
     withNode n' (DoWriteFile path content) p).

Definition setContract (name : string) (contract : Contract) : MP unit :=
  fun p =>
    (Returned tt,
     {| connector := connector p;
        contractsPath := contractsPath p;
        contracts := storeContract name contract (contracts p);
        doings := doings p |}).

Definition getPlugin : MP Plugin := fun p => (Returned p, p).

(** [Checks.truthy(methodRef, ...)] followed by [methodRef(...req.params)]. *)
Definition applyMethod (methodRef : option (list Param -> string + Method))
           (methodName : string) (params : list Param) : MP Method :=
  match methodRef with
  | Some f => attempt (f params)
  | None => throwP (Inner (ChecksFalsy ("YourContract." ++ methodName)))
  end.

Definition invokeContract (fuel : nat) (req : InvokeContractV1Request.t Abi Param)
  : MP (InvokeContractV1Response Output) :=
  abi <~ match InvokeContractV1Request.contractAbi req with
         | inl text => attempt (JSON_parse_abi eth text)
         | inr abi => retP abi
         end ;;
  aContract <~ attempt (eth_Contract eth abi
                          (InvokeContractV1Request.contractAddress req)) ;;
  let methodRef := methods eth aContract (InvokeContractV1Request.methodName req) in
  method <~ applyMethod methodRef (InvokeContractV1Request.methodName req)
                        (InvokeContractV1Request.params req) ;;
  match InvokeContractV1Request.invocationType req with
  | CALL =>
      callOutput <~ doing DoMethodCall (method_call eth method) ;;
      retP (V1CallOutput callOutput)
  | SEND =>
      let cred := InvokeContractV1Request.web3SigningCredential req in
      if isWeb3SigningCredentialNone cred
      then throwP CannotDeployPreSignedTx
      else
        transactionConfig <~ attempt (method_send_request eth method) ;;
        gas <~ match InvokeContractV1Request.gas req with
               | None => doing (DoEstimateGas transactionConfig)
                               (eth_estimateGas eth transactionConfig)
               | Some g => retP g
               end ;;
        out <~ inConnector
                 (transact web3 fuel
                    {| transactionConfig :=
                         {| from := ethAccount cred;
                            to := to transactionConfig;
                            data := data transactionConfig;
                            gas := Some gas;
                            gasPrice := InvokeContractV1Request.gasPrice req;
                            value := InvokeContractV1Request.value req;
                            nonce := InvokeContractV1Request.nonce req;
                            rawTransaction := rawTransaction transactionConfig |};
                       web3SigningCredential := cred;
                       timeoutMs :=
                         Some (timeoutMsOrDefault
                                 (InvokeContractV1Request.timeoutMs req)) |}) ;;
        retP (V1Transaction out)
  | UNSUPPORTED raw => throwP (UnsupportedInvocationType raw)
  end.

(** The first block of [invokeContractV2]: with an empty cache, the contract
    is loaded from the file at [contractsPath]. *)
Definition loadContractIfNone (name : string) : MP unit :=
  p <~ getPlugin ;;
  match contracts p with
  | [] =>
      match contractsPath p with
      | Some path =>
          networkId <~ doing DoNetGetId (eth_net_getId eth) ;;
          text <~ readFileSync path ;;
          contractJson <~ attempt (JSON_parse_contract eth text) ;;
          if nameDiffers (contractName contractJson) name
          then throwP ContractNameMismatch
          else
            match networks contractJson with
            | None => throwP (TypeError "networks")
            | Some nets =>
                match lookupNetwork networkId nets with
                | None => throwP (TypeError "address")
                | Some address =>
                    contract <~ attempt (eth_Contract eth (abi contractJson)
                                                      address) ;;
                    setContract (propertyKey (contractName contractJson)) contract
                end
            end
      | None => throwP NoContractInstance
      end
  | _ :: _ => retP tt
  end.

Definition invokeContractV2 (fuel : nat) (req : InvokeContractV2Request.t Param)
  : MP (InvokeContractV2Response Output) :=
  _ <~ loadContractIfNone (InvokeContractV2Request.contractName req) ;;
  p <~ getPlugin ;;
  match lookupContract (InvokeContractV2Request.contractName req) (contracts p) with
  | None => throwP (TypeError "methods")   (* [contractInstance] is undefined *)
  | Some contractInstance =>
      let methodRef :=
        methods eth contractInstance (InvokeContractV2Request.methodName req) in
      method <~ applyMethod methodRef (InvokeContractV2Request.methodName req)
                            (InvokeContractV2Request.params req) ;;
      match InvokeContractV2Request.invocationType req with
      | CALL =>
          callOutput <~ doing DoMethodCall (method_call eth method) ;;
          retP (V2CallOutput true callOutput)
      | SEND =>
          let cred := InvokeContractV2Request.signingCredential req in
          if isWeb3SigningCredentialNone cred
          then throwP CannotDeployPreSignedTx
          else
            transactionConfig <~ attempt (method_send_request eth method) ;;
            gas <~ match InvokeContractV2Request.gas req with
                   | None => doing (DoEstimateGas transactionConfig)
                                   (eth_estimateGas eth transactionConfig)
                   | Some g => retP g
                   end ;;
            out <~ inConnector
                     (transact web3 fuel
                        {| transactionConfig :=
                             {| from := ethAccount cred;
                                to := to transactionConfig;
                                data := data transactionConfig;
                                gas := Some gas;
                                gasPrice := InvokeContractV2Request.gasPrice req;
                                value := InvokeContractV2Request.value req;
                                nonce := nonce transactionConfig;
                                rawTransaction := rawTransaction transactionConfig |};
                           web3SigningCredential := cred;
                           timeoutMs :=
                             Some (timeoutMsOrDefault
                                     (InvokeContractV2Request.timeoutMs req)) |}) ;;
            retP (V2Transaction (status (transactionReceipt out)) out)
      | UNSUPPORTED raw => throwP (UnsupportedInvocationType raw)
      end
  end.

Definition deployContract (fuel : nat)
           (req : DeployContractSolidityBytecodeV1Request.t)
  : MP RunTransactionResponse :=
  let cred := DeployContractSolidityBytecodeV1Request.web3SigningCredential req in
  if isWeb3SigningCredentialNone cred
  then throwP CannotDeployPreSignedTx
  else
    receipt <~ inConnector
                 (transact web3 fuel
                    {| transactionConfig :=
                         {| from := ethAccount cred;
                            to := None;
                            data := Some ("0x" ++ DeployContractSolidityBytecodeV1Request.bytecode req);
                            gas := DeployContractSolidityBytecodeV1Request.gas req;
                            gasPrice := DeployContractSolidityBytecodeV1Request.gasPrice req;
                            value := None;
                            nonce := None;
                            rawTransaction := None |};
                       web3SigningCredential := cred;
                       timeoutMs := None |}) ;;
    p <~ getPlugin ;;
    match contractAddress (transactionReceipt receipt), contractsPath p with
    | Some address, Some path =>
        networkId <~ doing DoNetGetId (eth_net_getId eth) ;;
        text <~ readFileSync path ;;
        contractJson <~ attempt (JSON_parse_contract eth text) ;;
        contract <~ attempt (eth_Contract eth (abi contractJson) (Some address)) ;;
        _ <~ setContract (propertyKey (contractName contractJson)) contract ;;
        match networks contractJson with
        | None => throwP (TypeError "networks")
        | Some nets =>
            _ <~ writeFileSync path
                   (JSON_stringify eth
                      {| contractName := contractName contractJson;
                         abi := abi contractJson;
                         networks :=
                           Some (storeNetwork networkId (Some address) nets) |}) ;;
            retP receipt
        end
    | _, _ => retP receipt
    end.

End Contracts.

Arguments Build_Web3Contracts {Node Abi Param Contract Method Output}.
Arguments JSON_parse_abi {Node Abi Param Contract Method Output}.
Arguments eth_Contract {Node Abi Param Contract Method Output}.
Arguments methods {Node Abi Param Contract Method Output}.
Arguments method_call {Node Abi Param Contract Method Output}.
Arguments method_send_request {Node Abi Param Contract Method Output}.
Arguments eth_estimateGas {Node Abi Param Contract Method Output}.
Arguments eth_net_getId {Node Abi Param Contract Method Output}.
Arguments fs_readFileSync {Node Abi Param Contract Method Output}.
Arguments JSON_parse_contract {Node Abi Param Contract Method Output}.
Arguments JSON_stringify {Node Abi Param Contract Method Output}.
Arguments fs_writeFileSync {Node Abi Param Contract Method Output}.
Arguments Build_Plugin {Node Contract}.
Arguments connector {Node Contract}.
Arguments contractsPath {Node Contract}.
Arguments contracts {Node Contract}.
Arguments doings {Node Contract}.
Arguments retP {Node Contract A}.
Arguments throwP {Node Contract A}.
Arguments bindP {Node Contract A B}.
Arguments inConnector {Node Contract A}.
Arguments withNode {Node Contract}.
Arguments doing {Node Contract A}.
Arguments attempt {Node Contract A}.
Arguments readFileSync {Node Abi Param Contract Method Output}.
Arguments writeFileSync {Node Abi Param Contract Method Output}.
Arguments setContract {Node Contract}.
Arguments getPlugin {Node Contract}.
Arguments applyMethod {Node Param Contract Method}.
Arguments invokeContract {Node Abi Param Contract Method Output}.
Arguments loadContractIfNone {Node Abi Param Contract Method Output}.
Arguments invokeContractV2 {Node Abi Param Contract Method Output}.
Arguments deployContract {Node Abi Param Contract Method Output}.

(** The plugin state after a method of the submission layer left the
    connector in state [c]. *)
Definition withConnector {Node Contract} (c : Connector Node)
           (p : Plugin Node Contract) : Plugin Node Contract :=
  {| connector := c;
     contractsPath := contractsPath p;
     contracts := contracts p;
     doings := doings p |}.

(** The outcome of a method of the submission layer as these methods see
    it. *)
Definition settled {A} (r : Promise A) : Outcome A :=
  match r with
  | Fulfilled a => Returned a
  | Rejected e => Thrown (Inner e)
  | Pending => Unsettled
  end.

(** The request [deployContract] hands to [transact]. *)
Definition deploymentRequest (req : DeployContractSolidityBytecodeV1Request.t)
  : RunTransactionRequest :=
  let cred := DeployContractSolidityBytecodeV1Request.web3SigningCredential req in
  {| transactionConfig :=
       {| from := ethAccount cred;
          to := None;
          data := Some ("0x" ++ DeployContractSolidityBytecodeV1Request.bytecode req);
          gas := DeployContractSolidityBytecodeV1Request.gas req;
          gasPrice := DeployContractSolidityBytecodeV1Request.gasPrice req;
          value := None;
          nonce := None;
          rawTransaction := None |};
     web3SigningCredential := cred;
     timeoutMs := None |}.

(** *** Sample contracts

    A web3 whose opaque values are strings: a contract is its address, a
    method its name.  The contract has the methods [refund] and
    [getSingleStatus]; the payload of a send carries a sender, a nonce and a
    gas price of its own. *)
Definition samplePayload : TransactionConfig :=
  {| from := Some "0xpayload"; to := Some "0xc0ffee"; data := Some "0xa9059cbb";
     gas := None; gasPrice := Some "1"; value := None; nonce := Some "7";
     rawTransaction := None |}.

Definition scriptedEth (estimate : Settled string) (file : string + string)
           (json : string + ContractJson string)
  : Web3Contracts Clocked string string string string string :=
  {| JSON_parse_abi := fun text =>
       if (text =? "")%string then inl "Unexpected end of JSON input" else inr text;
     eth_Contract := fun _ address => inr (propertyKey address);
     methods := fun _ name =>
       if ((name =? "refund") || (name =? "getSingleStatus"))%string
       then Some (fun _ => inr name) else None;
     method_call := fun m n => (Resolves ("output of " ++ m), n);
     method_send_request := fun _ => inr samplePayload;
     eth_estimateGas := fun _ n => (estimate, n);
     eth_net_getId := fun n => (Resolves 10, n);
     fs_readFileSync := fun _ n => (file, n);
     JSON_parse_contract := fun _ => json;
     JSON_stringify := fun j => propertyKey (contractName j);
     fs_writeFileSync := fun _ _ n => (None, n) |}.

Definition helloWorldJson : ContractJson string :=
  {| contractName := Some "HelloWorld"; abi := "[]";
     networks := Some [(5, Some "0x0ld")] |}.

Definition sampleEth : Web3Contracts Clocked string string string string string :=
  scriptedEth (Resolves "21000") (inr "{}") (inr helloWorldJson).

Definition tagIsNone (cred : Web3SigningCredential) : bool :=
  match type cred with
  | NONE => true
  | _ => false
  end.

Definition freshPlugin (path : option string) (cache : list (string * string))
  : Plugin Clocked string :=
  {| connector := freshConnector [];
     contractsPath := path;
     contracts := cache;
     doings := [] |}.

Definition sampleInvocation (kind : EthContractInvocationType) (method : string)
           (tag : Web3SigningCredentialType) (gasLimit : option string)
           (t : option Z)
  : InvokeContractV1Request.t string string :=
  {| InvokeContractV1Request.contractAbi := inr "[]";
     InvokeContractV1Request.contractAddress := Some "0xc0ffee";
     InvokeContractV1Request.invocationType := kind;
     InvokeContractV1Request.methodName := method;
     InvokeContractV1Request.params := ["0x01"];
     InvokeContractV1Request.web3SigningCredential := credential tag;
     InvokeContractV1Request.gas := gasLimit;
     InvokeContractV1Request.gasPrice := None;
     InvokeContractV1Request.value := Some "0";
     InvokeContractV1Request.nonce := None;
     InvokeContractV1Request.timeoutMs := t |}.

Definition sampleInvocationV2 (kind : EthContractInvocationType) (name : string)
           (tag : Web3SigningCredentialType)
  : InvokeContractV2Request.t string :=
  {| InvokeContractV2Request.contractName := name;
     InvokeContractV2Request.invocationType := kind;
     InvokeContractV2Request.methodName := "getSingleStatus";
     InvokeContractV2Request.params := ["0x01"];
     InvokeContractV2Request.signingCredential := credential tag;
     InvokeContractV2Request.gas := Some "6721975";
     InvokeContractV2Request.gasPrice := None;
     InvokeContractV2Request.value := None;
     InvokeContractV2Request.timeoutMs := None |}.

Definition sampleDeployment (tag : Web3SigningCredentialType)
  : DeployContractSolidityBytecodeV1Request.t :=
  {| DeployContractSolidityBytecodeV1Request.bytecode := "6080";
     DeployContractSolidityBytecodeV1Request.web3SigningCredential := credential tag;
     DeployContractSolidityBytecodeV1Request.gas := Some "1000000";
     DeployContractSolidityBytecodeV1Request.gasPrice := None |}.

(** A node that mines a contract creation: the receipt carries the address of
    the new contract. *)
Definition deployedReceipt : TransactionReceipt :=
  {| status := true; transactionHash := "0xfeed"; contractAddress := Some "0xnew" |}.

Definition deployingNode : Scenario :=
  {| signs := Resolves {| signedRawTransaction := Some "0xf86b";
                          signedTransactionHash := Some "0xfeed" |};
     sendsSigned := Resolves (inr deployedReceipt);
     personalSends := Resolves "0xfeed";
     receipt := deployedReceipt;
     availableAt := Some 0;
     delays := fun _ => (10, 10) |}.

(** A node that mines the transaction but reverts it: the receipt says
    [status: false]. *)
Definition revertedReceipt : TransactionReceipt :=
  {| status := false; transactionHash := "0xdead"; contractAddress := None |}.

Definition revertingNode : Scenario :=
  {| signs := Resolves {| signedRawTransaction := Some "0xf86b";
                          signedTransactionHash := Some "0xdead" |};
     sendsSigned := Resolves (inr revertedReceipt);
     personalSends := Resolves "0xdead";
     receipt := revertedReceipt;
     availableAt := Some 0;
     delays := fun _ => (10, 10) |}.

(** ** The dispatcher *)

Lemma transact_strategyFor {Node} (web3 : Web3 Node) fuel req :
  transact web3 fuel req
  = strategyFor web3 fuel (type (web3SigningCredential req)) req.
Proof.
  unfold transact, strategyFor, transactPreSigned.
  destruct (type (web3SigningCredential req)); reflexivity.
Qed.

(** C1: [transact] selects its strategy from the credential's type tag
    alone.  It is [strategyFor] applied to the tag, a table that sends
    CACTUSKEYCHAINREF to the keychain-indirection strategy,
    GETHKEYCHAINPASSWORD to the keystore-password strategy, PRIVATEKEYHEX to
    the private-key strategy, NONE to the pre-signed path (the broadcast of
    the request's raw transaction when there is one) and any other tag value
    to the rejection with the unrecognized-credential-type error; two
    requests with the same tag are handed to the same strategy whatever
    their other fields are. *)
Theorem transact_routes_by_tag :
  forall Node (web3 : Web3 Node) fuel,
    (forall req,
        transact web3 fuel req
        = strategyFor web3 fuel (type (web3SigningCredential req)) req)
    /\ strategyFor web3 fuel CACTUSKEYCHAINREF = transactCactusKeychainRef web3
    /\ strategyFor web3 fuel GETHKEYCHAINPASSWORD = transactGethKeychain web3 fuel
    /\ strategyFor web3 fuel PRIVATEKEYHEX = transactPrivateKey web3
    /\ strategyFor web3 fuel NONE = transactPreSigned web3
    /\ (forall raw req,
           type (web3SigningCredential req) = NONE ->
           rawTransaction (transactionConfig req) = Some raw ->
           (raw =? "")%string = false ->
           transact web3 fuel req = transactSigned web3 raw)
    /\ (forall raw req c,
           type (web3SigningCredential req) = UNRECOGNIZED raw ->
           transact web3 fuel req c
           = (Rejected (UnrecognizedWeb3SigningCredentialType raw), c)).
Proof.
  intros Node web3 fuel.
  split; [ intro req; apply transact_strategyFor | ].
  repeat split.
  - intros raw req Htag Hraw Hfilled. unfold transact.
    rewrite Htag, Hraw, Hfilled. reflexivity.
  - intros raw req c Htag. unfold transact. rewrite Htag. reflexivity.
Qed.

Lemma transact_routes_by_tag_witness :
  transact (scriptedWeb3 promptNode) 1
           (sampleRequest (UNRECOGNIZED "LEDGER_NANO") None) (freshConnector [])
  = (Rejected (UnrecognizedWeb3SigningCredentialType "LEDGER_NANO"),
     freshConnector []).
Proof.
  apply (proj2 (proj2 (proj2 (proj2 (proj2 (proj2
          (transact_routes_by_tag Clocked (scriptedWeb3 promptNode) 1))))))).
  reflexivity.
Defined.

(** C5: a request whose credential tag is NONE and whose transaction config
    has no raw transaction is rejected with the expected-pre-signed-raw-
    transaction error whatever its other fields are, and the connector and
    the outside world are left as they were: nothing is broadcast. *)
Theorem transact_none_without_raw_transaction :
  forall Node (web3 : Web3 Node) fuel req c,
    type (web3SigningCredential req) = NONE ->
    rawTransaction (transactionConfig req) = None ->
    transact web3 fuel req c = (Rejected ExpectedPreSignedRawTransaction, c).
Proof.
  intros Node web3 fuel req c Htag Hraw.
  unfold transact. rewrite Htag, Hraw. reflexivity.
Qed.

Lemma transact_none_without_raw_transaction_witness :
  transact (scriptedWeb3 promptNode) 1 (sampleRequest NONE (Some 5000))
           (freshConnector [])
  = (Rejected ExpectedPreSignedRawTransaction, freshConnector []).
Proof.
  apply transact_none_without_raw_transaction; reflexivity.
Defined.

(** ** The request timeout *)

Lemma transact_reads_config_and_credential {Node} (web3 : Web3 Node) fuel r1 r2 :
  transactionConfig r1 = transactionConfig r2 ->
  web3SigningCredential r1 = web3SigningCredential r2 ->
  transact web3 fuel r1 = transact web3 fuel r2.
Proof.
  destruct r1 as [cfg1 cred1 t1], r2 as [cfg2 cred2 t2]; simpl.
  intros -> ->. reflexivity.
Qed.

(** C10: two requests that are identical except for their [timeoutMs] get
    the same outcome from [transact] (same promise, same final state) when
    the credential tag is PRIVATEKEYHEX, NONE or CACTUSKEYCHAINREF: the
    field is not read on these paths. *)
Theorem transact_timeoutMs_not_read :
  forall Node (web3 : Web3 Node) fuel r1 r2 c,
    transactionConfig r1 = transactionConfig r2 ->
    web3SigningCredential r1 = web3SigningCredential r2 ->
    type (web3SigningCredential r1) = PRIVATEKEYHEX
    \/ type (web3SigningCredential r1) = NONE
    \/ type (web3SigningCredential r1) = CACTUSKEYCHAINREF ->
    transact web3 fuel r1 c = transact web3 fuel r2 c.
Proof.
  intros Node web3 fuel r1 r2 c Hcfg Hcred _.
  rewrite (transact_reads_config_and_credential web3 fuel r1 r2 Hcfg Hcred).
  reflexivity.
Qed.

Lemma transact_timeoutMs_not_read_witness :
  transact (scriptedWeb3 promptNode) 3
           (sampleRequest PRIVATEKEYHEX (Some 5000)) (freshConnector [])
  = transact (scriptedWeb3 promptNode) 3
             (sampleRequest PRIVATEKEYHEX (Some 0)) (freshConnector []).
Proof.
  apply transact_timeoutMs_not_read; [reflexivity | reflexivity | ].
  left. reflexivity.
Defined.

(** ** Keychain indirection *)

Lemma transactPrivateKey_reads_config_and_secret {Node} (web3 : Web3 Node) r1 r2 :
  transactionConfig r1 = transactionConfig r2 ->
  secret (web3SigningCredential r1) = secret (web3SigningCredential r2) ->
  transactPrivateKey web3 r1 = transactPrivateKey web3 r2.
Proof.
  intros Hcfg Hsecret. unfold transactPrivateKey.
  rewrite Hcfg, Hsecret. reflexivity.
Qed.

Lemma transactSigned_sameWorld {Node} (web3 : Web3 Node) raw c1 c2 :
  sameWorld c1 c2 ->
  fst (transactSigned web3 raw c1) = fst (transactSigned web3 raw c2)
  /\ sameWorld (snd (transactSigned web3 raw c1)) (snd (transactSigned web3 raw c2)).
Proof.
  intros (Hn & Hk & Hr).
  unfold transactSigned, bind, call, addCurrentTransaction, ret, throw, sameWorld.
  rewrite Hn.
  destruct (eth_sendSignedTransaction web3 raw (node c2)) as [[[message|rcpt]|message|] n1];
    simpl; rewrite ?Hk, ?Hr; auto.
Qed.

Lemma transactPrivateKey_sameWorld {Node} (web3 : Web3 Node) req c1 c2 :
  sameWorld c1 c2 ->
  fst (transactPrivateKey web3 req c1) = fst (transactPrivateKey web3 req c2)
  /\ sameWorld (snd (transactPrivateKey web3 req c1))
               (snd (transactPrivateKey web3 req c2)).
Proof.
  intros (Hn & Hk & Hr).
  unfold transactPrivateKey, bind, call.
  rewrite Hn.
  destruct (eth_accounts_signTransaction web3 _ _ (node c2)) as [[signedTx|message|] n1];
    simpl; try (unfold sameWorld; simpl; auto; fail).
  destruct (signedRawTransaction signedTx) as [raw|]; simpl;
    try (unfold sameWorld, throw; simpl; auto; fail).
  destruct (negb (raw =? "")%string);
    try (unfold sameWorld, throw; simpl; auto; fail).
  apply transactSigned_sameWorld. unfold sameWorld; simpl; auto.
Qed.

Lemma transactCactusKeychainRef_found {Node} (web3 : Web3 Node) req plugin c :
  keychainPluginFor (keychainId (web3SigningCredential req)) c = Some plugin ->
  transactCactusKeychainRef web3 req c
  = let key := keychainEntryKey (web3SigningCredential req) in
    let (r, n') := get plugin key (node c) in
    let c' := afterCalls [CallKeychainGet (getKeychainId plugin) key;
                          CallFindManyByAspect KEYCHAIN] n' c in
    match await r with
    | Fulfilled privateKeyHex =>
        transactPrivateKey web3
          {| transactionConfig := transactionConfig req;
             web3SigningCredential :=
               {| type := PRIVATEKEYHEX;
                  ethAccount := ethAccount (web3SigningCredential req);
                  secret := privateKeyHex;
                  keychainEntryKey := None;
                  keychainId := None |};
             timeoutMs := None |} c'
    | Rejected e => (Rejected e, c')
    | Pending => (Pending, c')
    end.
Proof.
  unfold keychainPluginFor. intro Hfind.
  unfold transactCactusKeychainRef, bind, findManyByAspect. simpl.
  rewrite Hfind. simpl. unfold call. simpl.
  destruct (get plugin _ (node c)) as [[privateKeyHex|message|] n']; reflexivity.
Qed.

Lemma transactCactusKeychainRef_not_found {Node} (web3 : Web3 Node) req c :
  keychainPluginFor (keychainId (web3SigningCredential req)) c = None ->
  transactCactusKeychainRef web3 req c
  = (Rejected (ChecksFalsy (keychainForID (keychainId (web3SigningCredential req)))),
     afterCalls [CallFindManyByAspect KEYCHAIN] (node c) c).
Proof.
  unfold keychainPluginFor. intro Hfind.
  unfold transactCactusKeychainRef, bind, findManyByAspect. simpl.
  rewrite Hfind. reflexivity.
Qed.

Lemma transactSigned_registry {Node} (web3 : Web3 Node) raw c :
  pluginRegistry (snd (transactSigned web3 raw c)) = pluginRegistry c.
Proof.
  unfold transactSigned, bind, call, addCurrentTransaction, ret, throw.
  destruct (eth_sendSignedTransaction web3 raw (node c)) as [[[message|rcpt]|message|] n1];
    reflexivity.
Qed.

Lemma transactPrivateKey_registry {Node} (web3 : Web3 Node) req c :
  pluginRegistry (snd (transactPrivateKey web3 req c)) = pluginRegistry c.
Proof.
  unfold transactPrivateKey, bind, call.
  destruct (eth_accounts_signTransaction web3 _ _ (node c)) as [[signedTx|message|] n1];
    simpl; try reflexivity.
  destruct (signedRawTransaction signedTx) as [raw|]; try reflexivity.
  destruct (negb (raw =? "")%string); try reflexivity.
  rewrite transactSigned_registry. reflexivity.
Qed.

Lemma transactCactusKeychainRef_registry {Node} (web3 : Web3 Node) req c :
  pluginRegistry (snd (transactCactusKeychainRef web3 req c)) = pluginRegistry c.
Proof.
  destruct (keychainPluginFor (keychainId (web3SigningCredential req)) c)
    as [plugin|] eqn:Hfind.
  - rewrite (transactCactusKeychainRef_found web3 req plugin c Hfind). simpl.
    destruct (get plugin _ (node c)) as [[privateKeyHex|message|] n']; simpl;
      try reflexivity.
    rewrite transactPrivateKey_registry. reflexivity.
  - rewrite (transactCactusKeychainRef_not_found web3 req c Hfind). reflexivity.
Qed.

(** C3: when the keychain plugin registered under the request's
    [keychainId] resolves the entry key to [K], [transact] with the
    CACTUSKEYCHAINREF credential is [transact] with a PRIVATEKEYHEX credential
    of secret [K] (same [ethAccount], same [transactionConfig]) run once the
    two lookups are done; and when the lookup leaves the outside world as it
    was, both requests settle the same way from the same state, leave the
    outside in the same state and count the same number of transactions. *)
Theorem transact_keychain_ref_as_private_key :
  forall Node (web3 : Web3 Node) fuel req req' plugin K n' c,
    type (web3SigningCredential req) = CACTUSKEYCHAINREF ->
    keychainPluginFor (keychainId (web3SigningCredential req)) c = Some plugin ->
    get plugin (keychainEntryKey (web3SigningCredential req)) (node c)
    = (Resolves (Some K), n') ->
    type (web3SigningCredential req') = PRIVATEKEYHEX ->
    secret (web3SigningCredential req') = Some K ->
    ethAccount (web3SigningCredential req') = ethAccount (web3SigningCredential req) ->
    transactionConfig req' = transactionConfig req ->
    transact web3 fuel req c
    = transact web3 fuel req'
        (afterCalls [CallKeychainGet (getKeychainId plugin)
                                     (keychainEntryKey (web3SigningCredential req));
                     CallFindManyByAspect KEYCHAIN] n' c)
    /\ (n' = node c ->
        fst (transact web3 fuel req c) = fst (transact web3 fuel req' c)
        /\ sameWorld (snd (transact web3 fuel req c))
                     (snd (transact web3 fuel req' c))).
Proof.
  intros Node web3 fuel req req' plugin K n' c Href Hfind Hget Hpk Hsecret _ Hcfg.
  assert (Hrun : transact web3 fuel req c
                 = transact web3 fuel req'
                     (afterCalls [CallKeychainGet (getKeychainId plugin)
                                    (keychainEntryKey (web3SigningCredential req));
                                  CallFindManyByAspect KEYCHAIN] n' c)).
  { unfold transact. rewrite Href, Hpk.
    rewrite (transactCactusKeychainRef_found web3 req plugin c Hfind).
    simpl. rewrite Hget. simpl.
    rewrite (transactPrivateKey_reads_config_and_secret web3 _ req');
      [reflexivity | simpl; congruence | simpl; congruence]. }
  split; [exact Hrun | ].
  intros Hsame. rewrite Hrun. unfold transact. rewrite Hpk.
  apply transactPrivateKey_sameWorld.
  unfold sameWorld, afterCalls; simpl. auto.
Qed.

(** C9: when the keychain plugin found for a CACTUSKEYCHAINREF request
    rejects the lookup of the entry key, [transact] is rejected with the
    plugin's own error; the only calls made are the registry lookup and the
    keychain [get], so nothing is signed or broadcast, and the transaction
    counter is untouched.  Whatever the request, the strategy leaves the
    plugin registry as it found it. *)
Theorem transact_keychain_entry_missing :
  forall Node (web3 : Web3 Node) fuel req plugin message n' c,
    type (web3SigningCredential req) = CACTUSKEYCHAINREF ->
    keychainPluginFor (keychainId (web3SigningCredential req)) c = Some plugin ->
    get plugin (keychainEntryKey (web3SigningCredential req)) (node c)
    = (Rejects message, n') ->
    transact web3 fuel req c
    = (Rejected (ExternalError message),
       afterCalls [CallKeychainGet (getKeychainId plugin)
                                   (keychainEntryKey (web3SigningCredential req));
                   CallFindManyByAspect KEYCHAIN] n' c)
    /\ existsb isSignOrBroadcast
               [CallKeychainGet (getKeychainId plugin)
                                (keychainEntryKey (web3SigningCredential req));
                CallFindManyByAspect KEYCHAIN]
       = false
    /\ (forall req0 c0,
           pluginRegistry (snd (transactCactusKeychainRef web3 req0 c0))
           = pluginRegistry c0).
Proof.
  intros Node web3 fuel req plugin message n' c Href Hfind Hget.
  split; [ | split; [reflexivity | intros; apply transactCactusKeychainRef_registry] ].
  unfold transact. rewrite Href.
  rewrite (transactCactusKeychainRef_found web3 req plugin c Hfind).
  simpl. rewrite Hget. reflexivity.
Qed.

Lemma transact_keychain_ref_as_private_key_witness :
  fst (transact (scriptedWeb3 promptNode) 1
         (sampleRequest CACTUSKEYCHAINREF (Some 5000)) (freshConnector sampleRegistry))
  = fst (transact (scriptedWeb3 promptNode) 1
           (sampleRequest PRIVATEKEYHEX None) (freshConnector sampleRegistry)).
Proof.
  apply (proj2 (transact_keychain_ref_as_private_key
                  Clocked (scriptedWeb3 promptNode) 1
                  (sampleRequest CACTUSKEYCHAINREF (Some 5000))
                  (sampleRequest PRIVATEKEYHEX None)
                  (memoryKeychain "kc1" [("bob", "0x0b0b"); ("alice", "0xdeadbeef")])
                  "0xdeadbeef" {| clock := 0; attempts := O |}
                  (freshConnector sampleRegistry)
                  eq_refl eq_refl eq_refl eq_refl eq_refl eq_refl eq_refl));
    reflexivity.
Defined.

Lemma transact_keychain_entry_missing_witness :
  transact (scriptedWeb3 promptNode) 1
           (sampleRequest CACTUSKEYCHAINREF None) (freshConnector registryWithoutAlice)
  = (Rejected (ExternalError "Keychain entry not found: alice"),
     afterCalls [CallKeychainGet "kc1" (Some "alice"); CallFindManyByAspect KEYCHAIN]
                {| clock := 0; attempts := O |}
                (freshConnector registryWithoutAlice)).
Proof.
  apply (proj1 (transact_keychain_entry_missing
                  Clocked (scriptedWeb3 promptNode) 1
                  (sampleRequest CACTUSKEYCHAINREF None)
                  (memoryKeychain "kc1" [("bob", "0x0b0b")])
                  "Keychain entry not found: alice" {| clock := 0; attempts := O |}
                  (freshConnector registryWithoutAlice)
                  eq_refl eq_refl eq_refl)).
Defined.

(** ** The receipt poller *)

Section Poller.

Context {Node : Type} (web3 : Web3 Node).

(** One iteration of the loop. *)
Lemma pollLoop_step fuel txHash timeout startedAt tries c :
  pollLoop web3 (S fuel) txHash timeout startedAt tries c
  = let (r, n1) := eth_getTransactionReceipt web3 txHash (node c) in
    match await r with
    | Fulfilled txReceipt =>
        let (t, n2) := Date_now web3 n1 in
        let c2 := afterCalls [CallGetTransactionReceipt txHash] n2 c in
        if negb (startedAt + timeout <=? t) && negb (isReceipt txReceipt)
        then pollLoop web3 fuel txHash timeout startedAt (S tries) c2
        else (Fulfilled (txReceipt, S tries), c2)
    | Rejected e =>
        (Rejected e, afterCalls [CallGetTransactionReceipt txHash] n1 c)
    | Pending =>
        (Pending, afterCalls [CallGetTransactionReceipt txHash] n1 c)
    end.
Proof.
  simpl. unfold bind, call, now.
  destruct (eth_getTransactionReceipt web3 txHash (node c))
    as [[txReceipt|message|] n1]; simpl; try reflexivity.
  destruct (Date_now web3 n1) as [t n2]; simpl.
  destruct (negb (startedAt + timeout <=? t) && negb (isReceipt txReceipt));
    reflexivity.
Qed.

(** The loop stops with [tries] above its initial value. *)
Lemma pollLoop_tries fuel txHash timeout startedAt :
  forall tries c r n c',
    pollLoop web3 fuel txHash timeout startedAt tries c = (Fulfilled (r, n), c') ->
    (tries < n)%nat.
Proof.
  induction fuel as [|fuel IH]; intros tries c r n c'.
  - discriminate.
  - rewrite pollLoop_step.
    destruct (eth_getTransactionReceipt web3 txHash (node c))
      as [[txReceipt|message|] n1]; simpl; try discriminate.
    destruct (Date_now web3 n1) as [t n2].
    destruct (negb (startedAt + timeout <=? t) && negb (isReceipt txReceipt)).
    + intro H. apply IH in H. lia.
    + intro H. inversion H. lia.
Qed.

(** A rejection of the loop is an error of the node's making. *)
Lemma pollLoop_rejected fuel txHash timeout startedAt :
  forall tries c e c',
    pollLoop web3 fuel txHash timeout startedAt tries c = (Rejected e, c') ->
    exists message, e = ExternalError message.
Proof.
  induction fuel as [|fuel IH]; intros tries c e c'.
  - discriminate.
  - rewrite pollLoop_step.
    destruct (eth_getTransactionReceipt web3 txHash (node c))
      as [[txReceipt|message|] n1]; simpl; try discriminate.
    + destruct (Date_now web3 n1) as [t n2].
      destruct (negb (startedAt + timeout <=? t) && negb (isReceipt txReceipt)).
      * apply IH.
      * discriminate.
    + intro H. inversion H. eauto.
Qed.

(** With fuel for one iteration the loop fetches at least once; it only
    fetches, and it touches neither the counter nor the registry. *)
Lemma pollLoop_calls fuel txHash timeout startedAt :
  forall tries c p c',
    pollLoop web3 (S fuel) txHash timeout startedAt tries c = (p, c') ->
    exists l,
      calls c' = (l ++ CallGetTransactionReceipt txHash :: calls c)%list
      /\ forallb isGetTransactionReceipt l = true
      /\ transactionCounter c' = transactionCounter c
      /\ pluginRegistry c' = pluginRegistry c.
Proof.
  induction fuel as [|fuel IH]; intros tries c p c'; rewrite pollLoop_step;
    destruct (eth_getTransactionReceipt web3 txHash (node c))
      as [[txReceipt|message|] n1]; simpl;
    try (intro H; inversion H; exists []; auto; fail);
    destruct (Date_now web3 n1) as [t n2];
    destruct (negb (startedAt + timeout <=? t) && negb (isReceipt txReceipt));
    try (intro H; inversion H; exists []; auto; fail).
  intro H. apply IH in H. destruct H as (l & Hl & Hall & Hk & Hr).
  simpl in Hl, Hk, Hr.
  exists (l ++ [CallGetTransactionReceipt txHash])%list.
  rewrite Hl, Hk, Hr, <- app_assoc, forallb_app, Hall. simpl. auto.
Qed.

(** [pollForTxReceipt] in terms of its loop. *)
Lemma pollForTxReceipt_loop fuel txHash timeout c :
  pollForTxReceipt web3 fuel txHash timeout c
  = let T := match timeout with Some t => t | None => 60000 end in
    let (startedAt, n0) := Date_now web3 (node c) in
    let (p, c') := pollLoop web3 fuel txHash T startedAt 0 (afterCalls [] n0 c) in
    match p with
    | Fulfilled (Some txReceipt, _) => (Fulfilled txReceipt, c')
    | Fulfilled (None, tries) => (Rejected (PollTimedOut T tries), c')
    | Rejected e => (Rejected e, c')
    | Pending => (Pending, c')
    end.
Proof.
  unfold pollForTxReceipt, bind, now. simpl.
  destruct (Date_now web3 (node c)) as [startedAt n0].
  unfold afterCalls. simpl.
  destruct (pollLoop web3 fuel txHash _ startedAt 0 _) as [[[[txReceipt|] tries]|e|] c'];
    reflexivity.
Qed.

End Poller.

(** C8: whatever [timeoutMs] is, 0 included, [pollForTxReceipt] fetches the
    receipt at least once before it can declare a timeout: the timeout error
    carries the effective [timeoutMs] and a number of polls of at least 1,
    and a poller that settled at all made a first fetch. *)
Theorem pollForTxReceipt_at_least_one_attempt :
  forall Node (web3 : Web3 Node) fuel txHash timeout c,
    (forall T polls,
        fst (pollForTxReceipt web3 fuel txHash timeout c)
        = Rejected (PollTimedOut T polls) ->
        (1 <= polls)%nat
        /\ T = match timeout with Some t => t | None => 60000 end)
    /\ (fst (pollForTxReceipt web3 fuel txHash timeout c) <> Pending ->
        exists l,
          calls (snd (pollForTxReceipt web3 fuel txHash timeout c))
          = (l ++ CallGetTransactionReceipt txHash :: calls c)%list).
Proof.
  intros Node web3 fuel txHash timeout c.
  rewrite pollForTxReceipt_loop. cbv zeta.
  destruct (Date_now web3 (node c)) as [startedAt n0].
  destruct (pollLoop web3 fuel txHash _ startedAt 0 (afterCalls [] n0 c))
    as [p c'] eqn:Hloop.
  split.
  - intros T polls.
    destruct p as [[[txReceipt|] tries]|e|]; simpl; try discriminate.
    + intro H. inversion H; subst. split; [ | reflexivity].
      apply pollLoop_tries in Hloop. lia.
    + intro H. inversion H; subst.
      apply pollLoop_rejected in Hloop. destruct Hloop as [message Hm].
      discriminate.
  - intro Hsettled.
    destruct fuel as [|fuel].
    + simpl in Hloop. inversion Hloop; subst. simpl in Hsettled. congruence.
    + apply pollLoop_calls in Hloop. destruct Hloop as (l & Hl & _).
      exists l.
      destruct p as [[[txReceipt|] tries]|e|]; simpl; exact Hl.
Qed.

Lemma pollForTxReceipt_at_least_one_attempt_witness :
  fst (pollForTxReceipt (scriptedWeb3 silentNode) 4 "0xfeed" (Some 0)
                        (freshConnector []))
  = Rejected (PollTimedOut 0 1)
  /\ (1 <= 1)%nat /\ 0 = 0.
Proof.
  split; [reflexivity | ].
  apply (proj1 (pollForTxReceipt_at_least_one_attempt
                  Clocked (scriptedWeb3 silentNode) 4 "0xfeed" (Some 0)
                  (freshConnector [])) 0 1%nat).
  reflexivity.
Defined.

(** *** Polling the scripted node *)

Lemma pollLoop_scripted s txHash T startedAt :
  forall k extra tries c,
    (forall i, (i < k)%nat ->
               hasReceiptAt s (sampledAt s (afterFetches s (node c) i)) = false
               /\ clock (afterFetches s (node c) (S i)) < startedAt + T) ->
    hasReceiptAt s (sampledAt s (afterFetches s (node c) k)) = true
    \/ startedAt + T <= clock (fetched s (afterFetches s (node c) k)) ->
    fst (pollLoop (scriptedWeb3 s) (S k + extra) txHash T startedAt tries c)
    = Fulfilled (if hasReceiptAt s (sampledAt s (afterFetches s (node c) k))
                 then Some (receipt s) else None,
                 (tries + S k)%nat).
Proof.
  induction k as [|k IH]; intros extra tries c Hbefore Hdecides.
  - change (S 0 + extra)%nat with (S extra).
    rewrite pollLoop_step. simpl in *.
    rewrite Nat.add_1_r.
    destruct (hasReceiptAt s (sampledAt s (node c))); simpl.
    + rewrite andb_false_r. reflexivity.
    + destruct Hdecides as [Hhas | Hlate]; [discriminate | ].
      apply Z.leb_le in Hlate. rewrite Hlate. reflexivity.
  - change (S (S k) + extra)%nat with (S (S k + extra)).
    rewrite pollLoop_step.
    cbn [scriptedWeb3 eth_getTransactionReceipt Date_now await].
    destruct (Hbefore O ltac:(lia)) as [Hnone Hearly].
    cbn [afterFetches] in Hnone, Hearly.
    rewrite Hnone.
    apply Z.leb_gt in Hearly. rewrite Hearly.
    cbn [negb andb isReceipt].
    rewrite IH.
    + cbn [afterCalls node afterFetches]. do 2 f_equal. lia.
    + intros i Hi. apply (Hbefore (S i)). lia.
    + exact Hdecides.
Qed.

(** C2, as amended: on a node that makes the receipt available [t] ms after
    polling starts, let attempt [k] be the first one that either reaches the
    node at or after [t] or is answered at or past the deadline
    [timeoutMs].  If attempt [k] reaches the node at or after [t], the
    poller returns the receipt, also when [t >= timeoutMs] and when the
    answer comes past the deadline.  If it reaches the node before [t] and
    is answered at or past the deadline, the poller fails with the timeout
    error carrying [timeoutMs] and [k + 1] polls and returns no receipt,
    also when [t < timeoutMs]: a fetch that came back empty at or past the
    deadline is a timeout, with no further look at the node. *)
Theorem pollForTxReceipt_deciding_attempt :
  forall s txHash T t k extra c,
    availableAt s = Some (clock (node c) + t) ->
    (forall i, (i < k)%nat ->
               sampledAt s (afterFetches s (node c) i) < clock (node c) + t
               /\ clock (afterFetches s (node c) (S i)) < clock (node c) + T) ->
    (clock (node c) + t <= sampledAt s (afterFetches s (node c) k) ->
     fst (pollForTxReceipt (scriptedWeb3 s) (S k + extra) txHash (Some T) c)
     = Fulfilled (receipt s))
    /\ (sampledAt s (afterFetches s (node c) k) < clock (node c) + t ->
        clock (node c) + T <= clock (fetched s (afterFetches s (node c) k)) ->
        fst (pollForTxReceipt (scriptedWeb3 s) (S k + extra) txHash (Some T) c)
        = Rejected (PollTimedOut T (S k))).
Proof.
  intros s txHash T t k extra c Havail Hbefore.
  assert (Hhas : forall x, hasReceiptAt s x = (clock (node c) + t <=? x)).
  { intro x. unfold hasReceiptAt. rewrite Havail. reflexivity. }
  assert (Hloop : hasReceiptAt s (sampledAt s (afterFetches s (node c) k)) = true
                  \/ clock (node c) + T
                     <= clock (fetched s (afterFetches s (node c) k)) ->
                  fst (pollLoop (scriptedWeb3 s) (S k + extra) txHash T
                                (clock (node c)) 0 (afterCalls [] (node c) c))
                  = Fulfilled
                      (if hasReceiptAt s (sampledAt s (afterFetches s (node c) k))
                       then Some (receipt s) else None, S k)).
  { intro Hdecides.
    apply (pollLoop_scripted s txHash T (clock (node c)) k extra 0
                             (afterCalls [] (node c) c)).
    - intros i Hi. cbn [afterCalls node]. rewrite Hhas.
      destruct (Hbefore i Hi) as [Hearly Hlive].
      split; [apply Z.leb_gt; exact Hearly | exact Hlive].
    - exact Hdecides. }
  rewrite pollForTxReceipt_loop.
  cbn [scriptedWeb3 Date_now].
  destruct (pollLoop (scriptedWeb3 s) (S k + extra) txHash T (clock (node c)) 0
                     (afterCalls [] (node c) c)) as [p c'].
  cbn [fst] in Hloop.
  split.
  - intro Hseen.
    assert (Hyes : hasReceiptAt s (sampledAt s (afterFetches s (node c) k)) = true).
    { rewrite Hhas. apply Z.leb_le. exact Hseen. }
    rewrite Hyes in Hloop. rewrite (Hloop (or_introl eq_refl)). reflexivity.
  - intros Hunseen Hlate.
    assert (Hno : hasReceiptAt s (sampledAt s (afterFetches s (node c) k)) = false).
    { rewrite Hhas. apply Z.leb_gt. exact Hunseen. }
    rewrite Hno in Hloop. rewrite (Hloop (or_intror Hlate)). reflexivity.
Qed.

Lemma pollForTxReceipt_deciding_attempt_witness :
  fst (pollForTxReceipt (scriptedWeb3 lateNode) (2 + 3) "0xfeed" (Some 1000)
                        (freshConnector []))
  = Fulfilled sampleReceipt
  /\ fst (pollForTxReceipt (scriptedWeb3 slowNode) (1 + 3) "0xfeed" (Some 100)
                           (freshConnector []))
     = Rejected (PollTimedOut 100 1).
Proof.
  split.
  - apply (proj1 (pollForTxReceipt_deciding_attempt
                    lateNode "0xfeed" 1000 1500 1 3 (freshConnector []) eq_refl
                    (fun i Hi =>
                       match i as j return
                             (j < 1)%nat ->
                             sampledAt lateNode
                               (afterFetches lateNode (node (freshConnector [])) j)
                             < clock (node (freshConnector [])) + 1500
                             /\ clock (afterFetches lateNode
                                         (node (freshConnector [])) (S j))
                                < clock (node (freshConnector [])) + 1000
                       with
                       | O => fun _ => conj eq_refl eq_refl
                       | S j => fun H => ltac:(lia)
                       end Hi))).
    vm_compute. discriminate.
  - apply (proj2 (pollForTxReceipt_deciding_attempt
                    slowNode "0xfeed" 100 50 0 3 (freshConnector []) eq_refl
                    (fun i Hi => ltac:(lia)))).
    + reflexivity.
    + vm_compute. discriminate.
Defined.

(** C2 as stated does not hold.  With [timeoutMs = 1000] and a receipt that
    becomes available after 1500 ms the poller returns the receipt, fetched by
    the attempt on which the deadline is found passed; with [timeoutMs = 0]
    and a receipt available from the start it returns the receipt as well;
    with [timeoutMs = 100] and a receipt available after 50 ms it times out,
    on a fetch that left before the receipt was there and came back after the
    deadline. *)
Lemma pollForTxReceipt_deadline_counterexample :
  (availableAt lateNode = Some (clock (node (freshConnector [])) + 1500)
   /\ 1500 >= 1000
   /\ fst (pollForTxReceipt (scriptedWeb3 lateNode) 5 "0xfeed" (Some 1000)
                            (freshConnector []))
      = Fulfilled sampleReceipt)
  /\ (availableAt promptNode = Some (clock (node (freshConnector [])) + 0)
      /\ 0 >= 0
      /\ fst (pollForTxReceipt (scriptedWeb3 promptNode) 5 "0xfeed" (Some 0)
                               (freshConnector []))
         = Fulfilled sampleReceipt)
  /\ (availableAt slowNode = Some (clock (node (freshConnector [])) + 50)
      /\ 50 < 100
      /\ fst (pollForTxReceipt (scriptedWeb3 slowNode) 5 "0xfeed" (Some 100)
                               (freshConnector []))
         = Rejected (PollTimedOut 100 1)).
Proof.
  repeat split; try reflexivity; lia.
Qed.

(** ** The strategies step by step *)

Section Strategies.

Context {Node : Type} (web3 : Web3 Node).

Lemma transactSigned_settles raw c :
  transactSigned web3 raw c
  = let (r, n1) := eth_sendSignedTransaction web3 raw (node c) in
    let c1 := afterCalls [CallSendSignedTransaction raw] n1 c in
    match r with
    | Resolves (inr rcpt) =>
        (Fulfilled {| transactionReceipt := rcpt |},
         {| node := n1;
            transactionCounter := S (transactionCounter c);
            pluginRegistry := pluginRegistry c;
            calls := CallSendSignedTransaction raw :: calls c |})
    | Resolves (inl message) => (Rejected (ExternalError message), c1)
    | Rejects message => (Rejected (ExternalError message), c1)
    | NeverSettles => (Pending, c1)
    end.
Proof.
  unfold transactSigned, bind, call, addCurrentTransaction, ret, throw.
  destruct (eth_sendSignedTransaction web3 raw (node c))
    as [[[message|rcpt]|message|] n1]; reflexivity.
Qed.

Lemma transactPrivateKey_settles req c :
  transactPrivateKey web3 req c
  = let cfg := transactionConfig req in
    let key := secret (web3SigningCredential req) in
    let (r, n1) := eth_accounts_signTransaction web3 cfg key (node c) in
    let c1 := afterCalls [CallSignTransaction cfg key] n1 c in
    match r with
    | Resolves signedTx =>
        match signedRawTransaction signedTx with
        | Some raw =>
            if (raw =? "")%string
            then (Rejected FailedToSignEthTransaction, c1)
            else transactSigned web3 raw c1
        | None => (Rejected FailedToSignEthTransaction, c1)
        end
    | Rejects message => (Rejected (ExternalError message), c1)
    | NeverSettles => (Pending, c1)
    end.
Proof.
  unfold transactPrivateKey, bind, call. cbv zeta.
  destruct (eth_accounts_signTransaction web3 _ _ (node c))
    as [[signedTx|message|] n1]; simpl; try reflexivity.
  destruct (signedRawTransaction signedTx) as [raw|]; try reflexivity.
  destruct (raw =? "")%string; reflexivity.
Qed.

Lemma transactGethKeychain_settles fuel txIn c :
  transactGethKeychain web3 fuel txIn c
  = let cfg := transactionConfig txIn in
    let password := secret (web3SigningCredential txIn) in
    let (r, n1) := eth_personal_sendTransaction web3 cfg password (node c) in
    let c1 := afterCalls [CallPersonalSendTransaction cfg password] n1 c in
    match r with
    | Resolves txHash =>
        match pollForTxReceipt web3 fuel txHash None c1 with
        | (Fulfilled rcpt, c2) => (Fulfilled {| transactionReceipt := rcpt |}, c2)
        | (Rejected ex, c2) =>
            (Rejected (FailedToInvokePersonalSendTransaction ex), c2)
        | (Pending, c2) => (Pending, c2)
        end
    | Rejects message =>
        (Rejected (FailedToInvokePersonalSendTransaction (ExternalError message)),
         c1)
    | NeverSettles => (Pending, c1)
    end.
Proof.
  unfold transactGethKeychain, tryCatch, bind, call. cbv zeta.
  destruct (eth_personal_sendTransaction web3 _ _ (node c))
    as [[txHash|message|] n1]; simpl; try reflexivity.
  unfold afterCalls. simpl.
  destruct (pollForTxReceipt web3 fuel txHash None _) as [[rcpt|ex|] c2];
    reflexivity.
Qed.

(** A successful broadcast of a signed transaction counts once; a failed
    one does not count. *)
Lemma transactSigned_counts raw c :
  transactionCounter (snd (transactSigned web3 raw c))
  = match fst (transactSigned web3 raw c) with
    | Fulfilled _ => S (transactionCounter c)
    | _ => transactionCounter c
    end.
Proof.
  rewrite transactSigned_settles.
  destruct (eth_sendSignedTransaction web3 raw (node c))
    as [[[message|rcpt]|message|] n1]; reflexivity.
Qed.

Lemma pollForTxReceipt_counter fuel txHash timeout c :
  transactionCounter (snd (pollForTxReceipt web3 fuel txHash timeout c))
  = transactionCounter c.
Proof.
  rewrite pollForTxReceipt_loop. cbv zeta.
  destruct (Date_now web3 (node c)) as [startedAt n0].
  destruct (pollLoop web3 fuel txHash _ startedAt 0 (afterCalls [] n0 c))
    as [p c'] eqn:Hloop.
  assert (Hk : transactionCounter c' = transactionCounter c).
  { destruct fuel as [|fuel].
    - simpl in Hloop. inversion Hloop. reflexivity.
    - apply pollLoop_calls in Hloop. destruct Hloop as (l & _ & _ & Hk & _).
      exact Hk. }
  destruct p as [[[txReceipt|] tries]|e|]; exact Hk.
Qed.

(** The keystore-password strategy never counts a transaction. *)
Lemma transactGethKeychain_never_counts fuel txIn c :
  transactionCounter (snd (transactGethKeychain web3 fuel txIn c))
  = transactionCounter c.
Proof.
  rewrite transactGethKeychain_settles. cbv zeta.
  destruct (eth_personal_sendTransaction web3 _ _ (node c))
    as [[txHash|message|] n1]; try reflexivity.
  pose proof (pollForTxReceipt_counter fuel txHash None
                (afterCalls [CallPersonalSendTransaction
                               (transactionConfig txIn)
                               (secret (web3SigningCredential txIn))] n1 c)) as Hk.
  destruct (pollForTxReceipt web3 fuel txHash None _) as [[rcpt|ex|] c2];
    exact Hk.
Qed.

(** The private-key strategy makes at most two calls, signing and sending;
    its failures are its own signing error or an error of web3's. *)
Lemma transactPrivateKey_calls req c :
  exists l,
    calls (snd (transactPrivateKey web3 req c)) = (l ++ calls c)%list
    /\ existsb isGetTransactionReceipt l = false.
Proof.
  rewrite transactPrivateKey_settles. cbv zeta.
  destruct (eth_accounts_signTransaction web3 _ _ (node c))
    as [[signedTx|message|] n1];
    try (eexists [_]; split; reflexivity).
  destruct (signedRawTransaction signedTx) as [raw|];
    try (eexists [_]; split; reflexivity).
  destruct (raw =? "")%string; try (eexists [_]; split; reflexivity).
  rewrite transactSigned_settles.
  destruct (eth_sendSignedTransaction web3 raw _)
    as [[[message|rcpt]|message|] n2];
    eexists [_; _]; split; reflexivity.
Qed.

Lemma transactPrivateKey_rejected req c e :
  fst (transactPrivateKey web3 req c) = Rejected e ->
  e = FailedToSignEthTransaction \/ exists message, e = ExternalError message.
Proof.
  rewrite transactPrivateKey_settles. cbv zeta.
  destruct (eth_accounts_signTransaction web3 _ _ (node c))
    as [[signedTx|message|] n1]; simpl; try discriminate;
    try (intro H; inversion H; eauto; fail).
  destruct (signedRawTransaction signedTx) as [raw|];
    try (intro H; inversion H; eauto; fail).
  destruct (raw =? "")%string; try (intro H; inversion H; eauto; fail).
  rewrite transactSigned_settles.
  destruct (eth_sendSignedTransaction web3 raw _)
    as [[[message|rcpt]|message|] n2]; simpl; try discriminate;
    intro H; inversion H; eauto.
Qed.

End Strategies.

(** ** The private-key path and the request timeout *)

(** C4, as amended: for a request with a PRIVATEKEYHEX credential, with
    [timeoutMs] 5000 or any other value, [transact] never polls for the
    receipt and never fails with the poll timeout error: it signs, hands the
    signed transaction to [sendSignedTransaction] and settles as that call
    does: with its receipt, with its error, or not at all.  Against a ledger
    whose [sendSignedTransaction] is rejected because no receipt came,
    [transact] fails with that rejection. *)
Theorem transact_private_key_never_polls :
  forall Node (web3 : Web3 Node) fuel req c,
    type (web3SigningCredential req) = PRIVATEKEYHEX ->
    (forall T polls,
        fst (transact web3 fuel req c) <> Rejected (PollTimedOut T polls))
    /\ (exists l,
           calls (snd (transact web3 fuel req c)) = (l ++ calls c)%list
           /\ existsb isGetTransactionReceipt l = false)
    /\ (forall signedTx raw n1,
           eth_accounts_signTransaction web3 (transactionConfig req)
             (secret (web3SigningCredential req)) (node c)
           = (Resolves signedTx, n1) ->
           signedRawTransaction signedTx = Some raw ->
           (raw =? "")%string = false ->
           fst (transact web3 fuel req c)
           = match fst (eth_sendSignedTransaction web3 raw n1) with
             | Resolves (inr rcpt) => Fulfilled {| transactionReceipt := rcpt |}
             | Resolves (inl message) => Rejected (ExternalError message)
             | Rejects message => Rejected (ExternalError message)
             | NeverSettles => Pending
             end).
Proof.
  intros Node web3 fuel req c Htag.
  unfold transact. rewrite Htag.
  split; [ | split].
  - intros T polls H. apply transactPrivateKey_rejected in H.
    destruct H as [H | [message H]]; discriminate.
  - apply transactPrivateKey_calls.
  - intros signedTx raw n1 Hsign Hraw Hfilled.
    rewrite transactPrivateKey_settles. cbv zeta.
    rewrite Hsign, Hraw, Hfilled, transactSigned_settles.
    cbn [afterCalls node].
    destruct (eth_sendSignedTransaction web3 raw n1)
      as [[[message|rcpt]|message|] n2]; reflexivity.
Qed.

Lemma transact_private_key_never_polls_witness :
  fst (transact (scriptedWeb3 silentNode) 5
                (sampleRequest PRIVATEKEYHEX (Some 5000)) (freshConnector []))
  = Rejected (ExternalError "Transaction was not mined within 750 seconds").
Proof.
  apply (proj2 (proj2 (transact_private_key_never_polls
                         Clocked (scriptedWeb3 silentNode) 5
                         (sampleRequest PRIVATEKEYHEX (Some 5000))
                         (freshConnector []) eq_refl))
               {| signedRawTransaction := Some "0xf86b";
                  signedTransactionHash := Some "0xfeed" |}
               "0xf86b" {| clock := 0; attempts := O |}
               eq_refl eq_refl eq_refl).
Defined.

(** C4 as stated does not hold.  A PRIVATEKEYHEX request with
    [timeoutMs = 5000], against a node that accepts the signed transaction
    and never has a receipt, fails with the error of
    [sendSignedTransaction], not with a poll timeout carrying 5000. *)
Lemma transact_private_key_timeout_counterexample :
  type (web3SigningCredential (sampleRequest PRIVATEKEYHEX (Some 5000)))
  = PRIVATEKEYHEX
  /\ timeoutMs (sampleRequest PRIVATEKEYHEX (Some 5000)) = Some 5000
  /\ availableAt silentNode = None
  /\ fst (transact (scriptedWeb3 silentNode) 5
                   (sampleRequest PRIVATEKEYHEX (Some 5000)) (freshConnector []))
     = Rejected (ExternalError "Transaction was not mined within 750 seconds")
  /\ ~ (exists polls,
           (1 <= polls)%nat
           /\ fst (transact (scriptedWeb3 silentNode) 5
                            (sampleRequest PRIVATEKEYHEX (Some 5000))
                            (freshConnector []))
              = Rejected (PollTimedOut 5000 polls)).
Proof.
  repeat split; try reflexivity.
  intros (polls & _ & H). vm_compute in H. discriminate.
Qed.

(** ** Propagation of failures *)

(** C6, as amended: [transact] has no handler of its own, its outcome is
    the outcome of the strategy chosen for the tag.  On the NONE,
    PRIVATEKEYHEX and CACTUSKEYCHAINREF paths a failure reaches the caller
    as it was raised: the rejection of the broadcast (or the Error object it
    resolved to), of the signing or of the keychain [get] with the
    collaborator's own error, a blank signature with the signing error, a
    missing keychain with the error of the [Checks.truthy] guard; so it is
    after the keychain indirection, whose nested private-key call is not
    wrapped.  On the GETHKEYCHAINPASSWORD path every failure raised inside
    the strategy's [try] block reaches the caller wrapped in the strategy's
    own error, which carries the failure: the rejection of the node's
    [personal.sendTransaction], and the failure of the receipt poll, its
    timeout included. *)
Theorem transact_failure_propagation :
  forall Node (web3 : Web3 Node) fuel req c,
    transact web3 fuel req c
    = strategyFor web3 fuel (type (web3SigningCredential req)) req c
    /\ (forall raw message n1,
           type (web3SigningCredential req) = NONE ->
           rawTransaction (transactionConfig req) = Some raw ->
           (raw =? "")%string = false ->
           eth_sendSignedTransaction web3 raw (node c) = (Rejects message, n1)
           \/ eth_sendSignedTransaction web3 raw (node c)
              = (Resolves (inl message), n1) ->
           fst (transact web3 fuel req c) = Rejected (ExternalError message))
    /\ (forall message n1,
           type (web3SigningCredential req) = PRIVATEKEYHEX ->
           eth_accounts_signTransaction web3 (transactionConfig req)
             (secret (web3SigningCredential req)) (node c)
           = (Rejects message, n1) ->
           fst (transact web3 fuel req c) = Rejected (ExternalError message))
    /\ (forall signedTx n1,
           type (web3SigningCredential req) = PRIVATEKEYHEX ->
           eth_accounts_signTransaction web3 (transactionConfig req)
             (secret (web3SigningCredential req)) (node c)
           = (Resolves signedTx, n1) ->
           truthy (signedRawTransaction signedTx) = false ->
           fst (transact web3 fuel req c) = Rejected FailedToSignEthTransaction)
    /\ (forall signedTx raw message n1 n2,
           type (web3SigningCredential req) = PRIVATEKEYHEX ->
           eth_accounts_signTransaction web3 (transactionConfig req)
             (secret (web3SigningCredential req)) (node c)
           = (Resolves signedTx, n1) ->
           signedRawTransaction signedTx = Some raw ->
           (raw =? "")%string = false ->
           eth_sendSignedTransaction web3 raw n1 = (Rejects message, n2)
           \/ eth_sendSignedTransaction web3 raw n1 = (Resolves (inl message), n2) ->
           fst (transact web3 fuel req c) = Rejected (ExternalError message))
    /\ (type (web3SigningCredential req) = CACTUSKEYCHAINREF ->
        keychainPluginFor (keychainId (web3SigningCredential req)) c = None ->
        fst (transact web3 fuel req c)
        = Rejected (ChecksFalsy
                      (keychainForID (keychainId (web3SigningCredential req)))))
    /\ (forall plugin message n1,
           type (web3SigningCredential req) = CACTUSKEYCHAINREF ->
           keychainPluginFor (keychainId (web3SigningCredential req)) c
           = Some plugin ->
           get plugin (keychainEntryKey (web3SigningCredential req)) (node c)
           = (Rejects message, n1) ->
           fst (transact web3 fuel req c) = Rejected (ExternalError message))
    /\ (forall plugin privateKeyHex n1 message n2,
           type (web3SigningCredential req) = CACTUSKEYCHAINREF ->
           keychainPluginFor (keychainId (web3SigningCredential req)) c
           = Some plugin ->
           get plugin (keychainEntryKey (web3SigningCredential req)) (node c)
           = (Resolves privateKeyHex, n1) ->
           eth_accounts_signTransaction web3 (transactionConfig req)
             privateKeyHex n1
           = (Rejects message, n2) ->
           fst (transact web3 fuel req c) = Rejected (ExternalError message))
    /\ (forall plugin privateKeyHex n1 signedTx n2,
           type (web3SigningCredential req) = CACTUSKEYCHAINREF ->
           keychainPluginFor (keychainId (web3SigningCredential req)) c
           = Some plugin ->
           get plugin (keychainEntryKey (web3SigningCredential req)) (node c)
           = (Resolves privateKeyHex, n1) ->
           eth_accounts_signTransaction web3 (transactionConfig req)
             privateKeyHex n1
           = (Resolves signedTx, n2) ->
           truthy (signedRawTransaction signedTx) = false ->
           fst (transact web3 fuel req c) = Rejected FailedToSignEthTransaction)
    /\ (forall plugin privateKeyHex n1 signedTx raw n2 message n3,
           type (web3SigningCredential req) = CACTUSKEYCHAINREF ->
           keychainPluginFor (keychainId (web3SigningCredential req)) c
           = Some plugin ->
           get plugin (keychainEntryKey (web3SigningCredential req)) (node c)
           = (Resolves privateKeyHex, n1) ->
           eth_accounts_signTransaction web3 (transactionConfig req)
             privateKeyHex n1
           = (Resolves signedTx, n2) ->
           signedRawTransaction signedTx = Some raw ->
           (raw =? "")%string = false ->
           eth_sendSignedTransaction web3 raw n2 = (Rejects message, n3)
           \/ eth_sendSignedTransaction web3 raw n2 = (Resolves (inl message), n3) ->
           fst (transact web3 fuel req c) = Rejected (ExternalError message))
    /\ (forall message n1,
           type (web3SigningCredential req) = GETHKEYCHAINPASSWORD ->
           eth_personal_sendTransaction web3 (transactionConfig req)
             (secret (web3SigningCredential req)) (node c)
           = (Rejects message, n1) ->
           fst (transact web3 fuel req c)
           = Rejected (FailedToInvokePersonalSendTransaction (ExternalError message)))
    /\ (forall txHash n1 ex,
           type (web3SigningCredential req) = GETHKEYCHAINPASSWORD ->
           eth_personal_sendTransaction web3 (transactionConfig req)
             (secret (web3SigningCredential req)) (node c)
           = (Resolves txHash, n1) ->
           fst (pollForTxReceipt web3 fuel txHash None
                  (afterCalls [CallPersonalSendTransaction
                                 (transactionConfig req)
                                 (secret (web3SigningCredential req))] n1 c))
           = Rejected ex ->
           fst (transact web3 fuel req c)
           = Rejected (FailedToInvokePersonalSendTransaction ex)).
Proof.
  intros Node web3 fuel req c.
  split; [rewrite transact_strategyFor; reflexivity | ].
  unfold transact.
  repeat match goal with |- _ /\ _ => split end.
  - intros raw message n1 Htag Hraw Hfilled Hsend.
    rewrite Htag, Hraw, Hfilled. cbn [negb].
    rewrite transactSigned_settles.
    destruct Hsend as [Hsend | Hsend]; rewrite Hsend; reflexivity.
  - intros message n1 Htag Hsign. rewrite Htag.
    rewrite transactPrivateKey_settles. cbv zeta. rewrite Hsign. reflexivity.
  - intros signedTx n1 Htag Hsign Hblank. rewrite Htag.
    rewrite transactPrivateKey_settles. cbv zeta. rewrite Hsign.
    destruct (signedRawTransaction signedTx) as [raw|]; [ | reflexivity].
    simpl in Hblank. apply negb_false_iff in Hblank. rewrite Hblank. reflexivity.
  - intros signedTx raw message n1 n2 Htag Hsign Hraw Hfilled Hsend. rewrite Htag.
    rewrite transactPrivateKey_settles. cbv zeta.
    rewrite Hsign, Hraw, Hfilled, transactSigned_settles.
    cbn [afterCalls node].
    destruct Hsend as [Hsend | Hsend]; rewrite Hsend; reflexivity.
  - intros Htag Hfind. rewrite Htag.
    rewrite (transactCactusKeychainRef_not_found web3 req c Hfind). reflexivity.
  - intros plugin message n1 Htag Hfind Hget. rewrite Htag.
    rewrite (transactCactusKeychainRef_found web3 req plugin c Hfind).
    cbv zeta. rewrite Hget. reflexivity.
  - intros plugin privateKeyHex n1 message n2 Htag Hfind Hget Hsign. rewrite Htag.
    rewrite (transactCactusKeychainRef_found web3 req plugin c Hfind).
    cbv zeta. rewrite Hget. cbn [await].
    rewrite transactPrivateKey_settles.
    cbn [transactionConfig web3SigningCredential secret afterCalls node].
    rewrite Hsign. reflexivity.
  - intros plugin privateKeyHex n1 signedTx n2 Htag Hfind Hget Hsign Hblank.
    rewrite Htag.
    rewrite (transactCactusKeychainRef_found web3 req plugin c Hfind).
    cbv zeta. rewrite Hget. cbn [await].
    rewrite transactPrivateKey_settles.
    cbn [transactionConfig web3SigningCredential secret afterCalls node].
    rewrite Hsign.
    destruct (signedRawTransaction signedTx) as [raw|]; [ | reflexivity].
    simpl in Hblank. apply negb_false_iff in Hblank. rewrite Hblank. reflexivity.
  - intros plugin privateKeyHex n1 signedTx raw n2 message n3
           Htag Hfind Hget Hsign Hraw Hfilled Hsend.
    rewrite Htag.
    rewrite (transactCactusKeychainRef_found web3 req plugin c Hfind).
    cbv zeta. rewrite Hget. cbn [await].
    rewrite transactPrivateKey_settles.
    cbn [transactionConfig web3SigningCredential secret afterCalls node].
    rewrite Hsign, Hraw, Hfilled, transactSigned_settles.
    cbn [afterCalls node].
    destruct Hsend as [Hsend | Hsend]; rewrite Hsend; reflexivity.
  - intros message n1 Htag Hsend. rewrite Htag.
    rewrite transactGethKeychain_settles. cbv zeta. rewrite Hsend. reflexivity.
  - intros txHash n1 ex Htag Hsend Hpoll. rewrite Htag.
    rewrite transactGethKeychain_settles. cbv zeta. rewrite Hsend.
    destruct (pollForTxReceipt web3 fuel txHash None _) as [[rcpt|ex0|] c2];
      simpl in Hpoll; try discriminate.
    inversion Hpoll. reflexivity.
Qed.

Lemma transact_failure_propagation_witness :
  fst (transact (scriptedWeb3 refusingNode) 3 preSignedRequest (freshConnector []))
  = Rejected (ExternalError "nonce too low")
  /\ fst (transact (scriptedWeb3 refusingNode) 3
                   (sampleRequest PRIVATEKEYHEX None) (freshConnector []))
     = Rejected (ExternalError "Private key must be 32 bytes long")
  /\ fst (transact (scriptedWeb3 blankSigner) 3
                   (sampleRequest PRIVATEKEYHEX None) (freshConnector []))
     = Rejected FailedToSignEthTransaction
  /\ fst (transact (scriptedWeb3 silentNode) 3
                   (sampleRequest PRIVATEKEYHEX None) (freshConnector []))
     = Rejected (ExternalError "Transaction was not mined within 750 seconds")
  /\ fst (transact (scriptedWeb3 promptNode) 3
                   (sampleRequest CACTUSKEYCHAINREF None) (freshConnector []))
     = Rejected (ChecksFalsy "keychain for ID:kc1")
  /\ fst (transact (scriptedWeb3 promptNode) 3
                   (sampleRequest CACTUSKEYCHAINREF None)
                   (freshConnector registryWithoutAlice))
     = Rejected (ExternalError "Keychain entry not found: alice")
  /\ fst (transact (scriptedWeb3 refusingNode) 3
                   (sampleRequest CACTUSKEYCHAINREF None)
                   (freshConnector sampleRegistry))
     = Rejected (ExternalError "Private key must be 32 bytes long")
  /\ fst (transact (scriptedWeb3 blankSigner) 3
                   (sampleRequest CACTUSKEYCHAINREF None)
                   (freshConnector sampleRegistry))
     = Rejected FailedToSignEthTransaction
  /\ fst (transact (scriptedWeb3 silentNode) 3
                   (sampleRequest CACTUSKEYCHAINREF None)
                   (freshConnector sampleRegistry))
     = Rejected (ExternalError "Transaction was not mined within 750 seconds")
  /\ fst (transact (scriptedWeb3 refusingNode) 3
                   (sampleRequest GETHKEYCHAINPASSWORD None) (freshConnector []))
     = Rejected (FailedToInvokePersonalSendTransaction
                   (ExternalError "could not decrypt key with given password"))
  /\ fst (transact (scriptedWeb3 silentNode) 3
                   (sampleRequest GETHKEYCHAINPASSWORD None) (freshConnector []))
     = Rejected (FailedToInvokePersonalSendTransaction (PollTimedOut 60000 2)).
Proof.
  pose (start := {| clock := 0; attempts := O |}).
  pose (kc1 := memoryKeychain (Node := Clocked) "kc1"
                 [("bob", "0x0b0b"); ("alice", "0xdeadbeef")]).
  pose (signed := {| signedRawTransaction := Some "0xf86b";
                     signedTransactionHash := Some "0xfeed" |}).
  repeat match goal with |- _ /\ _ => split end.
  - destruct (transact_failure_propagation
                Clocked (scriptedWeb3 refusingNode) 3 preSignedRequest
                (freshConnector []))
      as (_ & H & _).
    apply (H "0xf86b" "nonce too low" start); try reflexivity.
    left. reflexivity.
  - destruct (transact_failure_propagation
                Clocked (scriptedWeb3 refusingNode) 3
                (sampleRequest PRIVATEKEYHEX None) (freshConnector []))
      as (_ & _ & H & _).
    apply (H "Private key must be 32 bytes long" start); reflexivity.
  - destruct (transact_failure_propagation
                Clocked (scriptedWeb3 blankSigner) 3
                (sampleRequest PRIVATEKEYHEX None) (freshConnector []))
      as (_ & _ & _ & H & _).
    apply (H {| signedRawTransaction := None; signedTransactionHash := None |}
             start); reflexivity.
  - destruct (transact_failure_propagation
                Clocked (scriptedWeb3 silentNode) 3
                (sampleRequest PRIVATEKEYHEX None) (freshConnector []))
      as (_ & _ & _ & _ & H & _).
    apply (H signed "0xf86b" "Transaction was not mined within 750 seconds"
             start start); try reflexivity.
    left. reflexivity.
  - destruct (transact_failure_propagation
                Clocked (scriptedWeb3 promptNode) 3
                (sampleRequest CACTUSKEYCHAINREF None) (freshConnector []))
      as (_ & _ & _ & _ & _ & H & _).
    apply H; reflexivity.
  - destruct (transact_failure_propagation
                Clocked (scriptedWeb3 promptNode) 3
                (sampleRequest CACTUSKEYCHAINREF None)
                (freshConnector registryWithoutAlice))
      as (_ & _ & _ & _ & _ & _ & H & _).
    apply (H (memoryKeychain "kc1" [("bob", "0x0b0b")])
             "Keychain entry not found: alice" start); reflexivity.
  - destruct (transact_failure_propagation
                Clocked (scriptedWeb3 refusingNode) 3
                (sampleRequest CACTUSKEYCHAINREF None)
                (freshConnector sampleRegistry))
      as (_ & _ & _ & _ & _ & _ & _ & H & _).
    apply (H kc1 (Some "0xdeadbeef") start "Private key must be 32 bytes long"
             start); reflexivity.
  - destruct (transact_failure_propagation
                Clocked (scriptedWeb3 blankSigner) 3
                (sampleRequest CACTUSKEYCHAINREF None)
                (freshConnector sampleRegistry))
      as (_ & _ & _ & _ & _ & _ & _ & _ & H & _).
    apply (H kc1 (Some "0xdeadbeef") start
             {| signedRawTransaction := None; signedTransactionHash := None |}
             start); reflexivity.
  - destruct (transact_failure_propagation
                Clocked (scriptedWeb3 silentNode) 3
                (sampleRequest CACTUSKEYCHAINREF None)
                (freshConnector sampleRegistry))
      as (_ & _ & _ & _ & _ & _ & _ & _ & _ & H & _).
    apply (H kc1 (Some "0xdeadbeef") start signed "0xf86b" start
             "Transaction was not mined within 750 seconds" start);
      try reflexivity.
    left. reflexivity.
  - destruct (transact_failure_propagation
                Clocked (scriptedWeb3 refusingNode) 3
                (sampleRequest GETHKEYCHAINPASSWORD None) (freshConnector []))
      as (_ & _ & _ & _ & _ & _ & _ & _ & _ & _ & H & _).
    apply (H "could not decrypt key with given password" start); reflexivity.
  - destruct (transact_failure_propagation
                Clocked (scriptedWeb3 silentNode) 3
                (sampleRequest GETHKEYCHAINPASSWORD None) (freshConnector []))
      as (_ & _ & _ & _ & _ & _ & _ & _ & _ & _ & _ & H).
    apply (H "0xfeed" start (PollTimedOut 60000 2)); reflexivity.
Defined.

(** C6 as stated does not hold.  On the GETHKEYCHAINPASSWORD path, against a
    node that accepts the transaction and never has a receipt, the poller
    fails with the poll timeout error (60000 ms, 2 polls); what reaches the
    caller of [transact] is not that error but the strategy's
    failed-to-invoke-sendTransaction error around it, the same kind a
    refused send arrives as. *)
Lemma transact_poll_timeout_wrapped_counterexample :
  fst (pollForTxReceipt (scriptedWeb3 silentNode) 5 "0xfeed" None
         (afterCalls [CallPersonalSendTransaction sampleConfig (Some "0xdeadbeef")]
                     {| clock := 0; attempts := O |} (freshConnector [])))
  = Rejected (PollTimedOut 60000 2)
  /\ fst (transact (scriptedWeb3 silentNode) 5
                   (sampleRequest GETHKEYCHAINPASSWORD None) (freshConnector []))
     = Rejected (FailedToInvokePersonalSendTransaction (PollTimedOut 60000 2))
  /\ fst (transact (scriptedWeb3 silentNode) 5
                   (sampleRequest GETHKEYCHAINPASSWORD None) (freshConnector []))
     <> Rejected (PollTimedOut 60000 2).
Proof.
  split; [reflexivity | split; [reflexivity | ] ].
  vm_compute. discriminate.
Qed.

(** ** The transaction counter *)

(** C7 fails on the code.  A GETHKEYCHAINPASSWORD request against a node that
    accepts the transaction and has the receipt is a successful submission
    that reached the broadcast step, and the transaction counter is still 0
    after it; the same transaction submitted with a PRIVATEKEYHEX credential
    leaves the counter at 1. *)
Theorem transact_geth_keychain_not_counted :
  fst (transact (scriptedWeb3 promptNode) 5
                (sampleRequest GETHKEYCHAINPASSWORD None) (freshConnector []))
  = Fulfilled {| transactionReceipt := sampleReceipt |}
  /\ existsb isBroadcast
             (calls (snd (transact (scriptedWeb3 promptNode) 5
                                   (sampleRequest GETHKEYCHAINPASSWORD None)
                                   (freshConnector []))))
     = true
  /\ transactionCounter
       (snd (transact (scriptedWeb3 promptNode) 5
                      (sampleRequest GETHKEYCHAINPASSWORD None)
                      (freshConnector [])))
     = O
  /\ fst (transact (scriptedWeb3 promptNode) 5
                   (sampleRequest PRIVATEKEYHEX None) (freshConnector []))
     = Fulfilled {| transactionReceipt := sampleReceipt |}
  /\ transactionCounter
       (snd (transact (scriptedWeb3 promptNode) 5
                      (sampleRequest PRIVATEKEYHEX None) (freshConnector [])))
     = 1%nat.
Proof.
  repeat split; reflexivity.
Qed.

(** ** Further properties of the poller *)

Section PollerFacts.

Context {Node : Type} (web3 : Web3 Node).

Lemma repeat_snoc {A} (x : A) k (l : list A) :
  (repeat x k ++ x :: l = repeat x (S k) ++ l)%list.
Proof.
  induction k as [|k IH]; simpl; [reflexivity | ].
  f_equal. exact IH.
Qed.

(** The loop only fetches the receipt of [txHash]; when it stops, [tries] has
    grown by the number of fetches. *)
Lemma pollLoop_fetches txHash timeout startedAt :
  forall fuel tries c p c',
    pollLoop web3 fuel txHash timeout startedAt tries c = (p, c') ->
    exists k,
      calls c' = (repeat (CallGetTransactionReceipt txHash) k ++ calls c)%list
      /\ transactionCounter c' = transactionCounter c
      /\ pluginRegistry c' = pluginRegistry c
      /\ (forall r n, p = Fulfilled (r, n) -> n = (tries + k)%nat /\ (1 <= k)%nat).
Proof.
  induction fuel as [|fuel IH]; intros tries c p c'.
  - simpl. intro H. inversion H; subst. exists O. simpl.
    repeat split; try reflexivity; discriminate.
  - rewrite pollLoop_step.
    destruct (eth_getTransactionReceipt web3 txHash (node c))
      as [[txReceipt|message|] n1]; simpl;
      try (intro H; inversion H; subst; exists 1%nat; simpl;
           repeat split; try reflexivity; discriminate).
    destruct (Date_now web3 n1) as [t n2].
    destruct (negb (startedAt + timeout <=? t) && negb (isReceipt txReceipt)).
    + intro H. apply IH in H. destruct H as (k & Hl & Hk & Hr & Hn).
      simpl in Hl, Hk, Hr. exists (S k).
      rewrite Hl, Hk, Hr, repeat_snoc.
      repeat split; try reflexivity;
        destruct (Hn r n H) as [Hcount Hpos]; lia.
    + intro H. inversion H; subst. exists 1%nat. simpl.
      repeat split; try reflexivity;
        match goal with Heq : Fulfilled _ = Fulfilled _ |- _ => inversion Heq end;
        lia.
Qed.

Lemma pollForTxReceipt_fetches fuel txHash timeout c :
  exists k,
    calls (snd (pollForTxReceipt web3 fuel txHash timeout c))
    = (repeat (CallGetTransactionReceipt txHash) k ++ calls c)%list
    /\ transactionCounter (snd (pollForTxReceipt web3 fuel txHash timeout c))
       = transactionCounter c
    /\ pluginRegistry (snd (pollForTxReceipt web3 fuel txHash timeout c))
       = pluginRegistry c
    /\ (forall T polls,
           fst (pollForTxReceipt web3 fuel txHash timeout c)
           = Rejected (PollTimedOut T polls) ->
           polls = k /\ (1 <= polls)%nat
           /\ T = match timeout with Some t => t | None => 60000 end)
    /\ (forall rcpt,
           fst (pollForTxReceipt web3 fuel txHash timeout c) = Fulfilled rcpt ->
           (1 <= k)%nat).
Proof.
  rewrite pollForTxReceipt_loop. cbv zeta.
  destruct (Date_now web3 (node c)) as [startedAt n0].
  destruct (pollLoop web3 fuel txHash _ startedAt 0 (afterCalls [] n0 c))
    as [p c'] eqn:Hloop.
  pose proof Hloop as Hrej.
  apply pollLoop_fetches in Hloop. destruct Hloop as (k & Hl & Hk & Hr & Hn).
  simpl in Hl, Hk, Hr. exists k.
  destruct p as [[[txReceipt|] tries]|e|]; simpl;
    (split; [exact Hl | split; [exact Hk | split; [exact Hr | split]]]);
    try discriminate.
  - intros rcpt _. destruct (Hn _ _ eq_refl). lia.
  - intros T polls H. inversion H; subst.
    destruct (Hn _ _ eq_refl). repeat split; lia.
  - intros T polls H. inversion H; subst.
    apply pollLoop_rejected in Hrej. destruct Hrej as [message Hm]. discriminate.
Qed.

End PollerFacts.

(** X1: [pollForTxReceipt] only ever calls [getTransactionReceipt] for the
    hash it was given and touches neither the transaction counter nor the
    plugin registry; the number of polls reported in its timeout error is
    the number of fetches it made, and a receipt is never returned without
    a fetch. *)
Theorem pollForTxReceipt_polls_count_fetches :
  forall Node (web3 : Web3 Node) fuel txHash timeout c,
  exists k,
    calls (snd (pollForTxReceipt web3 fuel txHash timeout c))
    = (repeat (CallGetTransactionReceipt txHash) k ++ calls c)%list
    /\ transactionCounter (snd (pollForTxReceipt web3 fuel txHash timeout c))
       = transactionCounter c
    /\ pluginRegistry (snd (pollForTxReceipt web3 fuel txHash timeout c))
       = pluginRegistry c
    /\ (forall T polls,
           fst (pollForTxReceipt web3 fuel txHash timeout c)
           = Rejected (PollTimedOut T polls) ->
           polls = k)
    /\ (forall rcpt,
           fst (pollForTxReceipt web3 fuel txHash timeout c) = Fulfilled rcpt ->
           (1 <= k)%nat).
Proof.
  intros Node web3 fuel txHash timeout c.
  destruct (pollForTxReceipt_fetches web3 fuel txHash timeout c)
    as (k & Hl & Hk & Hr & Hpolls & Hfull).
  exists k. repeat split; auto.
  intros T polls H. apply Hpolls in H. tauto.
Qed.

Lemma pollForTxReceipt_polls_count_fetches_witness :
  exists k,
    calls (snd (pollForTxReceipt (scriptedWeb3 silentNode) 5 "0xfeed" None
                                 (freshConnector [])))
    = (repeat (CallGetTransactionReceipt "0xfeed") k ++ [])%list
    /\ 2%nat = k.
Proof.
  destruct (pollForTxReceipt_polls_count_fetches
              Clocked (scriptedWeb3 silentNode) 5 "0xfeed" None (freshConnector []))
    as (k & Hl & _ & _ & Hpolls & _).
  exists k. split; [exact Hl | ].
  apply (Hpolls 60000 2%nat). reflexivity.
Defined.

(** X2: a receipt returned by the first fetch is returned by the poller
    after that single fetch, whatever [timeoutMs] is (zero and negative
    values included) and whatever the clock reads. *)
Theorem pollForTxReceipt_receipt_on_first_fetch :
  forall Node (web3 : Web3 Node) fuel txHash timeout c n0 rcpt n1,
    snd (Date_now web3 (node c)) = n0 ->
    eth_getTransactionReceipt web3 txHash n0 = (Resolves (Some rcpt), n1) ->
    fst (pollForTxReceipt web3 (S fuel) txHash timeout c) = Fulfilled rcpt
    /\ calls (snd (pollForTxReceipt web3 (S fuel) txHash timeout c))
       = CallGetTransactionReceipt txHash :: calls c.
Proof.
  intros Node web3 fuel txHash timeout c n0 rcpt n1 Hnow Hfetch.
  rewrite pollForTxReceipt_loop. cbv zeta.
  destruct (Date_now web3 (node c)) as [startedAt n0']. simpl in Hnow. subst n0'.
  rewrite pollLoop_step. cbn [afterCalls node]. rewrite Hfetch. cbn [await].
  destruct (Date_now web3 n1) as [t n2].
  cbn [isReceipt negb]. rewrite andb_false_r. split; reflexivity.
Qed.

Lemma pollForTxReceipt_receipt_on_first_fetch_witness :
  fst (pollForTxReceipt (scriptedWeb3 promptNode) 1 "0xfeed" (Some (-5))
                        (freshConnector []))
  = Fulfilled sampleReceipt.
Proof.
  apply (proj1 (pollForTxReceipt_receipt_on_first_fetch
                  Clocked (scriptedWeb3 promptNode) 0 "0xfeed" (Some (-5))
                  (freshConnector []) {| clock := 0; attempts := O |}
                  sampleReceipt {| clock := 20; attempts := 1 |}
                  eq_refl eq_refl)).
Defined.



(** X4: when the first fetch comes back empty and the clock then reads the
    deadline or later, the poller fails after that single fetch with the
    timeout error carrying [timeoutMs] and 1 poll; so it does for every
    [timeoutMs <= 0] on a clock that does not run backwards. *)
Theorem pollForTxReceipt_single_attempt_timeout :
  forall Node (web3 : Web3 Node) fuel txHash T c startedAt n0 n1 t n2,
    Date_now web3 (node c) = (startedAt, n0) ->
    eth_getTransactionReceipt web3 txHash n0 = (Resolves None, n1) ->
    Date_now web3 n1 = (t, n2) ->
    startedAt + T <= t ->
    pollForTxReceipt web3 (S fuel) txHash (Some T) c
    = (Rejected (PollTimedOut T 1),
       afterCalls [CallGetTransactionReceipt txHash] n2 c).
Proof.
  intros Node web3 fuel txHash T c startedAt n0 n1 t n2 Hstart Hfetch Hnow Hlate.
  rewrite pollForTxReceipt_loop. cbv zeta. rewrite Hstart.
  rewrite pollLoop_step. cbn [afterCalls node]. rewrite Hfetch. cbn [await].
  rewrite Hnow. apply Z.leb_le in Hlate. rewrite Hlate. reflexivity.
Qed.

Lemma pollForTxReceipt_single_attempt_timeout_witness :
  pollForTxReceipt (scriptedWeb3 silentNode) 3 "0xfeed" (Some 0) (freshConnector [])
  = (Rejected (PollTimedOut 0 1),
     afterCalls [CallGetTransactionReceipt "0xfeed"]
                {| clock := 30000; attempts := 1 |} (freshConnector [])).
Proof.
  apply (pollForTxReceipt_single_attempt_timeout
           Clocked (scriptedWeb3 silentNode) 2 "0xfeed" 0 (freshConnector [])
           0 {| clock := 0; attempts := O |} {| clock := 30000; attempts := 1 |}
           30000 {| clock := 30000; attempts := 1 |}
           eq_refl eq_refl eq_refl).
  vm_compute. discriminate.
Defined.

(** ** Further properties of the strategies *)

Section StrategyFacts.

Context {Node : Type} (web3 : Web3 Node).

Lemma pollForTxReceipt_rejected fuel txHash timeout c e :
  fst (pollForTxReceipt web3 fuel txHash timeout c) = Rejected e ->
  (exists message, e = ExternalError message)
  \/ (exists polls,
         e = PollTimedOut (match timeout with Some t => t | None => 60000 end) polls
         /\ (1 <= polls)%nat).
Proof.
  intro H.
  destruct (pollForTxReceipt_fetches web3 fuel txHash timeout c)
    as (k & _ & _ & _ & Hpolls & _).
  revert H Hpolls. rewrite pollForTxReceipt_loop. cbv zeta.
  destruct (Date_now web3 (node c)) as [startedAt n0].
  destruct (pollLoop web3 fuel txHash _ startedAt 0 (afterCalls [] n0 c))
    as [p c'] eqn:Hloop.
  destruct p as [[[txReceipt|] tries]|e0|]; simpl; try discriminate.
  - intros H Hpolls. inversion H; subst. right. exists tries.
    destruct (Hpolls _ _ eq_refl) as (_ & Hpos & _). split; [reflexivity | lia].
  - intros H _. inversion H; subst. left.
    apply pollLoop_rejected in Hloop. exact Hloop.
Qed.

Lemma transactGethKeychain_calls fuel txIn c :
  exists k txHash,
    calls (snd (transactGethKeychain web3 fuel txIn c))
    = (repeat (CallGetTransactionReceipt txHash) k
       ++ CallPersonalSendTransaction (transactionConfig txIn)
            (secret (web3SigningCredential txIn)) :: calls c)%list
    /\ pluginRegistry (snd (transactGethKeychain web3 fuel txIn c))
       = pluginRegistry c.
Proof.
  rewrite transactGethKeychain_settles. cbv zeta.
  destruct (eth_personal_sendTransaction web3 _ _ (node c))
    as [[txHash|message|] n1];
    try (exists O, ""%string; split; reflexivity).
  destruct (pollForTxReceipt_fetches web3 fuel txHash None
              (afterCalls [CallPersonalSendTransaction
                             (transactionConfig txIn)
                             (secret (web3SigningCredential txIn))] n1 c))
    as (k & Hl & _ & Hr & _).
  exists k, txHash.
  destruct (pollForTxReceipt web3 fuel txHash None _) as [[rcpt|ex|] c2];
    simpl in *; split; assumption.
Qed.

Lemma transactPrivateKey_counts req c :
  transactionCounter (snd (transactPrivateKey web3 req c))
  = match fst (transactPrivateKey web3 req c) with
    | Fulfilled _ => S (transactionCounter c)
    | _ => transactionCounter c
    end.
Proof.
  rewrite transactPrivateKey_settles. cbv zeta.
  destruct (eth_accounts_signTransaction web3 _ _ (node c))
    as [[signedTx|message|] n1]; try reflexivity.
  destruct (signedRawTransaction signedTx) as [raw|]; try reflexivity.
  destruct (raw =? "")%string; try reflexivity.
  rewrite transactSigned_counts. reflexivity.
Qed.

Lemma transactCactusKeychainRef_counts req c :
  transactionCounter (snd (transactCactusKeychainRef web3 req c))
  = match fst (transactCactusKeychainRef web3 req c) with
    | Fulfilled _ => S (transactionCounter c)
    | _ => transactionCounter c
    end.
Proof.
  destruct (keychainPluginFor (keychainId (web3SigningCredential req)) c)
    as [plugin|] eqn:Hfind.
  - rewrite (transactCactusKeychainRef_found web3 req plugin c Hfind). cbv zeta.
    destruct (get plugin _ (node c)) as [[privateKeyHex|message|] n']; simpl;
      try reflexivity.
    rewrite transactPrivateKey_counts. reflexivity.
  - rewrite (transactCactusKeychainRef_not_found web3 req c Hfind). reflexivity.
Qed.

(** The calls of the private-key strategy: the signing, then the send of
    what was signed when it is not blank. *)
Lemma transactPrivateKey_calls_exactly req c :
  calls (snd (transactPrivateKey web3 req c))
  = (match fst (eth_accounts_signTransaction web3 (transactionConfig req)
                  (secret (web3SigningCredential req)) (node c)) with
     | Resolves signedTx =>
         match signedRawTransaction signedTx with
         | Some raw =>
             if (raw =? "")%string then [] else [CallSendSignedTransaction raw]
         | None => []
         end
     | _ => []
     end
     ++ CallSignTransaction (transactionConfig req)
          (secret (web3SigningCredential req)) :: calls c)%list.
Proof.
  rewrite transactPrivateKey_settles. cbv zeta.
  destruct (eth_accounts_signTransaction web3 _ _ (node c))
    as [[signedTx|message|] n1]; simpl; try reflexivity.
  destruct (signedRawTransaction signedTx) as [raw|]; try reflexivity.
  destruct (raw =? "")%string; try reflexivity.
  rewrite transactSigned_settles.
  destruct (eth_sendSignedTransaction web3 raw _)
    as [[[message|rcpt]|message|] n2]; reflexivity.
Qed.

Lemma keychainPluginFor_none keychainIdOpt (c : Connector Node) :
  (forall p, In p (pluginRegistry c) ->
             getAspect p = KEYCHAIN -> hasKeychainId keychainIdOpt p = false) ->
  keychainPluginFor keychainIdOpt c = None.
Proof.
  unfold keychainPluginFor. intro Hnone.
  induction (pluginRegistry c) as [|p rest IH]; simpl; [reflexivity | ].
  destruct (PluginAspect_eqb (getAspect p) KEYCHAIN) eqn:Haspect; simpl.
  - rewrite (Hnone p (or_introl eq_refl)).
    + apply IH. intros q Hq. apply Hnone. right. exact Hq.
    + destruct (getAspect p); simpl in Haspect; congruence.
  - apply IH. intros q Hq. apply Hnone. right. exact Hq.
Qed.

End StrategyFacts.

(** X5: every failure of the keystore-password strategy reaches the caller
    as the strategy's failed-to-invoke-sendTransaction error, and the error
    inside is either the node's own or the poller's timeout, which always
    carries the default 60000 ms (the request's [timeoutMs] is not passed to
    the poller) and at least one poll. *)
Theorem transactGethKeychain_failure_envelope :
  forall Node (web3 : Web3 Node) fuel txIn c e,
    fst (transactGethKeychain web3 fuel txIn c) = Rejected e ->
    exists inner,
      e = FailedToInvokePersonalSendTransaction inner
      /\ ((exists message, inner = ExternalError message)
          \/ (exists polls, inner = PollTimedOut 60000 polls /\ (1 <= polls)%nat)).
Proof.
  intros Node web3 fuel txIn c e.
  rewrite transactGethKeychain_settles. cbv zeta.
  destruct (eth_personal_sendTransaction web3 _ _ (node c))
    as [[txHash|message|] n1]; simpl; try discriminate.
  - destruct (pollForTxReceipt web3 fuel txHash None _) as [[rcpt|ex|] c2] eqn:Hpoll;
      simpl; try discriminate.
    intro H. inversion H; subst. exists ex. split; [reflexivity | ].
    apply (pollForTxReceipt_rejected web3 fuel txHash None
             (afterCalls [CallPersonalSendTransaction
                            (transactionConfig txIn)
                            (secret (web3SigningCredential txIn))] n1 c)).
    rewrite Hpoll. reflexivity.
  - intro H. inversion H; subst. eauto.
Qed.

Lemma transactGethKeychain_failure_envelope_witness :
  exists inner,
    FailedToInvokePersonalSendTransaction (PollTimedOut 60000 2)
    = FailedToInvokePersonalSendTransaction inner
    /\ ((exists message, inner = ExternalError message)
        \/ (exists polls, inner = PollTimedOut 60000 polls /\ (1 <= polls)%nat)).
Proof.
  apply (transactGethKeychain_failure_envelope
           Clocked (scriptedWeb3 silentNode) 5
           (sampleRequest GETHKEYCHAINPASSWORD (Some 5000)) (freshConnector [])).
  reflexivity.
Defined.

(** X6: the keystore-password strategy never signs locally and never sends a
    signed transaction: its calls are one [personal.sendTransaction] with
    the request's transaction config and the credential's secret as
    password, followed by receipt fetches only; the plugin registry is left
    as it was. *)
Theorem transactGethKeychain_calls_node_only :
  forall Node (web3 : Web3 Node) fuel txIn c,
  exists k txHash,
    calls (snd (transactGethKeychain web3 fuel txIn c))
    = (repeat (CallGetTransactionReceipt txHash) k
       ++ CallPersonalSendTransaction (transactionConfig txIn)
            (secret (web3SigningCredential txIn)) :: calls c)%list
    /\ pluginRegistry (snd (transactGethKeychain web3 fuel txIn c))
       = pluginRegistry c.
Proof.
  intros Node web3 fuel txIn c. apply transactGethKeychain_calls.
Qed.

(** X7: on the NONE, PRIVATEKEYHEX and CACTUSKEYCHAINREF paths and for an
    unrecognized tag, the transaction counter grows by exactly one when
    [transact] is fulfilled and not at all otherwise; on no path does a
    rejected or unsettled [transact] count a transaction. *)
Theorem transact_counts_fulfilled_submissions :
  forall Node (web3 : Web3 Node) fuel req c,
    (type (web3SigningCredential req) <> GETHKEYCHAINPASSWORD ->
     transactionCounter (snd (transact web3 fuel req c))
     = match fst (transact web3 fuel req c) with
       | Fulfilled _ => S (transactionCounter c)
       | _ => transactionCounter c
       end)
    /\ match fst (transact web3 fuel req c) with
       | Fulfilled _ => True
       | _ => transactionCounter (snd (transact web3 fuel req c))
              = transactionCounter c
       end.
Proof.
  intros Node web3 fuel req c.
  assert (Hothers :
            type (web3SigningCredential req) <> GETHKEYCHAINPASSWORD ->
            transactionCounter (snd (transact web3 fuel req c))
            = match fst (transact web3 fuel req c) with
              | Fulfilled _ => S (transactionCounter c)
              | _ => transactionCounter c
              end).
  { unfold transact.
    destruct (type (web3SigningCredential req)); intro Hnot.
    - apply transactCactusKeychainRef_counts.
    - congruence.
    - destruct (rawTransaction (transactionConfig req)) as [raw|]; [ | reflexivity].
      destruct (negb (raw =? "")%string); [ | reflexivity].
      apply transactSigned_counts.
    - apply transactPrivateKey_counts.
    - reflexivity. }
  split; [exact Hothers | ].
  destruct (type (web3SigningCredential req)) eqn:Htag;
    try (rewrite Hothers by congruence;
         destruct (fst (transact web3 fuel req c)); [exact I | reflexivity ..]).
  unfold transact. rewrite Htag.
  rewrite transactGethKeychain_never_counts.
  destruct (fst (transactGethKeychain web3 fuel req c)); [exact I | reflexivity ..].
Qed.

Lemma transact_counts_fulfilled_submissions_witness :
  transactionCounter
    (snd (transact (scriptedWeb3 promptNode) 2
                   (sampleRequest CACTUSKEYCHAINREF None)
                   (freshConnector sampleRegistry)))
  = 1%nat.
Proof.
  apply (proj1 (transact_counts_fulfilled_submissions
                  Clocked (scriptedWeb3 promptNode) 2
                  (sampleRequest CACTUSKEYCHAINREF None)
                  (freshConnector sampleRegistry))).
  discriminate.
Defined.

(** X8: a request with the NONE credential whose raw transaction is the
    empty string is rejected like one without a raw transaction (the test is
    on truthiness), and nothing is broadcast. *)
Theorem transact_none_empty_raw_transaction :
  forall Node (web3 : Web3 Node) fuel req c,
    type (web3SigningCredential req) = NONE ->
    rawTransaction (transactionConfig req) = Some ""%string ->
    transact web3 fuel req c = (Rejected ExpectedPreSignedRawTransaction, c).
Proof.
  intros Node web3 fuel req c Htag Hraw.
  unfold transact. rewrite Htag, Hraw. reflexivity.
Qed.

Lemma transact_none_empty_raw_transaction_witness :
  transact (scriptedWeb3 promptNode) 2 blankPreSignedRequest (freshConnector [])
  = (Rejected ExpectedPreSignedRawTransaction, freshConnector []).
Proof.
  apply transact_none_empty_raw_transaction; reflexivity.
Defined.

(** X9: when no registered plugin of aspect KEYCHAIN has the request's
    keychain id (an empty registry, an [undefined] id, or an id carried only
    by plugins of another aspect), the CACTUSKEYCHAINREF request is rejected
    by the [Checks.truthy] guard after the registry lookup alone: no keychain
    is asked, nothing is signed or broadcast. *)
Theorem transact_keychain_not_registered :
  forall Node (web3 : Web3 Node) fuel req c,
    type (web3SigningCredential req) = CACTUSKEYCHAINREF ->
    (forall p, In p (pluginRegistry c) ->
               getAspect p = KEYCHAIN ->
               hasKeychainId (keychainId (web3SigningCredential req)) p = false) ->
    transact web3 fuel req c
    = (Rejected (ChecksFalsy
                   (keychainForID (keychainId (web3SigningCredential req)))),
       afterCalls [CallFindManyByAspect KEYCHAIN] (node c) c).
Proof.
  intros Node web3 fuel req c Htag Hnone.
  unfold transact. rewrite Htag.
  apply transactCactusKeychainRef_not_found.
  apply keychainPluginFor_none. exact Hnone.
Qed.

Lemma transact_keychain_not_registered_witness :
  transact (scriptedWeb3 promptNode) 2 (sampleRequest CACTUSKEYCHAINREF None)
           (freshConnector
              [ {| getAspect := LEDGER_CONNECTOR; getKeychainId := "kc1";
                   get := fun _ n => (NeverSettles, n) |};
                memoryKeychain "kc0" [("alice", "0x00")] ])
  = (Rejected (ChecksFalsy "keychain for ID:kc1"),
     afterCalls [CallFindManyByAspect KEYCHAIN] {| clock := 0; attempts := O |}
       (freshConnector
          [ {| getAspect := LEDGER_CONNECTOR; getKeychainId := "kc1";
               get := fun _ n => (NeverSettles, n) |};
            memoryKeychain "kc0" [("alice", "0x00")] ])).
Proof.
  apply transact_keychain_not_registered; [reflexivity | ].
  intros p [Hp | [Hp | []]] Haspect; subst p; [discriminate | reflexivity].
Defined.

(** X10: a keychain that resolves the entry key to [undefined] is not
    caught: the CACTUSKEYCHAINREF request goes on to
    [web3.eth.accounts.signTransaction] with an [undefined] private key,
    right after the two lookups. *)
Theorem transact_keychain_undefined_key_is_signed_with :
  forall Node (web3 : Web3 Node) fuel req plugin n' c,
    type (web3SigningCredential req) = CACTUSKEYCHAINREF ->
    keychainPluginFor (keychainId (web3SigningCredential req)) c = Some plugin ->
    get plugin (keychainEntryKey (web3SigningCredential req)) (node c)
    = (Resolves None, n') ->
    exists l,
      calls (snd (transact web3 fuel req c))
      = (l ++ [CallSignTransaction (transactionConfig req) None;
               CallKeychainGet (getKeychainId plugin)
                               (keychainEntryKey (web3SigningCredential req));
               CallFindManyByAspect KEYCHAIN] ++ calls c)%list.
Proof.
  intros Node web3 fuel req plugin n' c Htag Hfind Hget.
  unfold transact. rewrite Htag.
  rewrite (transactCactusKeychainRef_found web3 req plugin c Hfind).
  cbv zeta. rewrite Hget. cbn [await].
  rewrite transactPrivateKey_calls_exactly.
  cbn [transactionConfig web3SigningCredential secret afterCalls calls node app].
  eexists. reflexivity.
Qed.

Lemma transact_keychain_undefined_key_is_signed_with_witness :
  exists l,
    calls (snd (transact (scriptedWeb3 refusingNode) 2
                         (sampleRequest CACTUSKEYCHAINREF None)
                         (freshConnector [hollowKeychain "kc1"])))
    = (l ++ [CallSignTransaction sampleConfig None;
             CallKeychainGet "kc1" (Some "alice");
             CallFindManyByAspect KEYCHAIN] ++ [])%list.
Proof.
  apply (transact_keychain_undefined_key_is_signed_with
           Clocked (scriptedWeb3 refusingNode) 2
           (sampleRequest CACTUSKEYCHAINREF None)
           (hollowKeychain "kc1") {| clock := 0; attempts := O |}
           (freshConnector [hollowKeychain "kc1"])
           eq_refl eq_refl eq_refl).
Defined.

(** X11: with a PRIVATEKEYHEX credential [transact] first asks web3 to sign
    the request's transaction config with the credential's secret, and then
    broadcasts exactly when the signing resolved with a raw transaction that
    is not blank: in that case its one further call is
    [sendSignedTransaction] of the raw transaction the signing returned; when
    the signing is rejected, does not settle or comes back blank, the
    signing is its only call. *)
Theorem transact_private_key_broadcasts_what_was_signed :
  forall Node (web3 : Web3 Node) fuel req c,
    type (web3SigningCredential req) = PRIVATEKEYHEX ->
    calls (snd (transact web3 fuel req c))
    = (match fst (eth_accounts_signTransaction web3 (transactionConfig req)
                    (secret (web3SigningCredential req)) (node c)) with
       | Resolves signedTx =>
           match signedRawTransaction signedTx with
           | Some raw =>
               if (raw =? "")%string then [] else [CallSendSignedTransaction raw]
           | None => []
           end
       | Rejects _ => []
       | NeverSettles => []
       end
       ++ CallSignTransaction (transactionConfig req)
            (secret (web3SigningCredential req)) :: calls c)%list.
Proof.
  intros Node web3 fuel req c Htag.
  unfold transact. rewrite Htag.
  rewrite transactPrivateKey_calls_exactly.
  destruct (fst (eth_accounts_signTransaction web3 (transactionConfig req)
                   (secret (web3SigningCredential req)) (node c)));
    reflexivity.
Qed.

Lemma transact_private_key_broadcasts_what_was_signed_witness :
  calls (snd (transact (scriptedWeb3 promptNode) 2
                       (sampleRequest PRIVATEKEYHEX None) (freshConnector [])))
  = [CallSendSignedTransaction "0xf86b";
     CallSignTransaction sampleConfig (Some "0xdeadbeef")]
  /\ calls (snd (transact (scriptedWeb3 blankSigner) 2
                          (sampleRequest PRIVATEKEYHEX None) (freshConnector [])))
     = [CallSignTransaction sampleConfig (Some "0xdeadbeef")].
Proof.
  split.
  - apply (transact_private_key_broadcasts_what_was_signed
             Clocked (scriptedWeb3 promptNode) 2
             (sampleRequest PRIVATEKEYHEX None) (freshConnector []) eq_refl).
  - apply (transact_private_key_broadcasts_what_was_signed
             Clocked (scriptedWeb3 blankSigner) 2
             (sampleRequest PRIVATEKEYHEX None) (freshConnector []) eq_refl).
Defined.

(** X12: [transact] leaves the plugin registry as it found it, on every
    path and whatever the outcome. *)
Theorem transact_registry_unchanged :
  forall Node (web3 : Web3 Node) fuel req c,
    pluginRegistry (snd (transact web3 fuel req c)) = pluginRegistry c.
Proof.
  intros Node web3 fuel req c. unfold transact.
  destruct (type (web3SigningCredential req)).
  - apply transactCactusKeychainRef_registry.
  - destruct (transactGethKeychain_calls web3 fuel req c) as (k & txHash & _ & Hr).
    exact Hr.
  - destruct (rawTransaction (transactionConfig req)) as [raw|]; [ | reflexivity].
    destruct (negb (raw =? "")%string); [ | reflexivity].
    apply transactSigned_registry.
  - apply transactPrivateKey_registry.
  - reflexivity.
Qed.

(** ** Contract invocation *)

Section InvocationFacts.

Context {Node Abi Param Contract Method Output : Type}.
Context (web3 : Web3 Node).
Context (eth : Web3Contracts Node Abi Param Contract Method Output).
Context (isWeb3SigningCredentialNone : Web3SigningCredential -> bool).

Lemma inConnector_run {A} (m : M Node A) (p : Plugin Node Contract) :
  inConnector m p
  = (settled (fst (m (connector p))), withConnector (snd (m (connector p))) p).
Proof.
  unfold inConnector, settled, withConnector.
  destruct (m (connector p)) as [[a|e|] c']; reflexivity.
Qed.

(** [invokeContract] once the ABI, the contract and the method are there. *)
Lemma invokeContract_resolved fuel (req : InvokeContractV1Request.t Abi Param)
      abi aContract f method p :
  match InvokeContractV1Request.contractAbi req with
  | inl text => JSON_parse_abi eth text
  | inr abi => inr abi
  end = inr abi ->
  eth_Contract eth abi (InvokeContractV1Request.contractAddress req)
  = inr aContract ->
  methods eth aContract (InvokeContractV1Request.methodName req) = Some f ->
  f (InvokeContractV1Request.params req) = inr method ->
  invokeContract web3 eth isWeb3SigningCredentialNone fuel req p
  = match InvokeContractV1Request.invocationType req with
    | CALL =>
        bindP (doing DoMethodCall (method_call eth method))
              (fun callOutput => retP (V1CallOutput callOutput)) p
    | SEND =>
        let cred := InvokeContractV1Request.web3SigningCredential req in
        if isWeb3SigningCredentialNone cred
        then (Thrown CannotDeployPreSignedTx, p)
        else
          bindP (attempt (method_send_request eth method))
            (fun transactionConfig =>
               bindP (match InvokeContractV1Request.gas req with
                      | None => doing (DoEstimateGas transactionConfig)
                                      (eth_estimateGas eth transactionConfig)
                      | Some g => retP g
                      end)
                 (fun gas =>
                    bindP (inConnector
                             (transact web3 fuel
                                {| transactionConfig :=
                                     {| from := ethAccount cred;
                                        to := to transactionConfig;
                                        data := data transactionConfig;
                                        gas := Some gas;
                                        gasPrice := InvokeContractV1Request.gasPrice req;
                                        value := InvokeContractV1Request.value req;
                                        nonce := InvokeContractV1Request.nonce req;
                                        rawTransaction :=
                                          rawTransaction transactionConfig |};
                                   web3SigningCredential := cred;
                                   timeoutMs :=
                                     Some (timeoutMsOrDefault
                                             (InvokeContractV1Request.timeoutMs req)) |}))
                      (fun out => retP (V1Transaction out)))) p
    | UNSUPPORTED raw => (Thrown (UnsupportedInvocationType raw), p)
    end.
Proof.
  intros Habi Hcontract Hmethods Hmethod.
  unfold invokeContract, bindP, attempt, applyMethod, retP, throwP.
  revert Habi.
  destruct (InvokeContractV1Request.contractAbi req) as [text|abi0]; intro Habi;
    [rewrite Habi | inversion Habi; subst abi0];
    rewrite Hcontract, Hmethods, Hmethod;
    (destruct (InvokeContractV1Request.invocationType req); try reflexivity;
     cbv zeta;
     destruct (isWeb3SigningCredentialNone
                 (InvokeContractV1Request.web3SigningCredential req));
     reflexivity).
Qed.

(** Before the method object is there nothing outside is touched. *)
Lemma invokeContract_unresolved fuel (req : InvokeContractV1Request.t Abi Param) p :
  (forall abi aContract f method,
      match InvokeContractV1Request.contractAbi req with
      | inl text => JSON_parse_abi eth text
      | inr abi => inr abi
      end = inr abi ->
      eth_Contract eth abi (InvokeContractV1Request.contractAddress req)
      = inr aContract ->
      methods eth aContract (InvokeContractV1Request.methodName req) = Some f ->
      f (InvokeContractV1Request.params req) = inr method ->
      False) ->
  snd (invokeContract web3 eth isWeb3SigningCredentialNone fuel req p) = p
  /\ exists e, fst (invokeContract web3 eth isWeb3SigningCredentialNone fuel req p)
               = Thrown (Inner e).
Proof.
  intro Hnone.
  unfold invokeContract, bindP, attempt, applyMethod, retP, throwP.
  destruct (InvokeContractV1Request.contractAbi req) as [text|abi] eqn:Hinput.
  - destruct (JSON_parse_abi eth text) as [message|abi] eqn:Habi;
      [split; [reflexivity | eexists; reflexivity] | ].
    destruct (eth_Contract eth abi (InvokeContractV1Request.contractAddress req))
      as [message|aContract] eqn:Hcontract;
      [split; [reflexivity | eexists; reflexivity] | ].
    destruct (methods eth aContract (InvokeContractV1Request.methodName req))
      as [f|] eqn:Hmethods; [ | split; [reflexivity | eexists; reflexivity]].
    destruct (f (InvokeContractV1Request.params req)) as [message|method] eqn:Hmethod;
      [split; [reflexivity | eexists; reflexivity] | ].
    exfalso. exact (Hnone abi aContract f method eq_refl Hcontract Hmethods Hmethod).
  - destruct (eth_Contract eth abi (InvokeContractV1Request.contractAddress req))
      as [message|aContract] eqn:Hcontract;
      [split; [reflexivity | eexists; reflexivity] | ].
    destruct (methods eth aContract (InvokeContractV1Request.methodName req))
      as [f|] eqn:Hmethods; [ | split; [reflexivity | eexists; reflexivity]].
    destruct (f (InvokeContractV1Request.params req)) as [message|method] eqn:Hmethod;
      [split; [reflexivity | eexists; reflexivity] | ].
    exfalso. exact (Hnone abi aContract f method eq_refl Hcontract Hmethods Hmethod).
Qed.

(** Either the method object can be built or it cannot. *)
Lemma invokeContract_resolution (req : InvokeContractV1Request.t Abi Param) :
  (exists abi aContract f method,
      match InvokeContractV1Request.contractAbi req with
      | inl text => JSON_parse_abi eth text
      | inr abi => inr abi
      end = inr abi
      /\ eth_Contract eth abi (InvokeContractV1Request.contractAddress req)
         = inr aContract
      /\ methods eth aContract (InvokeContractV1Request.methodName req) = Some f
      /\ f (InvokeContractV1Request.params req) = inr method)
  \/ (forall abi aContract f method,
         match InvokeContractV1Request.contractAbi req with
         | inl text => JSON_parse_abi eth text
         | inr abi => inr abi
         end = inr abi ->
         eth_Contract eth abi (InvokeContractV1Request.contractAddress req)
         = inr aContract ->
         methods eth aContract (InvokeContractV1Request.methodName req) = Some f ->
         f (InvokeContractV1Request.params req) = inr method ->
         False).
Proof.
  destruct (match InvokeContractV1Request.contractAbi req with
            | inl text => JSON_parse_abi eth text
            | inr abi => inr abi
            end) as [message|abi] eqn:Habi;
    [right; intros; discriminate | ].
  destruct (eth_Contract eth abi (InvokeContractV1Request.contractAddress req))
    as [message|aContract] eqn:Hcontract;
    [right; intros abi0 c0 f0 m0 H0 H1; inversion H0; subst; congruence | ].
  destruct (methods eth aContract (InvokeContractV1Request.methodName req))
    as [f|] eqn:Hmethods;
    [ | right; intros abi0 c0 f0 m0 H0 H1 H2; inversion H0; subst; congruence].
  destruct (f (InvokeContractV1Request.params req)) as [message|method] eqn:Hmethod;
    [right; intros abi0 c0 f0 m0 H0 H1 H2 H3; inversion H0; subst; congruence | ].
  left. exists abi, aContract, f, method. auto.
Qed.

End InvocationFacts.

(** X13: a CALL invocation never submits a transaction: whatever the
    request's credential, gas and timeout are, [invokeContract] makes no call
    of the submission layer (nothing signed, sent or polled), leaves the
    transaction counter and the contract cache alone, and once the method
    object is there it settles as the method's [call()] does. *)
Theorem invokeContract_call_submits_nothing :
  forall Node Abi Param Contract Method Output
         (web3 : Web3 Node)
         (eth : Web3Contracts Node Abi Param Contract Method Output)
         (guard : Web3SigningCredential -> bool) fuel
         (req : InvokeContractV1Request.t Abi Param) (p : Plugin Node Contract),
    InvokeContractV1Request.invocationType req = CALL ->
    calls (connector (snd (invokeContract web3 eth guard fuel req p)))
    = calls (connector p)
    /\ transactionCounter (connector (snd (invokeContract web3 eth guard fuel req p)))
       = transactionCounter (connector p)
    /\ contracts (snd (invokeContract web3 eth guard fuel req p)) = contracts p
    /\ (forall abi aContract f method,
           match InvokeContractV1Request.contractAbi req with
           | inl text => JSON_parse_abi eth text
           | inr abi => inr abi
           end = inr abi ->
           eth_Contract eth abi (InvokeContractV1Request.contractAddress req)
           = inr aContract ->
           methods eth aContract (InvokeContractV1Request.methodName req) = Some f ->
           f (InvokeContractV1Request.params req) = inr method ->
           fst (invokeContract web3 eth guard fuel req p)
           = match fst (method_call eth method (node (connector p))) with
             | Resolves callOutput => Returned (V1CallOutput callOutput)
             | Rejects message => Thrown (Inner (ExternalError message))
             | NeverSettles => Unsettled
             end).
Proof.
  intros Node Abi Param Contract Method Output web3 eth guard fuel req p Hcall.
  assert (Hframe :
            calls (connector (snd (invokeContract web3 eth guard fuel req p)))
            = calls (connector p)
            /\ transactionCounter
                 (connector (snd (invokeContract web3 eth guard fuel req p)))
               = transactionCounter (connector p)
            /\ contracts (snd (invokeContract web3 eth guard fuel req p))
               = contracts p).
  { destruct (invokeContract_resolution eth req)
      as [(abi & aContract & f & method & Habi & Hcontract & Hmethods & Hmethod)
         | Hnone].
    - rewrite (invokeContract_resolved web3 eth guard fuel req abi aContract f
                 method p Habi Hcontract Hmethods Hmethod).
      rewrite Hcall. unfold bindP, doing, retP.
      destruct (method_call eth method (node (connector p))) as [[o|message|] n'];
        repeat split; reflexivity.
    - destruct (invokeContract_unresolved web3 eth guard fuel req p Hnone)
        as [Hsame _].
      rewrite Hsame. repeat split; reflexivity. }
  destruct Hframe as (Hcalls & Hcounter & Hcache).
  split; [exact Hcalls | split; [exact Hcounter | split; [exact Hcache | ]]].
  intros abi aContract f method Habi Hcontract Hmethods Hmethod.
  { 
    rewrite (invokeContract_resolved web3 eth guard fuel req abi aContract f
               method p Habi Hcontract Hmethods Hmethod).
    rewrite Hcall. unfold bindP, doing, retP.
    destruct (method_call eth method (node (connector p))) as [[o|message|] n'];
      reflexivity. }
Qed.

Lemma invokeContract_call_submits_nothing_witness :
  fst (invokeContract (scriptedWeb3 refusingNode) sampleEth tagIsNone 2
         (sampleInvocation CALL "getSingleStatus" NONE None None)
         (freshPlugin None []))
  = Returned (V1CallOutput "output of getSingleStatus").
Proof.
  apply (proj2 (proj2 (proj2 (invokeContract_call_submits_nothing
           Clocked string string string string string
           (scriptedWeb3 refusingNode) sampleEth tagIsNone 2
           (sampleInvocation CALL "getSingleStatus" NONE None None)
           (freshPlugin None []) eq_refl)))
           "[]" "0xc0ffee" (fun _ => inr "getSingleStatus") "getSingleStatus"
           eq_refl eq_refl eq_refl eq_refl).
Defined.

(** X14: a SEND invocation whose credential the type guard takes for the
    pre-signed kind never returns a result and touches nothing: no gas
    estimate, no call of the submission layer, no change of state; once the
    method object is there the error is the cannot-deploy-with-pre-signed-TX
    one. *)
Theorem invokeContract_send_pre_signed_refused :
  forall Node Abi Param Contract Method Output
         (web3 : Web3 Node)
         (eth : Web3Contracts Node Abi Param Contract Method Output)
         (guard : Web3SigningCredential -> bool) fuel
         (req : InvokeContractV1Request.t Abi Param) (p : Plugin Node Contract),
    InvokeContractV1Request.invocationType req = SEND ->
    guard (InvokeContractV1Request.web3SigningCredential req) = true ->
    snd (invokeContract web3 eth guard fuel req p) = p
    /\ (forall a, fst (invokeContract web3 eth guard fuel req p) <> Returned a)
    /\ (forall abi aContract f method,
           match InvokeContractV1Request.contractAbi req with
           | inl text => JSON_parse_abi eth text
           | inr abi => inr abi
           end = inr abi ->
           eth_Contract eth abi (InvokeContractV1Request.contractAddress req)
           = inr aContract ->
           methods eth aContract (InvokeContractV1Request.methodName req) = Some f ->
           f (InvokeContractV1Request.params req) = inr method ->
           fst (invokeContract web3 eth guard fuel req p)
           = Thrown CannotDeployPreSignedTx).
Proof.
  intros Node Abi Param Contract Method Output web3 eth guard fuel req p Hsend Hguard.
  assert (Hresolved :
            forall abi aContract f method,
              match InvokeContractV1Request.contractAbi req with
              | inl text => JSON_parse_abi eth text
              | inr abi => inr abi
              end = inr abi ->
              eth_Contract eth abi (InvokeContractV1Request.contractAddress req)
              = inr aContract ->
              methods eth aContract (InvokeContractV1Request.methodName req)
              = Some f ->
              f (InvokeContractV1Request.params req) = inr method ->
              invokeContract web3 eth guard fuel req p
              = (Thrown CannotDeployPreSignedTx, p)).
  { intros abi aContract f method Habi Hcontract Hmethods Hmethod.
    rewrite (invokeContract_resolved web3 eth guard fuel req abi aContract f
               method p Habi Hcontract Hmethods Hmethod).
    rewrite Hsend. cbv zeta. rewrite Hguard. reflexivity. }
  split; [ | split].
  - destruct (invokeContract_resolution eth req)
      as [(abi & aContract & f & method & Habi & Hcontract & Hmethods & Hmethod)
         | Hnone].
    + rewrite (Hresolved abi aContract f method Habi Hcontract Hmethods Hmethod).
      reflexivity.
    + apply (invokeContract_unresolved web3 eth guard fuel req p Hnone).
  - intro a.
    destruct (invokeContract_resolution eth req)
      as [(abi & aContract & f & method & Habi & Hcontract & Hmethods & Hmethod)
         | Hnone].
    + rewrite (Hresolved abi aContract f method Habi Hcontract Hmethods Hmethod).
      discriminate.
    + destruct (invokeContract_unresolved web3 eth guard fuel req p Hnone)
        as [_ [e He]].
      rewrite He. discriminate.
  - intros abi aContract f method Habi Hcontract Hmethods Hmethod.
    rewrite (invokeContract_resolved web3 eth guard fuel req abi aContract f
               method p Habi Hcontract Hmethods Hmethod).
    rewrite Hsend. cbv zeta. rewrite Hguard. reflexivity.
Qed.

Lemma invokeContract_send_pre_signed_refused_witness :
  snd (invokeContract (scriptedWeb3 promptNode) sampleEth tagIsNone 2
         (sampleInvocation SEND "refund" NONE None None) (freshPlugin None []))
  = freshPlugin None [].
Proof.
  apply (proj1 (invokeContract_send_pre_signed_refused
                  Clocked string string string string string
                  (scriptedWeb3 promptNode) sampleEth tagIsNone 2
                  (sampleInvocation SEND "refund" NONE None None)
                  (freshPlugin None []) eq_refl eq_refl)).
Defined.

(** X15: a method name the contract does not have is refused by the
    [Checks.truthy] guard before the invocation type is looked at: CALL,
    SEND or unsupported, [invokeContract] fails with that error and leaves
    everything as it was. *)
Theorem invokeContract_unknown_method :
  forall Node Abi Param Contract Method Output
         (web3 : Web3 Node)
         (eth : Web3Contracts Node Abi Param Contract Method Output)
         (guard : Web3SigningCredential -> bool) fuel
         (req : InvokeContractV1Request.t Abi Param) (p : Plugin Node Contract)
         abi aContract,
    match InvokeContractV1Request.contractAbi req with
    | inl text => JSON_parse_abi eth text
    | inr abi => inr abi
    end = inr abi ->
    eth_Contract eth abi (InvokeContractV1Request.contractAddress req)
    = inr aContract ->
    methods eth aContract (InvokeContractV1Request.methodName req) = None ->
    invokeContract web3 eth guard fuel req p
    = (Thrown (Inner (ChecksFalsy
                        ("YourContract." ++ InvokeContractV1Request.methodName req))),
       p).
Proof.
  intros Node Abi Param Contract Method Output web3 eth guard fuel req p
         abi aContract Habi Hcontract Hmethods.
  unfold invokeContract, bindP, attempt, applyMethod, retP, throwP.
  revert Habi.
  destruct (InvokeContractV1Request.contractAbi req) as [text|abi0]; intro Habi;
    [rewrite Habi | inversion Habi; subst abi0];
    rewrite Hcontract, Hmethods; reflexivity.
Qed.

Lemma invokeContract_unknown_method_witness :
  invokeContract (scriptedWeb3 promptNode) sampleEth tagIsNone 2
    (sampleInvocation SEND "withdraw" PRIVATEKEYHEX None None) (freshPlugin None [])
  = (Thrown (Inner (ChecksFalsy "YourContract.withdraw")), freshPlugin None []).
Proof.
  apply (invokeContract_unknown_method
           Clocked string string string string string
           (scriptedWeb3 promptNode) sampleEth tagIsNone 2
           (sampleInvocation SEND "withdraw" PRIVATEKEYHEX None None)
           (freshPlugin None []) "[]" "0xc0ffee" eq_refl eq_refl eq_refl).
Defined.

(** X16: in a SEND invocation with a PRIVATEKEYHEX credential the
    transaction that is signed takes [to], [data] and [rawTransaction] from
    the method's payload and everything else from the request: [from] is the
    credential's [ethAccount], [gas] the request's gas or else the estimate,
    [gasPrice], [value] and [nonce] the request's, also when the request
    leaves them undefined and the payload had some. *)
Theorem invokeContract_send_signs_request_fields :
  forall Node Abi Param Contract Method Output
         (web3 : Web3 Node)
         (eth : Web3Contracts Node Abi Param Contract Method Output)
         (guard : Web3SigningCredential -> bool) fuel
         (req : InvokeContractV1Request.t Abi Param) (p : Plugin Node Contract)
         abi aContract f method payload g,
    InvokeContractV1Request.invocationType req = SEND ->
    guard (InvokeContractV1Request.web3SigningCredential req) = false ->
    type (InvokeContractV1Request.web3SigningCredential req) = PRIVATEKEYHEX ->
    match InvokeContractV1Request.contractAbi req with
    | inl text => JSON_parse_abi eth text
    | inr abi => inr abi
    end = inr abi ->
    eth_Contract eth abi (InvokeContractV1Request.contractAddress req)
    = inr aContract ->
    methods eth aContract (InvokeContractV1Request.methodName req) = Some f ->
    f (InvokeContractV1Request.params req) = inr method ->
    method_send_request eth method = inr payload ->
    match InvokeContractV1Request.gas req with
    | Some given => given = g
    | None => fst (eth_estimateGas eth payload (node (connector p))) = Resolves g
    end ->
    exists l,
      calls (connector (snd (invokeContract web3 eth guard fuel req p)))
      = (l ++ CallSignTransaction
                {| from := ethAccount (InvokeContractV1Request.web3SigningCredential req);
                   to := to payload;
                   data := data payload;
                   gas := Some g;
                   gasPrice := InvokeContractV1Request.gasPrice req;
                   value := InvokeContractV1Request.value req;
                   nonce := InvokeContractV1Request.nonce req;
                   rawTransaction := rawTransaction payload |}
                (secret (InvokeContractV1Request.web3SigningCredential req))
           :: calls (connector p))%list.
Proof.
  intros Node Abi Param Contract Method Output web3 eth guard fuel req p
         abi aContract f method payload g
         Hsend Hguard Htag Habi Hcontract Hmethods Hmethod Hpayload Hgas.
  rewrite (invokeContract_resolved web3 eth guard fuel req abi aContract f
             method p Habi Hcontract Hmethods Hmethod).
  rewrite Hsend. cbv zeta. rewrite Hguard.
  unfold bindP at 1. unfold attempt. rewrite Hpayload. unfold retP at 1.
  unfold bindP at 1.
  destruct (InvokeContractV1Request.gas req) as [given|].
  - subst given. unfold retP at 1. unfold bindP. rewrite inConnector_run.
    unfold transact. cbn [web3SigningCredential transactionConfig]. rewrite Htag.
    match goal with
    | |- context [settled ?r] => destruct (settled r)
    end; unfold retP, withConnector; cbn [snd connector];
      rewrite transactPrivateKey_calls_exactly;
      cbn [web3SigningCredential transactionConfig]; eexists; reflexivity.
  - unfold doing.
    destruct (eth_estimateGas eth payload (node (connector p))) as [r n'].
    simpl in Hgas. subst r. unfold bindP. rewrite inConnector_run.
    unfold transact. cbn [web3SigningCredential transactionConfig]. rewrite Htag.
    match goal with
    | |- context [settled ?r] => destruct (settled r)
    end; unfold retP, withConnector; cbn [snd connector];
      rewrite transactPrivateKey_calls_exactly;
      cbn [web3SigningCredential transactionConfig withNode connector calls];
      eexists; reflexivity.
Qed.

Lemma invokeContract_send_signs_request_fields_witness :
  exists l,
    calls (connector
             (snd (invokeContract (scriptedWeb3 promptNode) sampleEth tagIsNone 2
                     (sampleInvocation SEND "refund" PRIVATEKEYHEX None (Some 0))
                     (freshPlugin None []))))
    = (l ++ [CallSignTransaction
               {| from := Some "0x123"; to := Some "0xc0ffee";
                  data := Some "0xa9059cbb"; gas := Some "21000";
                  gasPrice := None; value := Some "0"; nonce := None;
                  rawTransaction := None |}
               (Some "0xdeadbeef")])%list.
Proof.
  apply (invokeContract_send_signs_request_fields
           Clocked string string string string string
           (scriptedWeb3 promptNode) sampleEth tagIsNone 2
           (sampleInvocation SEND "refund" PRIVATEKEYHEX None (Some 0))
           (freshPlugin None [])
           "[]" "0xc0ffee" (fun _ => inr "refund") "refund" samplePayload "21000"
           eq_refl eq_refl eq_refl eq_refl eq_refl eq_refl eq_refl eq_refl eq_refl).
Defined.

(** X17: when the request gives no gas, [estimateGas] is asked about the
    payload as the method built it (before the sender is overwritten); if
    the estimate is rejected, [invokeContract] fails with that error and the
    submission layer is never entered: nothing is signed or sent. *)
Theorem invokeContract_estimate_rejected :
  forall Node Abi Param Contract Method Output
         (web3 : Web3 Node)
         (eth : Web3Contracts Node Abi Param Contract Method Output)
         (guard : Web3SigningCredential -> bool) fuel
         (req : InvokeContractV1Request.t Abi Param) (p : Plugin Node Contract)
         abi aContract f method payload message n',
    InvokeContractV1Request.invocationType req = SEND ->
    guard (InvokeContractV1Request.web3SigningCredential req) = false ->
    match InvokeContractV1Request.contractAbi req with
    | inl text => JSON_parse_abi eth text
    | inr abi => inr abi
    end = inr abi ->
    eth_Contract eth abi (InvokeContractV1Request.contractAddress req)
    = inr aContract ->
    methods eth aContract (InvokeContractV1Request.methodName req) = Some f ->
    f (InvokeContractV1Request.params req) = inr method ->
    method_send_request eth method = inr payload ->
    InvokeContractV1Request.gas req = None ->
    eth_estimateGas eth payload (node (connector p)) = (Rejects message, n') ->
    invokeContract web3 eth guard fuel req p
    = (Thrown (Inner (ExternalError message)),
       withNode n' (DoEstimateGas payload) p).
Proof.
  intros Node Abi Param Contract Method Output web3 eth guard fuel req p
         abi aContract f method payload message n'
         Hsend Hguard Habi Hcontract Hmethods Hmethod Hpayload Hgas Hestimate.
  rewrite (invokeContract_resolved web3 eth guard fuel req abi aContract f
             method p Habi Hcontract Hmethods Hmethod).
  rewrite Hsend. cbv zeta. rewrite Hguard.
  unfold bindP, attempt, retP, doing. rewrite Hpayload, Hgas, Hestimate.
  reflexivity.
Qed.

Lemma invokeContract_estimate_rejected_witness :
  invokeContract (scriptedWeb3 promptNode)
    (scriptedEth (Rejects "execution reverted") (inr "{}") (inr helloWorldJson))
    tagIsNone 2
    (sampleInvocation SEND "refund" PRIVATEKEYHEX None None) (freshPlugin None [])
  = (Thrown (Inner (ExternalError "execution reverted")),
     withNode {| clock := 0; attempts := O |} (DoEstimateGas samplePayload)
              (freshPlugin None [])).
Proof.
  apply (invokeContract_estimate_rejected
           Clocked string string string string string
           (scriptedWeb3 promptNode)
           (scriptedEth (Rejects "execution reverted") (inr "{}") (inr helloWorldJson))
           tagIsNone 2
           (sampleInvocation SEND "refund" PRIVATEKEYHEX None None)
           (freshPlugin None [])
           "[]" "0xc0ffee" (fun _ => inr "refund") "refund" samplePayload
           "execution reverted" {| clock := 0; attempts := O |}
           eq_refl eq_refl eq_refl eq_refl eq_refl eq_refl eq_refl eq_refl eq_refl).
Defined.

(** X18: the [timeoutMs] of an invocation request has no effect:
    [invokeContract] defaults it to 60000 and passes it on to [transact],
    which does not read it, so two requests that differ in [timeoutMs] only
    end in the same outcome and the same state. *)
Theorem invokeContract_timeoutMs_without_effect :
  forall Node Abi Param Contract Method Output
         (web3 : Web3 Node)
         (eth : Web3Contracts Node Abi Param Contract Method Output)
         (guard : Web3SigningCredential -> bool) fuel (p : Plugin Node Contract)
         theAbi address kind name args cred gasLimit price amount count t1 t2,
    invokeContract web3 eth guard fuel
      {| InvokeContractV1Request.contractAbi := theAbi;
         InvokeContractV1Request.contractAddress := address;
         InvokeContractV1Request.invocationType := kind;
         InvokeContractV1Request.methodName := name;
         InvokeContractV1Request.params := args;
         InvokeContractV1Request.web3SigningCredential := cred;
         InvokeContractV1Request.gas := gasLimit;
         InvokeContractV1Request.gasPrice := price;
         InvokeContractV1Request.value := amount;
         InvokeContractV1Request.nonce := count;
         InvokeContractV1Request.timeoutMs := t1 |} p
    = invokeContract web3 eth guard fuel
        {| InvokeContractV1Request.contractAbi := theAbi;
           InvokeContractV1Request.contractAddress := address;
           InvokeContractV1Request.invocationType := kind;
           InvokeContractV1Request.methodName := name;
           InvokeContractV1Request.params := args;
           InvokeContractV1Request.web3SigningCredential := cred;
           InvokeContractV1Request.gas := gasLimit;
           InvokeContractV1Request.gasPrice := price;
           InvokeContractV1Request.value := amount;
           InvokeContractV1Request.nonce := count;
           InvokeContractV1Request.timeoutMs := t2 |} p.
Proof.
  intros. unfold invokeContract.
  cbn [InvokeContractV1Request.contractAbi InvokeContractV1Request.contractAddress
       InvokeContractV1Request.invocationType InvokeContractV1Request.methodName
       InvokeContractV1Request.params InvokeContractV1Request.web3SigningCredential
       InvokeContractV1Request.gas InvokeContractV1Request.gasPrice
       InvokeContractV1Request.value InvokeContractV1Request.nonce
       InvokeContractV1Request.timeoutMs].
  destruct kind; reflexivity.
Qed.

(** ** Contract deployment *)

Section DeploymentFacts.

Context {Node Abi Param Contract Method Output : Type}.
Context (web3 : Web3 Node).
Context (eth : Web3Contracts Node Abi Param Contract Method Output).
Context (guard : Web3SigningCredential -> bool).

(** [deployContract] after the guard: the submission, then the bookkeeping
    when there is a contract address and a contracts path. *)
Lemma deployContract_submitted fuel req (p : Plugin Node Contract) :
  guard (DeployContractSolidityBytecodeV1Request.web3SigningCredential req) = false ->
  deployContract web3 eth guard fuel req p
  = let c' := snd (transact web3 fuel (deploymentRequest req) (connector p)) in
    match fst (transact web3 fuel (deploymentRequest req) (connector p)) with
    | Fulfilled receipt =>
        match contractAddress (transactionReceipt receipt), contractsPath p with
        | Some address, Some path =>
            bindP (doing DoNetGetId (eth_net_getId eth))
              (fun networkId =>
                 bindP (readFileSync eth path)
                   (fun text =>
                      bindP (attempt (JSON_parse_contract eth text))
                        (fun contractJson =>
                           bindP (attempt (eth_Contract eth (abi contractJson)
                                                        (Some address)))
                             (fun contract =>
                                bindP (setContract
                                         (propertyKey (contractName contractJson))
                                         contract)
                                  (fun _ =>
                                     match networks contractJson with
                                     | None => throwP (TypeError "networks")
                                     | Some nets =>
                                         bindP (writeFileSync eth path
                                                  (JSON_stringify eth
                                                     {| contractName :=
                                                          contractName contractJson;
                                                        abi := abi contractJson;
                                                        networks :=
                                                          Some (storeNetwork networkId
                                                                  (Some address) nets) |}))
                                           (fun _ => retP receipt)
                                     end)))))
              (withConnector c' p)
        | _, _ => (Returned receipt, withConnector c' p)
        end
    | Rejected e => (Thrown (Inner e), withConnector c' p)
    | Pending => (Unsettled, withConnector c' p)
    end.
Proof.
  intro Hguard. unfold deployContract. cbv zeta. rewrite Hguard.
  unfold bindP at 1. rewrite inConnector_run.
  change (transact web3 fuel _ (connector p))
    with (transact web3 fuel (deploymentRequest req) (connector p)).
  destruct (fst (transact web3 fuel (deploymentRequest req) (connector p)))
    as [receipt|e|]; cbn [settled]; try reflexivity.
  unfold bindP at 1, getPlugin. cbn [withConnector contractsPath].
  destruct (contractAddress (transactionReceipt receipt)) as [address|];
    [ | reflexivity].
  destruct (contractsPath p) as [path|]; reflexivity.
Qed.

End DeploymentFacts.

(** X19: [deployContract] touches the contract file and the contract cache
    only after a fulfilled submission whose receipt carries a contract
    address, and only when [contractsPath] is set.  A credential the guard
    takes for the pre-signed kind is refused before anything is done; a
    failed or unsettled submission, a receipt without address or a plugin
    without [contractsPath] end with the outcome of [transact] on the
    deployment request (data "0x" + bytecode, sender the credential's
    account, no recipient, value or nonce) and nothing else done. *)
Theorem deployContract_bookkeeping_only_after_deployment :
  forall Node Abi Param Contract Method Output
         (web3 : Web3 Node)
         (eth : Web3Contracts Node Abi Param Contract Method Output)
         (guard : Web3SigningCredential -> bool) fuel
         (req : DeployContractSolidityBytecodeV1Request.t)
         (p : Plugin Node Contract),
    (guard (DeployContractSolidityBytecodeV1Request.web3SigningCredential req)
     = true ->
     deployContract web3 eth guard fuel req p = (Thrown CannotDeployPreSignedTx, p))
    /\ (guard (DeployContractSolidityBytecodeV1Request.web3SigningCredential req)
        = false ->
        (forall receipt,
            fst (transact web3 fuel (deploymentRequest req) (connector p))
            = Fulfilled receipt ->
            contractAddress (transactionReceipt receipt) = None
            \/ contractsPath p = None) ->
        deployContract web3 eth guard fuel req p
        = (settled (fst (transact web3 fuel (deploymentRequest req) (connector p))),
           withConnector
             (snd (transact web3 fuel (deploymentRequest req) (connector p))) p)).
Proof.
  intros Node Abi Param Contract Method Output web3 eth guard fuel req p.
  split.
  - intro Hguard. unfold deployContract. cbv zeta. rewrite Hguard. reflexivity.
  - intros Hguard Hnothing.
    rewrite (deployContract_submitted web3 eth guard fuel req p Hguard). cbv zeta.
    destruct (fst (transact web3 fuel (deploymentRequest req) (connector p)))
      as [receipt|e|]; try reflexivity.
    destruct (Hnothing receipt eq_refl) as [Hnone | Hnone]; rewrite Hnone.
    + reflexivity.
    + destruct (contractAddress (transactionReceipt receipt)); reflexivity.
Qed.

Lemma deployContract_bookkeeping_only_after_deployment_witness :
  deployContract (scriptedWeb3 refusingNode) sampleEth tagIsNone 2
    (sampleDeployment PRIVATEKEYHEX) (freshPlugin (Some "contracts.json") [])
  = (Thrown (Inner (ExternalError "Private key must be 32 bytes long")),
     withConnector
       (afterCalls [CallSignTransaction
                      (transactionConfig
                         (deploymentRequest (sampleDeployment PRIVATEKEYHEX)))
                      (Some "0xdeadbeef")]
                   {| clock := 0; attempts := O |} (freshConnector []))
       (freshPlugin (Some "contracts.json") [])).
Proof.
  apply (proj2 (deployContract_bookkeeping_only_after_deployment
                  Clocked string string string string string
                  (scriptedWeb3 refusingNode) sampleEth tagIsNone 2
                  (sampleDeployment PRIVATEKEYHEX)
                  (freshPlugin (Some "contracts.json") []))
               eq_refl).
  intros receipt H. vm_compute in H. discriminate.
Defined.

Lemma lookupContract_storeContract {Contract : Type} name (contract : Contract) cache :
  lookupContract name (storeContract name contract cache) = Some contract.
Proof.
  unfold storeContract. simpl. rewrite String.eqb_refl. reflexivity.
Qed.

(** X20: the deployment and its bookkeeping are not one step.  When the
    contract has been deployed (the submission is fulfilled with a contract
    address, and counted as the submission layer counts it) but the contract
    file cannot be read, [deployContract] fails with the file error: the
    caller gets no receipt, the cache is not updated and nothing is
    written. *)
Theorem deployContract_deployed_but_failed :
  forall Node Abi Param Contract Method Output
         (web3 : Web3 Node)
         (eth : Web3Contracts Node Abi Param Contract Method Output)
         (guard : Web3SigningCredential -> bool) fuel
         (req : DeployContractSolidityBytecodeV1Request.t)
         (p : Plugin Node Contract)
         receipt c' address path networkId n1 message n2,
    guard (DeployContractSolidityBytecodeV1Request.web3SigningCredential req)
    = false ->
    transact web3 fuel (deploymentRequest req) (connector p)
    = (Fulfilled receipt, c') ->
    contractAddress (transactionReceipt receipt) = Some address ->
    contractsPath p = Some path ->
    eth_net_getId eth (node c') = (Resolves networkId, n1) ->
    fs_readFileSync eth path n1 = (inl message, n2) ->
    deployContract web3 eth guard fuel req p
    = (Thrown (Inner (ExternalError message)),
       withNode n2 (DoReadFile path) (withNode n1 DoNetGetId (withConnector c' p)))
    /\ transactionCounter (connector (snd (deployContract web3 eth guard fuel req p)))
       = transactionCounter c'
    /\ contracts (snd (deployContract web3 eth guard fuel req p)) = contracts p
    /\ existsb isWriteFile (doings (snd (deployContract web3 eth guard fuel req p)))
       = existsb isWriteFile (doings p).
Proof.
  intros Node Abi Param Contract Method Output web3 eth guard fuel req p
         receipt c' address path networkId n1 message n2
         Hguard Htransact Haddress Hpath Hid Hread.
  assert (Hrun : deployContract web3 eth guard fuel req p
                 = (Thrown (Inner (ExternalError message)),
                    withNode n2 (DoReadFile path)
                             (withNode n1 DoNetGetId (withConnector c' p)))).
  { rewrite (deployContract_submitted web3 eth guard fuel req p Hguard). cbv zeta.
    rewrite Htransact. cbn [fst snd]. rewrite Haddress, Hpath.
    unfold bindP at 1. unfold doing. cbn [withConnector connector]. rewrite Hid.
    unfold bindP at 1. unfold readFileSync.
    cbn [withNode connector node]. rewrite Hread. reflexivity. }
  rewrite Hrun. repeat split.
Qed.

Lemma deployContract_deployed_but_failed_witness :
  fst (deployContract (scriptedWeb3 deployingNode)
         (scriptedEth (Resolves "21000") (inl "ENOENT: no such file or directory")
                      (inr helloWorldJson))
         tagIsNone 2 (sampleDeployment PRIVATEKEYHEX)
         (freshPlugin (Some "contracts.json") []))
  = Thrown (Inner (ExternalError "ENOENT: no such file or directory"))
  /\ transactionCounter
       (connector
          (snd (deployContract (scriptedWeb3 deployingNode)
                  (scriptedEth (Resolves "21000")
                               (inl "ENOENT: no such file or directory")
                               (inr helloWorldJson))
                  tagIsNone 2 (sampleDeployment PRIVATEKEYHEX)
                  (freshPlugin (Some "contracts.json") []))))
     = 1%nat.
Proof.
  destruct (deployContract_deployed_but_failed
              Clocked string string string string string
              (scriptedWeb3 deployingNode)
              (scriptedEth (Resolves "21000")
                           (inl "ENOENT: no such file or directory")
                           (inr helloWorldJson))
              tagIsNone 2 (sampleDeployment PRIVATEKEYHEX)
              (freshPlugin (Some "contracts.json") [])
              {| transactionReceipt := deployedReceipt |}
              (snd (transact (scriptedWeb3 deployingNode) 2
                             (deploymentRequest (sampleDeployment PRIVATEKEYHEX))
                             (freshConnector [])))
              "0xnew" "contracts.json" 10 {| clock := 0; attempts := O |}
              "ENOENT: no such file or directory" {| clock := 0; attempts := O |}
              eq_refl eq_refl eq_refl eq_refl eq_refl eq_refl)
    as (Hrun & Hcounter & _).
  split; [rewrite Hrun; reflexivity | exact Hcounter].
Defined.

Lemma deployContract_bookkeeping :
  forall Node Abi Param Contract Method Output
         (web3 : Web3 Node)
         (eth : Web3Contracts Node Abi Param Contract Method Output)
         (guard : Web3SigningCredential -> bool) fuel
         (req : DeployContractSolidityBytecodeV1Request.t)
         (p : Plugin Node Contract)
         receipt c' address path networkId n1 text n2 contractJson contract nets n3,
    guard (DeployContractSolidityBytecodeV1Request.web3SigningCredential req)
    = false ->
    transact web3 fuel (deploymentRequest req) (connector p)
    = (Fulfilled receipt, c') ->
    contractAddress (transactionReceipt receipt) = Some address ->
    contractsPath p = Some path ->
    eth_net_getId eth (node c') = (Resolves networkId, n1) ->
    fs_readFileSync eth path n1 = (inr text, n2) ->
    JSON_parse_contract eth text = inr contractJson ->
    eth_Contract eth (abi contractJson) (Some address) = inr contract ->
    networks contractJson = Some nets ->
    fs_writeFileSync eth path
      (JSON_stringify eth
         {| contractName := contractName contractJson;
            abi := abi contractJson;
            networks := Some (storeNetwork networkId (Some address) nets) |}) n2
    = (None, n3) ->
    fst (deployContract web3 eth guard fuel req p) = Returned receipt
    /\ contracts (snd (deployContract web3 eth guard fuel req p))
       = storeContract (propertyKey (contractName contractJson)) contract
                       (contracts p)
    /\ lookupContract (propertyKey (contractName contractJson))
                      (contracts (snd (deployContract web3 eth guard fuel req p)))
       = Some contract
    /\ doings (snd (deployContract web3 eth guard fuel req p))
       = ([DoWriteFile path
             (JSON_stringify eth
                {| contractName := contractName contractJson;
                   abi := abi contractJson;
                   networks := Some (storeNetwork networkId (Some address) nets) |});
           DoReadFile path; DoNetGetId] ++ doings p)%list
    /\ lookupNetwork networkId (storeNetwork networkId (Some address) nets)
       = Some (Some address).
Proof.
  intros Node Abi Param Contract Method Output web3 eth guard fuel req p
         receipt c' address path networkId n1 text n2 contractJson contract nets n3
         Hguard Htransact Haddress Hpath Hid Hread Hparse Hcontract Hnets Hwrite.
  pose proof (deployContract_submitted web3 eth guard fuel req p Hguard) as Hrun.
  cbv zeta in Hrun. rewrite Htransact in Hrun. cbn [fst snd] in Hrun.
  rewrite Haddress, Hpath in Hrun.
  unfold bindP, doing, readFileSync, attempt, retP, setContract, writeFileSync
    in Hrun.
  cbn [withConnector connector node withNode] in Hrun. rewrite Hid in Hrun.
  cbn [withConnector connector node withNode] in Hrun. rewrite Hread in Hrun.
  rewrite Hparse, Hcontract, Hnets in Hrun.
  cbn [withConnector connector node withNode] in Hrun. rewrite Hwrite in Hrun.
  rewrite Hrun. cbn [fst snd withNode withConnector contracts doings].
  split; [reflexivity | split; [reflexivity | split; [ | split; [reflexivity | ]]]].
  - apply lookupContract_storeContract.
  - unfold storeNetwork. simpl. rewrite Z.eqb_refl. reflexivity.
Qed.


(** X21: when the deployment and every step of the bookkeeping succeed,
    [deployContract] returns the receipt of [transact]; the new contract is
    in the cache under the contract name of the JSON file, where a later
    lookup finds it, and the file has been read once and written once, with
    the address of the new contract under the node's network id. *)
Theorem deployContract_records_the_contract :
  forall Node Abi Param Contract Method Output
         (web3 : Web3 Node)
         (eth : Web3Contracts Node Abi Param Contract Method Output)
         (guard : Web3SigningCredential -> bool) fuel
         (req : DeployContractSolidityBytecodeV1Request.t)
         (p : Plugin Node Contract)
         receipt c' address path networkId n1 text n2 contractJson contract nets n3,
    guard (DeployContractSolidityBytecodeV1Request.web3SigningCredential req)
    = false ->
    transact web3 fuel (deploymentRequest req) (connector p)
    = (Fulfilled receipt, c') ->
    contractAddress (transactionReceipt receipt) = Some address ->
    contractsPath p = Some path ->
    eth_net_getId eth (node c') = (Resolves networkId, n1) ->
    fs_readFileSync eth path n1 = (inr text, n2) ->
    JSON_parse_contract eth text = inr contractJson ->
    eth_Contract eth (abi contractJson) (Some address) = inr contract ->
    networks contractJson = Some nets ->
    fs_writeFileSync eth path
      (JSON_stringify eth
         {| contractName := contractName contractJson;
            abi := abi contractJson;
            networks := Some (storeNetwork networkId (Some address) nets) |}) n2
    = (None, n3) ->
    fst (deployContract web3 eth guard fuel req p) = Returned receipt
    /\ contracts (snd (deployContract web3 eth guard fuel req p))
       = storeContract (propertyKey (contractName contractJson)) contract
                       (contracts p)
    /\ lookupContract (propertyKey (contractName contractJson))
                      (contracts (snd (deployContract web3 eth guard fuel req p)))
       = Some contract
    /\ doings (snd (deployContract web3 eth guard fuel req p))
       = ([DoWriteFile path
             (JSON_stringify eth
                {| contractName := contractName contractJson;
                   abi := abi contractJson;
                   networks := Some (storeNetwork networkId (Some address) nets) |});
           DoReadFile path; DoNetGetId] ++ doings p)%list
    /\ lookupNetwork networkId (storeNetwork networkId (Some address) nets)
       = Some (Some address).
Proof.
  intros Node Abi Param Contract Method Output web3 eth guard fuel req p
         receipt c' address path networkId n1 text n2 contractJson contract nets n3.
  apply deployContract_bookkeeping.
Qed.

Lemma deployContract_records_the_contract_witness :
  fst (deployContract (scriptedWeb3 deployingNode) sampleEth tagIsNone 2
         (sampleDeployment PRIVATEKEYHEX) (freshPlugin (Some "contracts.json") []))
  = Returned {| transactionReceipt := deployedReceipt |}.
Proof.
  apply (proj1 (deployContract_records_the_contract
                  Clocked string string string string string
                  (scriptedWeb3 deployingNode) sampleEth tagIsNone 2
                  (sampleDeployment PRIVATEKEYHEX)
                  (freshPlugin (Some "contracts.json") [])
                  {| transactionReceipt := deployedReceipt |}
                  (snd (transact (scriptedWeb3 deployingNode) 2
                                 (deploymentRequest (sampleDeployment PRIVATEKEYHEX))
                                 (freshConnector [])))
                  "0xnew" "contracts.json" 10 {| clock := 0; attempts := O |}
                  "{}" {| clock := 0; attempts := O |} helloWorldJson "0xnew"
                  [(5, Some "0x0ld")] {| clock := 0; attempts := O |}
                  eq_refl eq_refl eq_refl eq_refl eq_refl eq_refl eq_refl eq_refl
                  eq_refl eq_refl)).
Defined.

(** ** Invocation through the contract cache *)

Section CacheFacts.

Context {Node Abi Param Contract Method Output : Type}.
Context (web3 : Web3 Node).
Context (eth : Web3Contracts Node Abi Param Contract Method Output).
Context (guard : Web3SigningCredential -> bool).

Lemma bindP_returned {A B} (m : Plugin Node Contract -> Outcome A * Plugin Node Contract)
      (k : A -> Plugin Node Contract -> Outcome B * Plugin Node Contract) p b :
  fst (bindP m k p) = Returned b ->
  exists a p', m p = (Returned a, p') /\ fst (k a p') = Returned b.
Proof.
  unfold bindP. destruct (m p) as [[a|e|] p']; simpl; try discriminate.
  intro H. exists a, p'. auto.
Qed.

(** With a contract in the cache the first block of [invokeContractV2] does
    nothing. *)
Lemma loadContractIfNone_cached name (p : Plugin Node Contract) :
  contracts p <> [] ->
  loadContractIfNone eth name p = (Returned tt, p).
Proof.
  intro Hcached. unfold loadContractIfNone, bindP, getPlugin.
  destruct (contracts p) as [|entry rest]; [congruence | reflexivity].
Qed.

(** [invokeContractV2] once the cache holds something. *)
Lemma invokeContractV2_cached fuel (req : InvokeContractV2Request.t Param)
      (p : Plugin Node Contract) :
  contracts p <> [] ->
  invokeContractV2 web3 eth guard fuel req p
  = match lookupContract (InvokeContractV2Request.contractName req) (contracts p) with
    | None => (Thrown (TypeError "methods"), p)
    | Some contractInstance =>
        bindP (applyMethod
                 (methods eth contractInstance
                          (InvokeContractV2Request.methodName req))
                 (InvokeContractV2Request.methodName req)
                 (InvokeContractV2Request.params req))
          (fun method =>
             match InvokeContractV2Request.invocationType req with
             | CALL =>
                 bindP (doing DoMethodCall (method_call eth method))
                       (fun callOutput => retP (V2CallOutput true callOutput))
             | SEND =>
                 let cred := InvokeContractV2Request.signingCredential req in
                 if guard cred
                 then throwP CannotDeployPreSignedTx
                 else
                   bindP (attempt (method_send_request eth method))
                     (fun transactionConfig =>
                        bindP (match InvokeContractV2Request.gas req with
                               | None => doing (DoEstimateGas transactionConfig)
                                               (eth_estimateGas eth transactionConfig)
                               | Some g => retP g
                               end)
                          (fun gas =>
                             bindP (inConnector
                                      (transact web3 fuel
                                         {| transactionConfig :=
                                              {| from := ethAccount cred;
                                                 to := to transactionConfig;
                                                 data := data transactionConfig;
                                                 gas := Some gas;
                                                 gasPrice :=
                                                   InvokeContractV2Request.gasPrice req;
                                                 value :=
                                                   InvokeContractV2Request.value req;
                                                 nonce := nonce transactionConfig;
                                                 rawTransaction :=
                                                   rawTransaction transactionConfig |};
                                            web3SigningCredential := cred;
                                            timeoutMs :=
                                              Some (timeoutMsOrDefault
                                                      (InvokeContractV2Request.timeoutMs
                                                         req)) |}))
                               (fun out =>
                                  retP (V2Transaction
                                          (status (transactionReceipt out)) out))))
             | UNSUPPORTED raw => throwP (UnsupportedInvocationType raw)
             end) p
    end.
Proof.
  intro Hcached. unfold invokeContractV2.
  unfold bindP at 1. rewrite (loadContractIfNone_cached _ p Hcached).
  unfold bindP at 1, getPlugin.
  destruct (lookupContract (InvokeContractV2Request.contractName req) (contracts p));
    reflexivity.
Qed.

End CacheFacts.

(** X22: [invokeContractV2] consults the contract file only when the cache
    is empty.  With an empty cache and no [contractsPath] it fails with the
    no-contract-instance error; with any contract in the cache, a contract
    name that is not cached fails with a [TypeError] on the missing
    instance, also when [contractsPath] is set, and nothing is read. *)
Theorem invokeContractV2_file_only_for_empty_cache :
  forall Node Abi Param Contract Method Output
         (web3 : Web3 Node)
         (eth : Web3Contracts Node Abi Param Contract Method Output)
         (guard : Web3SigningCredential -> bool) fuel
         (req : InvokeContractV2Request.t Param) (p : Plugin Node Contract),
    (contracts p = [] -> contractsPath p = None ->
     invokeContractV2 web3 eth guard fuel req p = (Thrown NoContractInstance, p))
    /\ (contracts p <> [] ->
        lookupContract (InvokeContractV2Request.contractName req) (contracts p)
        = None ->
        invokeContractV2 web3 eth guard fuel req p
        = (Thrown (TypeError "methods"), p)).
Proof.
  intros Node Abi Param Contract Method Output web3 eth guard fuel req p. split.
  - intros Hempty Hpath.
    unfold invokeContractV2, loadContractIfNone, bindP, getPlugin.
    rewrite Hempty, Hpath. reflexivity.
  - intros Hcached Hmissing.
    rewrite (invokeContractV2_cached web3 eth guard fuel req p Hcached).
    rewrite Hmissing. reflexivity.
Qed.

Lemma invokeContractV2_file_only_for_empty_cache_witness :
  invokeContractV2 (scriptedWeb3 promptNode) sampleEth tagIsNone 2
    (sampleInvocationV2 CALL "HelloWorld" PRIVATEKEYHEX)
    (freshPlugin (Some "contracts.json") [("Token", "0x70ken")])
  = (Thrown (TypeError "methods"),
     freshPlugin (Some "contracts.json") [("Token", "0x70ken")]).
Proof.
  apply (proj2 (invokeContractV2_file_only_for_empty_cache
                  Clocked string string string string string
                  (scriptedWeb3 promptNode) sampleEth tagIsNone 2
                  (sampleInvocationV2 CALL "HelloWorld" PRIVATEKEYHEX)
                  (freshPlugin (Some "contracts.json") [("Token", "0x70ken")])));
    [discriminate | reflexivity].
Defined.

(** X23: with an empty cache, a contract file whose [contractName] is not
    the requested one (or is missing) makes [invokeContractV2] fail with the
    name-mismatch error after the network id was asked and the file read;
    no contract object is built and the cache stays empty. *)
Theorem invokeContractV2_name_mismatch :
  forall Node Abi Param Contract Method Output
         (web3 : Web3 Node)
         (eth : Web3Contracts Node Abi Param Contract Method Output)
         (guard : Web3SigningCredential -> bool) fuel
         (req : InvokeContractV2Request.t Param) (p : Plugin Node Contract)
         path networkId n1 text n2 contractJson,
    contracts p = [] ->
    contractsPath p = Some path ->
    eth_net_getId eth (node (connector p)) = (Resolves networkId, n1) ->
    fs_readFileSync eth path n1 = (inr text, n2) ->
    JSON_parse_contract eth text = inr contractJson ->
    nameDiffers (contractName contractJson)
                (InvokeContractV2Request.contractName req) = true ->
    invokeContractV2 web3 eth guard fuel req p
    = (Thrown ContractNameMismatch,
       withNode n2 (DoReadFile path) (withNode n1 DoNetGetId p))
    /\ contracts (snd (invokeContractV2 web3 eth guard fuel req p)) = [].
Proof.
  intros Node Abi Param Contract Method Output web3 eth guard fuel req p
         path networkId n1 text n2 contractJson
         Hempty Hpath Hid Hread Hparse Hdiffers.
  assert (Hrun : invokeContractV2 web3 eth guard fuel req p
                 = (Thrown ContractNameMismatch,
                    withNode n2 (DoReadFile path) (withNode n1 DoNetGetId p))).
  { unfold invokeContractV2, loadContractIfNone.
    unfold bindP at 1. unfold bindP at 1. unfold getPlugin at 1.
    rewrite Hempty, Hpath.
    unfold bindP at 1. unfold doing. rewrite Hid.
    unfold bindP at 1. unfold readFileSync.
    cbn [withNode connector node]. rewrite Hread.
    unfold bindP at 1. unfold attempt at 1. rewrite Hparse. unfold retP at 1.
    rewrite Hdiffers. reflexivity. }
  rewrite Hrun. split; [reflexivity | exact Hempty].
Qed.

Lemma invokeContractV2_name_mismatch_witness :
  fst (invokeContractV2 (scriptedWeb3 promptNode) sampleEth tagIsNone 2
         (sampleInvocationV2 CALL "Token" PRIVATEKEYHEX)
         (freshPlugin (Some "contracts.json") []))
  = Thrown ContractNameMismatch.
Proof.
  destruct (invokeContractV2_name_mismatch
              Clocked string string string string string
              (scriptedWeb3 promptNode) sampleEth tagIsNone 2
              (sampleInvocationV2 CALL "Token" PRIVATEKEYHEX)
              (freshPlugin (Some "contracts.json") [])
              "contracts.json" 10 {| clock := 0; attempts := O |} "{}"
              {| clock := 0; attempts := O |} helloWorldJson
              eq_refl eq_refl eq_refl eq_refl eq_refl eq_refl) as [Hrun _].
  rewrite Hrun. reflexivity.
Defined.

(** X24: the [success] flag of [invokeContractV2].  Once the cached contract
    and the method object are there, a CALL whose [call()] resolves returns
    the output with [success: true]; a SEND whose credential passes the guard
    returns, whenever [transact] is fulfilled, the transaction with
    [success] equal to the [status] of its receipt, so a mined transaction
    that failed is returned with [success: false] and not thrown, and it
    fails or stays unsettled only as [transact] does.  Conversely every
    result with a call output comes from a CALL and says [success: true],
    and every result with a transaction comes from such a SEND and carries
    the receipt's status. *)
Theorem invokeContractV2_success_flag :
  forall Node Abi Param Contract Method Output
         (web3 : Web3 Node)
         (eth : Web3Contracts Node Abi Param Contract Method Output)
         (guard : Web3SigningCredential -> bool) fuel
         (req : InvokeContractV2Request.t Param) (p : Plugin Node Contract),
    (forall r,
        fst (invokeContractV2 web3 eth guard fuel req p) = Returned r ->
        match r with
        | V2CallOutput success _ =>
            success = true /\ InvokeContractV2Request.invocationType req = CALL
        | V2Transaction success out =>
            success = status (transactionReceipt out)
            /\ InvokeContractV2Request.invocationType req = SEND
            /\ guard (InvokeContractV2Request.signingCredential req) = false
        end)
    /\ (forall contractInstance f method,
           contracts p <> [] ->
           lookupContract (InvokeContractV2Request.contractName req) (contracts p)
           = Some contractInstance ->
           methods eth contractInstance (InvokeContractV2Request.methodName req)
           = Some f ->
           f (InvokeContractV2Request.params req) = inr method ->
           (InvokeContractV2Request.invocationType req = CALL ->
            fst (invokeContractV2 web3 eth guard fuel req p)
            = match fst (method_call eth method (node (connector p))) with
              | Resolves callOutput => Returned (V2CallOutput true callOutput)
              | Rejects message => Thrown (Inner (ExternalError message))
              | NeverSettles => Unsettled
              end)
           /\ (forall payload g afterGas,
                  InvokeContractV2Request.invocationType req = SEND ->
                  guard (InvokeContractV2Request.signingCredential req) = false ->
                  method_send_request eth method = inr payload ->
                  match InvokeContractV2Request.gas req with
                  | Some given => given = g /\ afterGas = connector p
                  | None =>
                      exists n',
                        eth_estimateGas eth payload (node (connector p))
                        = (Resolves g, n')
                        /\ afterGas
                           = connector (withNode n' (DoEstimateGas payload) p)
                  end ->
                  fst (invokeContractV2 web3 eth guard fuel req p)
                  = match fst (transact web3 fuel
                                 {| transactionConfig :=
                                      {| from := ethAccount
                                                   (InvokeContractV2Request.signingCredential req);
                                         to := to payload;
                                         data := data payload;
                                         gas := Some g;
                                         gasPrice := InvokeContractV2Request.gasPrice req;
                                         value := InvokeContractV2Request.value req;
                                         nonce := nonce payload;
                                         rawTransaction := rawTransaction payload |};
                                    web3SigningCredential :=
                                      InvokeContractV2Request.signingCredential req;
                                    timeoutMs :=
                                      Some (timeoutMsOrDefault
                                              (InvokeContractV2Request.timeoutMs req)) |}
                                 afterGas) with
                    | Fulfilled out =>
                        Returned (V2Transaction (status (transactionReceipt out)) out)
                    | Rejected e => Thrown (Inner e)
                    | Pending => Unsettled
                    end)).
Proof.
  intros Node Abi Param Contract Method Output web3 eth guard fuel req p.
  split.
  - intros r Hout.
    unfold invokeContractV2 in Hout.
    apply bindP_returned in Hout. destruct Hout as ([] & p1 & _ & Hout).
    apply bindP_returned in Hout. destruct Hout as (p2 & p3 & Hget & Hout).
    destruct (lookupContract (InvokeContractV2Request.contractName req)
                             (contracts p2))
      as [contractInstance|]; [ | discriminate].
    apply bindP_returned in Hout. destruct Hout as (method & p4 & _ & Hout).
    destruct (InvokeContractV2Request.invocationType req); [ | | discriminate].
    + cbv zeta in Hout.
      destruct (guard (InvokeContractV2Request.signingCredential req));
        [discriminate | ].
      apply bindP_returned in Hout. destruct Hout as (cfg & p5 & _ & Hout).
      apply bindP_returned in Hout. destruct Hout as (g & p6 & _ & Hout).
      apply bindP_returned in Hout. destruct Hout as (out & p7 & _ & Hout).
      inversion Hout. auto.
    + apply bindP_returned in Hout. destruct Hout as (o & p5 & _ & Hout).
      inversion Hout. auto.
  - intros contractInstance f method Hcached Hlookup Hmethods Hmethod.
    rewrite (invokeContractV2_cached web3 eth guard fuel req p Hcached).
    rewrite Hlookup, Hmethods.
    split.
    + intro Hcall.
      unfold bindP at 1. unfold applyMethod. unfold attempt at 1. rewrite Hmethod.
      unfold retP at 1.
      rewrite Hcall. unfold bindP, doing, retP.
      destruct (method_call eth method (node (connector p))) as [[o|message|] n'];
        reflexivity.
    + intros payload g afterGas Hsend Hguard Hpayload Hgas.
      unfold bindP at 1. unfold applyMethod. unfold attempt at 1. rewrite Hmethod.
      unfold retP at 1.
      rewrite Hsend. cbv zeta. rewrite Hguard.
      unfold bindP at 1. unfold attempt. rewrite Hpayload. unfold retP at 1.
      unfold bindP at 1.
      destruct (InvokeContractV2Request.gas req) as [given|].
      * destruct Hgas as [Hg Hafter]. subst given afterGas.
        unfold retP at 1. unfold bindP. rewrite inConnector_run.
        match goal with
        | |- context [settled ?r] => destruct r
        end; reflexivity.
      * destruct Hgas as (n' & Hestimate & Hafter). subst afterGas.
        unfold doing. rewrite Hestimate.
        unfold bindP. rewrite inConnector_run.
        match goal with
        | |- context [settled ?r] => destruct r
        end; reflexivity.
Qed.

Lemma invokeContractV2_success_flag_witness :
  fst (invokeContractV2 (scriptedWeb3 revertingNode) sampleEth tagIsNone 2
         (sampleInvocationV2 SEND "HelloWorld" PRIVATEKEYHEX)
         (freshPlugin None [("HelloWorld", "0xc0ffee")]))
  = Returned (V2Transaction false {| transactionReceipt := revertedReceipt |})
  /\ fst (invokeContractV2 (scriptedWeb3 revertingNode) sampleEth tagIsNone 2
            (sampleInvocationV2 CALL "HelloWorld" PRIVATEKEYHEX)
            (freshPlugin None [("HelloWorld", "0xc0ffee")]))
     = Returned (V2CallOutput true "output of getSingleStatus")
  /\ (false = status (transactionReceipt {| transactionReceipt := revertedReceipt |})
      /\ InvokeContractV2Request.invocationType
           (sampleInvocationV2 SEND "HelloWorld" PRIVATEKEYHEX) = SEND
      /\ tagIsNone (InvokeContractV2Request.signingCredential
                      (sampleInvocationV2 SEND "HelloWorld" PRIVATEKEYHEX)) = false).
Proof.
  split; [ | split].
  - destruct (invokeContractV2_success_flag
                Clocked string string string string string
                (scriptedWeb3 revertingNode) sampleEth tagIsNone 2
                (sampleInvocationV2 SEND "HelloWorld" PRIVATEKEYHEX)
                (freshPlugin None [("HelloWorld", "0xc0ffee")]))
      as [_ Hexact].
    destruct (Hexact "0xc0ffee" (fun _ => inr "getSingleStatus") "getSingleStatus"
                     ltac:(discriminate) eq_refl eq_refl eq_refl)
      as [_ Hsend].
    apply (Hsend samplePayload "6721975" (freshConnector [])); try reflexivity.
    split; reflexivity.
  - destruct (invokeContractV2_success_flag
                Clocked string string string string string
                (scriptedWeb3 revertingNode) sampleEth tagIsNone 2
                (sampleInvocationV2 CALL "HelloWorld" PRIVATEKEYHEX)
                (freshPlugin None [("HelloWorld", "0xc0ffee")]))
      as [_ Hexact].
    destruct (Hexact "0xc0ffee" (fun _ => inr "getSingleStatus") "getSingleStatus"
                     ltac:(discriminate) eq_refl eq_refl eq_refl)
      as [Hcall _].
    apply Hcall. reflexivity.
  - apply (proj1 (invokeContractV2_success_flag
                    Clocked string string string string string
                    (scriptedWeb3 revertingNode) sampleEth tagIsNone 2
                    (sampleInvocationV2 SEND "HelloWorld" PRIVATEKEYHEX)
                    (freshPlugin None [("HelloWorld", "0xc0ffee")]))
                 (V2Transaction false {| transactionReceipt := revertedReceipt |})).
    reflexivity.
Defined.

(** X25: deployment and invocation compose through the cache.  After a
    [deployContract] whose bookkeeping succeeded, an [invokeContractV2] CALL
    for the contract name of the JSON file goes to the contract object that
    [deployContract] built for the new address: the file is not read again,
    the network id is not asked, and the invocation settles as the method's
    [call()] does. *)
Theorem deployContract_then_invokeContractV2 :
  forall Node Abi Param Contract Method Output
         (web3 : Web3 Node)
         (eth : Web3Contracts Node Abi Param Contract Method Output)
         (guard : Web3SigningCredential -> bool) fuel fuel'
         (req : DeployContractSolidityBytecodeV1Request.t)
         (invocation : InvokeContractV2Request.t Param)
         (p : Plugin Node Contract)
         receipt c' address path networkId n1 text n2 contractJson contract nets n3
         f method,
    guard (DeployContractSolidityBytecodeV1Request.web3SigningCredential req)
    = false ->
    transact web3 fuel (deploymentRequest req) (connector p)
    = (Fulfilled receipt, c') ->
    contractAddress (transactionReceipt receipt) = Some address ->
    contractsPath p = Some path ->
    eth_net_getId eth (node c') = (Resolves networkId, n1) ->
    fs_readFileSync eth path n1 = (inr text, n2) ->
    JSON_parse_contract eth text = inr contractJson ->
    eth_Contract eth (abi contractJson) (Some address) = inr contract ->
    networks contractJson = Some nets ->
    fs_writeFileSync eth path
      (JSON_stringify eth
         {| contractName := contractName contractJson;
            abi := abi contractJson;
            networks := Some (storeNetwork networkId (Some address) nets) |}) n2
    = (None, n3) ->
    contractName contractJson
    = Some (InvokeContractV2Request.contractName invocation) ->
    InvokeContractV2Request.invocationType invocation = CALL ->
    methods eth contract (InvokeContractV2Request.methodName invocation) = Some f ->
    f (InvokeContractV2Request.params invocation) = inr method ->
    let deployed := snd (deployContract web3 eth guard fuel req p) in
    invokeContractV2 web3 eth guard fuel' invocation deployed
    = (match fst (method_call eth method (node (connector deployed))) with
       | Resolves callOutput => Returned (V2CallOutput true callOutput)
       | Rejects message => Thrown (Inner (ExternalError message))
       | NeverSettles => Unsettled
       end,
       withNode (snd (method_call eth method (node (connector deployed))))
                DoMethodCall deployed).
Proof.
  intros Node Abi Param Contract Method Output web3 eth guard fuel fuel'
         req invocation p
         receipt c' address path networkId n1 text n2 contractJson contract nets n3
         f method
         Hguard Htransact Haddress Hpath Hid Hread Hparse Hcontract Hnets Hwrite
         Hname Hcall Hmethods Hmethod deployed.
  destruct (deployContract_bookkeeping
              Node Abi Param Contract Method Output web3 eth guard fuel req p
              receipt c' address path networkId n1 text n2 contractJson contract
              nets n3
              Hguard Htransact Haddress Hpath Hid Hread Hparse Hcontract Hnets Hwrite)
    as (_ & Hcache & Hlookup & _).
  fold deployed in Hcache, Hlookup.
  rewrite Hname in Hlookup. cbn [propertyKey] in Hlookup.
  assert (Hcached : contracts deployed <> []).
  { rewrite Hcache. unfold storeContract. discriminate. }
  rewrite (invokeContractV2_cached web3 eth guard fuel' invocation deployed Hcached).
  rewrite Hlookup, Hmethods.
  unfold bindP at 1. unfold applyMethod, attempt. rewrite Hmethod. unfold retP at 1.
  rewrite Hcall. unfold bindP, doing, retP.
  destruct (method_call eth method (node (connector deployed))) as [[o|message|] n'];
    reflexivity.
Qed.

Lemma deployContract_then_invokeContractV2_witness :
  fst (invokeContractV2 (scriptedWeb3 deployingNode) sampleEth tagIsNone 2
         (sampleInvocationV2 CALL "HelloWorld" PRIVATEKEYHEX)
         (snd (deployContract (scriptedWeb3 deployingNode) sampleEth tagIsNone 2
                 (sampleDeployment PRIVATEKEYHEX)
                 (freshPlugin (Some "contracts.json") []))))
  = Returned (V2CallOutput true "output of getSingleStatus").
Proof.
  rewrite (deployContract_then_invokeContractV2
             Clocked string string string string string
             (scriptedWeb3 deployingNode) sampleEth tagIsNone 2 2
             (sampleDeployment PRIVATEKEYHEX)
             (sampleInvocationV2 CALL "HelloWorld" PRIVATEKEYHEX)
             (freshPlugin (Some "contracts.json") [])
             {| transactionReceipt := deployedReceipt |}
             (snd (transact (scriptedWeb3 deployingNode) 2
                            (deploymentRequest (sampleDeployment PRIVATEKEYHEX))
                            (freshConnector [])))
             "0xnew" "contracts.json" 10 {| clock := 0; attempts := O |}
             "{}" {| clock := 0; attempts := O |} helloWorldJson "0xnew"
             [(5, Some "0x0ld")] {| clock := 0; attempts := O |}
             (fun _ => inr "getSingleStatus") "getSingleStatus"
             eq_refl eq_refl eq_refl eq_refl eq_refl eq_refl eq_refl eq_refl
             eq_refl eq_refl eq_refl eq_refl eq_refl eq_refl).
  reflexivity.
Defined.

(** X26: in a SEND through [invokeContractV2] with a PRIVATEKEYHEX
    credential the transaction that is signed keeps the nonce of the
    method's payload (this request has none to give), while [from], [gas],
    [gasPrice] and [value] are overwritten from the credential and the
    request as in [invokeContract]. *)
Theorem invokeContractV2_send_keeps_payload_nonce :
  forall Node Abi Param Contract Method Output
         (web3 : Web3 Node)
         (eth : Web3Contracts Node Abi Param Contract Method Output)
         (guard : Web3SigningCredential -> bool) fuel
         (req : InvokeContractV2Request.t Param) (p : Plugin Node Contract)
         contractInstance f method payload g,
    contracts p <> [] ->
    lookupContract (InvokeContractV2Request.contractName req) (contracts p)
    = Some contractInstance ->
    methods eth contractInstance (InvokeContractV2Request.methodName req) = Some f ->
    f (InvokeContractV2Request.params req) = inr method ->
    InvokeContractV2Request.invocationType req = SEND ->
    guard (InvokeContractV2Request.signingCredential req) = false ->
    type (InvokeContractV2Request.signingCredential req) = PRIVATEKEYHEX ->
    method_send_request eth method = inr payload ->
    match InvokeContractV2Request.gas req with
    | Some given => given = g
    | None => fst (eth_estimateGas eth payload (node (connector p))) = Resolves g
    end ->
    exists l,
      calls (connector (snd (invokeContractV2 web3 eth guard fuel req p)))
      = (l ++ CallSignTransaction
                {| from := ethAccount (InvokeContractV2Request.signingCredential req);
                   to := to payload;
                   data := data payload;
                   gas := Some g;
                   gasPrice := InvokeContractV2Request.gasPrice req;
                   value := InvokeContractV2Request.value req;
                   nonce := nonce payload;
                   rawTransaction := rawTransaction payload |}
                (secret (InvokeContractV2Request.signingCredential req))
           :: calls (connector p))%list.
Proof.
  intros Node Abi Param Contract Method Output web3 eth guard fuel req p
         contractInstance f method payload g
         Hcached Hlookup Hmethods Hmethod Hsend Hguard Htag Hpayload Hgas.
  rewrite (invokeContractV2_cached web3 eth guard fuel req p Hcached).
  rewrite Hlookup, Hmethods.
  unfold bindP at 1. unfold applyMethod. unfold attempt at 1. rewrite Hmethod.
  unfold retP at 1. rewrite Hsend. cbv zeta. rewrite Hguard.
  unfold bindP at 1. unfold attempt. rewrite Hpayload. unfold retP at 1.
  unfold bindP at 1.
  destruct (InvokeContractV2Request.gas req) as [given|].
  - subst given. unfold retP at 1. unfold bindP. rewrite inConnector_run.
    unfold transact. cbn [web3SigningCredential transactionConfig]. rewrite Htag.
    match goal with
    | |- context [settled ?r] => destruct (settled r)
    end; unfold retP, withConnector; cbn [snd connector];
      rewrite transactPrivateKey_calls_exactly;
      cbn [web3SigningCredential transactionConfig]; eexists; reflexivity.
  - unfold doing.
    destruct (eth_estimateGas eth payload (node (connector p))) as [r n'].
    simpl in Hgas. subst r. unfold bindP. rewrite inConnector_run.
    unfold transact. cbn [web3SigningCredential transactionConfig]. rewrite Htag.
    match goal with
    | |- context [settled ?r] => destruct (settled r)
    end; unfold retP, withConnector; cbn [snd connector];
      rewrite transactPrivateKey_calls_exactly;
      cbn [web3SigningCredential transactionConfig withNode connector calls];
      eexists; reflexivity.
Qed.

Lemma invokeContractV2_send_keeps_payload_nonce_witness :
  exists l,
    calls (connector
             (snd (invokeContractV2 (scriptedWeb3 promptNode) sampleEth tagIsNone 2
                     (sampleInvocationV2 SEND "HelloWorld" PRIVATEKEYHEX)
                     (freshPlugin None [("HelloWorld", "0xc0ffee")]))))
    = (l ++ [CallSignTransaction
               {| from := Some "0x123"; to := Some "0xc0ffee";
                  data := Some "0xa9059cbb"; gas := Some "6721975";
                  gasPrice := None; value := None; nonce := Some "7";
                  rawTransaction := None |}
               (Some "0xdeadbeef")])%list.
Proof.
  apply (invokeContractV2_send_keeps_payload_nonce
           Clocked string string string string string
           (scriptedWeb3 promptNode) sampleEth tagIsNone 2
           (sampleInvocationV2 SEND "HelloWorld" PRIVATEKEYHEX)
           (freshPlugin None [("HelloWorld", "0xc0ffee")])
           "0xc0ffee" (fun _ => inr "getSingleStatus") "getSingleStatus"
           samplePayload "6721975").
  - discriminate.
  - reflexivity.
  - reflexivity.
  - reflexivity.
  - reflexivity.
  - reflexivity.
  - reflexivity.
  - reflexivity.
  - reflexivity.
Defined.
